(** * Wallet service: the transactional ledger core

    A shallow embedding of the ledger core of the wallet service
    (services/walletService.js, config/database.js, the history schema of
    middleware/validation.js and the SQL function verify_balance_integrity
    of migrations/001_schema.sql) and of what answers a request around it
    (controllers/walletController.js, middleware/errorHandler.js), followed
    by the properties proved about them.

    Modelling decisions.
    - A JavaScript number is an IEEE-754 binary64 value: the primitive
      [float] of the prover, whose operations are specified by the
      standard library against [SpecFloat].
    - A NUMERIC(20,8) column holds an integer count of units of 10^-8.
      [parseFloat] is the correctly rounded decimal-to-binary conversion the
      service applies to a column read back as text; [toNumeric] is the
      coercion the store applies to a number bound to a NUMERIC(20,8)
      parameter (shortest round-tripping decimal text of the number, then
      rounding to eight fractional digits, ties away from zero).
    - Tables are lists of rows in insertion order.  Of the schema's
      constraints the model keeps the primary key and the unique reference
      of transactions, the primary key of idempotency_keys (through ON
      CONFLICT) and the range of NUMERIC(20,8); foreign keys are not
      checked, every row the service writes refers to rows it has just read.
    - A column of type uuid holds a 128-bit value, which the driver hands
      to the service as its canonical text; the rows of the model hold that
      text.  A text the service binds to a parameter of type uuid is read by
      the input function of the store, [uuid_in], which gives the canonical
      text of the value or raises 22P02.  The ids the service passes on
      from a row it has read, or from [uuidv4()], are canonical already.
    - ORDER BY on a creation time leaves the order of rows of one and the
      same time to the store.  [order_by_desc] is one such order; what is
      proved of a page is stated for some order that has the more recent
      rows first, and holds of every such order.
    - [toUpperCase] is the method of JavaScript on ASCII text, which is
      what the properties of [listAccounts] assume of its filters: the
      upper case of other characters is not modelled.
    - A text is the sequence of its bytes.  Equality of texts is the one
      of JavaScript; their order is the order [sort()] puts them in when
      they are ASCII text, as the texts of uuids are.
    - [uuidv4()], [new Date()], [NOW()] and [Math.random()] are inputs.
    - Error messages are not modelled: an error is its [code] and
      [statusCode]. *)

From Stdlib Require Import ZArith NArith List Lia Bool String Ascii Floats.
From Stdlib Require Import Sorting.Sorted Sorting.Permutation.
From Stdlib Require QArith.
Import ListNotations.

Open Scope Z_scope.

(** ** Numbers *)

Definition number := float.

(** A NUMERIC(20,8) value, counted in units of 10^-8. *)
Definition numeric := Z.

Definition scale : positive := 100000000%positive.

(** NUMERIC(20,8) holds magnitudes below 10^12, that is below 10^20 units. *)
Definition numeric_limit : Z := 10 ^ 20.

(** [parseFloat] of the decimal text of a NUMERIC(20,8) value: the binary64
    number nearest to [n / 10^8]. *)
Definition parseFloat (n : numeric) : number :=
  match n with
  | Z0 => zero
  | Zpos p => SF2Prim (SF64div (S754_finite false p 0) (S754_finite false scale 0))
  | Zneg p => SF2Prim (SF64div (S754_finite true p 0) (S754_finite false scale 0))
  end.

(** The binary64 number nearest to [c * 10^q], for a positive integer [c]. *)
Definition decimal_to_binary (c : positive) (q : Z) : spec_float :=
  match q with
  | Zneg k => SF64div (S754_finite false c 0)
                      (S754_finite false (Pos.pow 10 k) 0)
  | _ => binary_normalize prec emax (Zpos c * 10 ^ q) 0 false
  end.

Definition same_finite (x : spec_float) (m : positive) (e : Z) : bool :=
  match x with
  | S754_finite false m' e' => Pos.eqb m' m && Z.eqb e' e
  | _ => false
  end.

(** Number::toString of the positive finite number [m * 2^e]: the decimal
    [c * 10^q] with the fewest digits that reads back as the same number,
    the closer one when two candidates of that length do.  The search goes
    down from the exponent [q]; [x = num / den]. *)
Fixpoint shortest_from (fuel : nat) (m : positive) (e : Z) (num den : Z) (q : Z)
  : Z * Z :=
  let lo := match q with
            | Zneg k => (num * 10 ^ Zpos k) / den
            | _ => num / (den * 10 ^ q)
            end in
  let ok c := match c with
              | Zpos p => same_finite (decimal_to_binary p q) m e
              | _ => false
              end in
  let lo_closer := match q with
                   | Zneg k => 2 * num * 10 ^ Zpos k <=? (2 * lo + 1) * den
                   | _ => 2 * num <=? (2 * lo + 1) * den * 10 ^ q
                   end in
  match ok lo, ok (lo + 1) with
  | true, true => if lo_closer then (lo, q) else (lo + 1, q)
  | true, false => (lo, q)
  | false, true => (lo + 1, q)
  | false, false =>
      match fuel with
      | O => (lo, q)
      | S fuel' => shortest_from fuel' m e num den (q - 1)
      end
  end.

(** Number of decimal digits of a non-negative integer, at most [fuel]. *)
Fixpoint decimal_digits (fuel : nat) (n : Z) : Z :=
  match fuel with
  | O => 0
  | S fuel' => if n <=? 0 then 0 else 1 + decimal_digits fuel' (n / 10)
  end.

Definition shortest_decimal (m : positive) (e : Z) : Z * Z :=
  let num := match e with Zneg _ => Zpos m | _ => Zpos m * 2 ^ e end in
  let den := match e with Zneg k => 2 ^ Zpos k | _ => 1 end in
  shortest_from 1500 m e num den (decimal_digits 400 (num / den)).

(** The magnitude, in units of 10^-8, the store keeps of the decimal
    [c * 10^q]: rounding to eight fractional digits, ties away from zero. *)
Definition round_to_scale (c q : Z) : N :=
  match (q + 8)%Z with
  | Zneg k => Z.to_N ((2 * c + 10 ^ Zpos k) / (2 * 10 ^ Zpos k))%Z
  | s => Z.to_N (c * 10 ^ s)%Z
  end.

(** A number bound to a NUMERIC(20,8) parameter.  [None] is the store
    refusing the value (numeric field overflow, 22003).  An infinity and
    NaN, for which [numeric] has no value, are [None] here as well; the
    store would keep NaN.  No flow binds either, the amount of a request
    and the balances read back being finite numbers within range. *)
Definition toNumeric (x : number) : option numeric :=
  match Prim2SF x with
  | S754_zero _ => Some 0
  | S754_finite s m e =>
      let (c, q) := shortest_decimal m e in
      let mag := Z.of_N (round_to_scale c q) in
      if mag <? numeric_limit then Some (cond_Zopp s mag) else None
  | _ => None
  end.

(** [Math.min] and [Math.pow(2, n)] for a small non-negative integer [n]. *)
Definition Math_min (x y : number) : number :=
  if orb (is_nan x) (is_nan y) then nan
  else if PrimFloat.ltb y x then y else x.

Definition Math_pow2 (n : nat) : number := Z.ldexp one (Z.of_nat n).

(** ** The store *)

Definition uuid := string.

Inductive account_type := SYSTEM | USER.

Inductive transaction_type := TOP_UP | BONUS | SPEND.

Definition account_type_eqb (a b : account_type) : bool :=
  match a, b with
  | SYSTEM, SYSTEM | USER, USER => true
  | _, _ => false
  end.

Definition transaction_type_eqb (a b : transaction_type) : bool :=
  match a, b with
  | TOP_UP, TOP_UP | BONUS, BONUS | SPEND, SPEND => true
  | _, _ => false
  end.

(** Rows of the tables accounts, account_balances, transactions,
    ledger_entries and idempotency_keys.  Timestamps are milliseconds. *)
Record accounts_row := {
  a_id : uuid;
  a_external_id : option string;
  a_account_type : account_type;
  a_name : string;
  a_asset_type_id : uuid;
  a_is_active : bool
}.

Record account_balances_row := {
  ab_account_id : uuid;
  ab_asset_type_id : uuid;
  ab_balance : numeric;
  ab_version : Z;
  ab_updated_at : Z
}.

Record transactions_row := {
  t_id : uuid;
  t_type : transaction_type;
  t_reference_id : string;
  t_description : string;
  t_metadata : string;
  t_created_at : Z
}.

Record ledger_entries_row := {
  le_transaction_id : uuid;
  le_account_id : uuid;
  le_asset_type_id : uuid;
  le_amount : numeric;
  le_balance_after : numeric
}.

(** The response object of a flow.  [idempotent] is [None] when the key is
    absent from the object. *)
Record response := {
  transactionId : uuid;
  referenceId : string;
  type : transaction_type;
  accountId : uuid;
  amount : number;
  balanceAfter : number;
  description : string;
  createdAt : Z;
  idempotent : option bool
}.

Record idempotency_keys_row := {
  ik_key : string;
  ik_response_status : Z;
  ik_response_body : response;
  ik_created_at : Z;
  ik_expires_at : Z
}.

(** The statements the service sends to the store. *)
Inductive statement :=
| SELECT_idempotency_keys
| SELECT_accounts_by_external_id
| SELECT_accounts_FOR_UPDATE
| INSERT_transactions
| INSERT_ledger_entries
| UPDATE_account_balances
| INSERT_idempotency_keys
| SELECT_accounts_active
| SELECT_ledger_entries_page
| SELECT_ledger_entries_count
| SELECT_verify_balance_integrity.

(** The state a client sees inside one transaction: the five tables, the
    balance rows it has locked so far (FOR UPDATE OF ab), in the order the
    locks were taken, the statements it has sent, oldest first, and
    [NOW()], the start time of the transaction. *)
Record session := {
  accounts : list accounts_row;
  account_balances : list account_balances_row;
  transactions : list transactions_row;
  ledger_entries : list ledger_entries_row;
  idempotency_keys : list idempotency_keys_row;
  locked : list uuid;
  sent : list statement;
  NOW : Z
}.

(** An error object: [err.code] and [err.statusCode]. *)
Record error := {
  code : option string;
  statusCode : option Z
}.

Inductive result (A : Type) :=
| Ok (a : A)
| Throw (e : error).
Arguments Ok {A} a.
Arguments Throw {A} e.

(** An asynchronous function over a client: it reads and changes the
    session, and returns or throws.  A throw keeps the session as it was
    when the error was raised; rolling it back is [withTransaction]'s
    part. *)
Definition M (A : Type) := session -> result A * session.

Definition ret {A} (a : A) : M A := fun s => (Ok a, s).

Definition throw {A} (e : error) : M A := fun s => (Throw e, s).

Definition bind {A B} (m : M A) (k : A -> M B) : M B :=
  fun s => match m s with
           | (Ok a, s') => k a s'
           | (Throw e, s') => (Throw e, s')
           end.

Notation "x <- m ;; k" := (bind m (fun x => k))
  (at level 61, m at next level, right associativity).
Notation "m ;;; k" := (bind m (fun _ => k))
  (at level 61, right associativity).

Definition pg_error (sqlstate : string) : error :=
  {| code := Some sqlstate; statusCode := None |}.

Definition unique_violation : error := pg_error "23505".
Definition numeric_value_out_of_range : error := pg_error "22003".
Definition invalid_text_representation : error := pg_error "22P02".
Definition invalid_row_count_in_limit_clause : error := pg_error "2201W".
Definition invalid_row_count_in_result_offset_clause : error := pg_error "2201X".

(** ** The input of a uuid

    The input function of the type uuid reads 16 bytes, each written as two
    hexadecimal digits of either case; a hyphen may follow every second
    byte but the last, and the whole may stand in braces.  Anything else is
    an invalid text representation (22P02).  The value is written back in
    lower case, in groups of 8, 4, 4, 4 and 12 digits. *)
Definition isxdigit (c : ascii) : bool :=
  let n := N_of_ascii c in
  ((48 <=? n) && (n <=? 57) || (65 <=? n) && (n <=? 70)
   || (97 <=? n) && (n <=? 102))%N.

Definition tolower_xdigit (c : ascii) : ascii :=
  let n := N_of_ascii c in
  if ((65 <=? n) && (n <=? 70))%N then ascii_of_N (n + 32) else c.

(** The bytes [i], [i + 1], ... of the value, [todo] of them, read from
    [src]: their canonical text and what is left of [src]. *)
Fixpoint string_to_uuid (todo i : nat) (src : string)
  : option (string * string) :=
  match todo with
  | O => Some (EmptyString, src)
  | S todo' =>
      match src with
      | String a (String b rest) =>
          if isxdigit a && isxdigit b then
            let rest' :=
              match rest with
              | String "-" after =>
                  if Nat.odd i && (i <? 15)%nat then after else rest
              | _ => rest
              end in
            match string_to_uuid todo' (S i) rest' with
            | Some (out, tl) =>
                Some (String (tolower_xdigit a)
                        (String (tolower_xdigit b)
                           (if existsb (Nat.eqb i) [3; 5; 7; 9]%nat
                            then String "-" out else out)),
                      tl)
            | None => None
            end
          else None
      | _ => None
      end
  end.

Definition uuid_in (text : string) : option uuid :=
  let braces := match text with String "{" _ => true | _ => false end in
  let src := match text with String "{" r => r | _ => text end in
  match string_to_uuid 16 0 src with
  | Some (out, tl) =>
      if braces
      then match tl with
           | String "}" EmptyString => Some out
           | _ => None
           end
      else match tl with
           | EmptyString => Some out
           | _ => None
           end
  | None => None
  end.

(** A statement whose [$1] is a uuid: the text is read when the parameters
    are bound, before the statement runs. *)
Definition with_uuid {A} (text : string) (k : uuid -> M A) : M A :=
  match uuid_in text with
  | Some u => k u
  | None => throw invalid_text_representation
  end.

(** [$1::uuid[]]: every element is read, and one that cannot be fails the
    statement. *)
Fixpoint uuid_array_in (texts : list string) : option (list uuid) :=
  match texts with
  | [] => Some []
  | x :: r =>
      match uuid_in x, uuid_array_in r with
      | Some u, Some us => Some (u :: us)
      | _, _ => None
      end
  end.

(** The object a row of [SELECT a.*, ab.balance, ab.version] becomes;
    [version] is [None] where the query does not select it. *)
Record Account := {
  id : uuid;
  external_id : option string;
  account_type_of : account_type;
  name : string;
  asset_type_id : uuid;
  is_active : bool;
  balance : numeric;
  version : option Z
}.

Definition join_row (with_version : bool) (a : accounts_row)
  (ab : account_balances_row) : Account :=
  {| id := a_id a; external_id := a_external_id a;
     account_type_of := a_account_type a; name := a_name a;
     asset_type_id := a_asset_type_id a; is_active := a_is_active a;
     balance := ab_balance ab;
     version := if with_version then Some (ab_version ab) else None |}.

(** [accounts a JOIN account_balances ab ON ab.account_id = a.id WHERE p a]. *)
Definition accounts_join_balances (with_version : bool)
  (p : accounts_row -> bool) (s : session) : list Account :=
  flat_map (fun a =>
              map (join_row with_version a)
                (filter (fun ab => String.eqb (ab_account_id ab) (a_id a))
                   (account_balances s)))
    (filter p (accounts s)).

Definition string_opt_eqb (o : option string) (x : string) : bool :=
  match o with
  | Some y => String.eqb y x
  | None => false
  end.

Definition record (q : statement) (s : session) : session :=
  {| accounts := accounts s; account_balances := account_balances s;
     transactions := transactions s; ledger_entries := ledger_entries s;
     idempotency_keys := idempotency_keys s; locked := locked s;
     sent := sent s ++ [q]; NOW := NOW s |}.

(** [client.query]: the statement is recorded, then takes effect. *)
Definition query {A} (q : statement) (f : M A) : M A :=
  fun s => f (record q s).

Definition lock_rows (ids : list uuid) (s : session) : session :=
  {| accounts := accounts s; account_balances := account_balances s;
     transactions := transactions s; ledger_entries := ledger_entries s;
     idempotency_keys := idempotency_keys s; locked := locked s ++ ids;
     sent := sent s; NOW := NOW s |}.

Definition set_transactions (l : list transactions_row) (s : session) : session :=
  {| accounts := accounts s; account_balances := account_balances s;
     transactions := l; ledger_entries := ledger_entries s;
     idempotency_keys := idempotency_keys s; locked := locked s;
     sent := sent s; NOW := NOW s |}.

Definition set_ledger_entries (l : list ledger_entries_row) (s : session) : session :=
  {| accounts := accounts s; account_balances := account_balances s;
     transactions := transactions s; ledger_entries := l;
     idempotency_keys := idempotency_keys s; locked := locked s;
     sent := sent s; NOW := NOW s |}.

Definition set_account_balances (l : list account_balances_row) (s : session)
  : session :=
  {| accounts := accounts s; account_balances := l;
     transactions := transactions s; ledger_entries := ledger_entries s;
     idempotency_keys := idempotency_keys s; locked := locked s;
     sent := sent s; NOW := NOW s |}.

Definition set_idempotency_keys (l : list idempotency_keys_row) (s : session)
  : session :=
  {| accounts := accounts s; account_balances := account_balances s;
     transactions := transactions s; ledger_entries := ledger_entries s;
     idempotency_keys := l; locked := locked s;
     sent := sent s; NOW := NOW s |}.

(** ** services/walletService.js *)

Definition SYSTEM_ACCOUNTS_TREASURY : string := "SYSTEM_TREASURY_GOLD".
Definition SYSTEM_ACCOUNTS_DIAMONDS : string := "SYSTEM_TREASURY_DIAMONDS".
Definition SYSTEM_ACCOUNTS_LOYALTY : string := "SYSTEM_TREASURY_LOYALTY".
Definition SYSTEM_ACCOUNTS_REVENUE : string := "SYSTEM_REVENUE_GOLD".
Definition SYSTEM_ACCOUNTS_BONUS_POOL : string := "SYSTEM_BONUS_GOLD".

(** [rows[0] || null] *)
Definition first_row {A} (rows : list A) : option A := hd_error rows.

(** [SELECT a.*, ab.balance FROM accounts a JOIN account_balances ab
    ON ab.account_id = a.id WHERE a.external_id = $1 AND a.is_active] *)
Definition select_account_by_external_id (externalId : string) (s : session)
  : list Account :=
  accounts_join_balances false
    (fun a => string_opt_eqb (a_external_id a) externalId && a_is_active a) s.

Definition getAccountByExternalId (externalId : string) : M (option Account) :=
  query SELECT_accounts_by_external_id
    (fun s => (Ok (first_row (select_account_by_external_id externalId s)), s)).

(** [[...new Set(accountIds)]]: first occurrences, in order. *)
Fixpoint new_Set (seen : list string) (l : list string) : list string :=
  match l with
  | [] => []
  | x :: r =>
      if existsb (String.eqb x) seen then new_Set seen r
      else x :: new_Set (x :: seen) r
  end.

(** Ascending order of a key, by code units for a string, as
    [Array.prototype.sort] and [ORDER BY a.id ASC] on canonical ids give. *)
Fixpoint insert_by {A} (key : A -> string) (x : A) (l : list A) : list A :=
  match l with
  | [] => [x]
  | y :: r => if String.leb (key x) (key y) then x :: l
              else y :: insert_by key x r
  end.

Definition sort_by {A} (key : A -> string) (l : list A) : list A :=
  fold_right (insert_by key) [] l.

Definition sortedIds (accountIds : list string) : list string :=
  sort_by (fun x => x) (new_Set [] accountIds).

(** [SELECT a.*, ab.balance, ab.version FROM accounts a JOIN
    account_balances ab ON ab.account_id = a.id WHERE a.id = ANY($1::uuid[])
    AND a.is_active ORDER BY a.id ASC FOR UPDATE OF ab]: the rows for the
    texts bound to [$1], which are locked in the order they are returned
    in.  There is none when a text is not a uuid: the statement then
    fails. *)
Definition select_accounts_for_update (texts : list string) (s : session)
  : list Account :=
  match uuid_array_in texts with
  | Some ids =>
      sort_by id
        (accounts_join_balances true
           (fun a => existsb (String.eqb (a_id a)) ids && a_is_active a) s)
  | None => []
  end.

Definition getAccountsWithLock (accountIds : list string) : M (list Account) :=
  query SELECT_accounts_FOR_UPDATE
    (fun s =>
       match uuid_array_in (sortedIds accountIds) with
       | Some _ =>
           let rows := select_accounts_for_update (sortedIds accountIds) s in
           (Ok rows, lock_rows (map id rows) s)
       | None => (Throw invalid_text_representation, s)
       end).

Definition INSUFFICIENT_BALANCE : error :=
  {| code := Some "INSUFFICIENT_BALANCE"%string; statusCode := Some 422 |}.

Definition ACCOUNT_NOT_FOUND : error :=
  {| code := Some "ACCOUNT_NOT_FOUND"%string; statusCode := Some 404 |}.

Definition ledger_entry (tx acc asset : uuid) (amt after : numeric)
  : ledger_entries_row :=
  {| le_transaction_id := tx; le_account_id := acc; le_asset_type_id := asset;
     le_amount := amt; le_balance_after := after |}.

(** [INSERT INTO ledger_entries (transaction_id, account_id, asset_type_id,
    amount, balance_after) VALUES ($1, $2, $3, $4, $5)] *)
Definition insert_ledger_entry (transactionId accountId assetTypeId : uuid)
  (amount balance_after : number) : M unit :=
  query INSERT_ledger_entries
    (fun s =>
       match toNumeric amount, toNumeric balance_after with
       | Some a, Some b =>
           (Ok tt,
            set_ledger_entries
              (ledger_entries s ++
                 [ledger_entry transactionId accountId assetTypeId a b]) s)
       | _, _ => (Throw numeric_value_out_of_range, s)
       end).

(** [UPDATE account_balances SET balance = $2, version = version + 1,
    updated_at = NOW() WHERE account_id = $1] *)
Definition update_row (accountId : uuid) (b : numeric) (now : Z)
  (ab : account_balances_row) : account_balances_row :=
  if String.eqb (ab_account_id ab) accountId then
    {| ab_account_id := ab_account_id ab;
       ab_asset_type_id := ab_asset_type_id ab;
       ab_balance := b; ab_version := ab_version ab + 1;
       ab_updated_at := now |}
  else ab.

Definition update_account_balance (accountId : uuid) (newBalance : number)
  : M unit :=
  query UPDATE_account_balances
    (fun s =>
       match toNumeric newBalance with
       | Some b =>
           (Ok tt,
            set_account_balances
              (map (update_row accountId b (NOW s)) (account_balances s)) s)
       | None => (Throw numeric_value_out_of_range, s)
       end).

(** The first [if] of the source, on the credit account, has an empty body
    and is omitted. *)
Definition postDoubleEntry (transactionId : uuid)
  (debitAccount creditAccount : Account) (amount : number) (assetTypeId : uuid)
  : M (number * number) :=
  let debitNewBalance := (parseFloat (balance debitAccount) - amount)%float in
  let creditNewBalance := (parseFloat (balance creditAccount) + amount)%float in
  if account_type_eqb (account_type_of debitAccount) USER
     && (debitNewBalance <? 0)%float
  then throw INSUFFICIENT_BALANCE
  else
    insert_ledger_entry transactionId (id debitAccount) assetTypeId
      amount debitNewBalance ;;;
    insert_ledger_entry transactionId (id creditAccount) assetTypeId
      (- amount)%float creditNewBalance ;;;
    update_account_balance (id debitAccount) debitNewBalance ;;;
    update_account_balance (id creditAccount) creditNewBalance ;;;
    ret (debitNewBalance, creditNewBalance).

(** [SELECT response_status, response_body FROM idempotency_keys
    WHERE key = $1 AND expires_at > NOW()] *)
Definition select_idempotency_key (referenceId : string) (s : session)
  : list idempotency_keys_row :=
  filter (fun r => String.eqb (ik_key r) referenceId
                   && (NOW s <? ik_expires_at r))
    (idempotency_keys s).

Definition checkIdempotency (referenceId : string)
  : M (option idempotency_keys_row) :=
  query SELECT_idempotency_keys
    (fun s => (Ok (first_row (select_idempotency_key referenceId s)), s)).

Definition hours_24 : Z := 24 * 60 * 60 * 1000.

(** [INSERT INTO idempotency_keys (key, response_status, response_body)
    VALUES ($1, $2, $3) ON CONFLICT (key) DO NOTHING] *)
Definition storeIdempotencyResult (referenceId : string) (statusCode : Z)
  (body : response) : M unit :=
  query INSERT_idempotency_keys
    (fun s =>
       if existsb (fun r => String.eqb (ik_key r) referenceId)
            (idempotency_keys s)
       then (Ok tt, s)
       else
         (Ok tt,
          set_idempotency_keys
            (idempotency_keys s ++
               [{| ik_key := referenceId; ik_response_status := statusCode;
                   ik_response_body := body; ik_created_at := NOW s;
                   ik_expires_at := NOW s + hours_24 |}]) s)).

(** The unique constraints of transactions: the primary key and the
    reference. *)
Definition transactions_conflict (txId : uuid) (reference : string)
  (s : session) : bool :=
  existsb (fun t => String.eqb (t_id t) txId
                    || String.eqb (t_reference_id t) reference)
    (transactions s).

(** [INSERT INTO transactions (id, type, reference_id, description,
    metadata) VALUES ($1, ..., $2, $3, $4)] *)
Definition insert_transaction (txId : uuid) (ty : transaction_type)
  (reference desc meta : string) : M unit :=
  query INSERT_transactions
    (fun s =>
       if transactions_conflict txId reference s
       then (Throw unique_violation, s)
       else
         (Ok tt,
          set_transactions
            (transactions s ++
               [{| t_id := txId; t_type := ty; t_reference_id := reference;
                   t_description := desc; t_metadata := meta;
                   t_created_at := NOW s |}]) s)).

(** The argument of a flow; [req_description] and [req_metadata] are
    optional, the metadata being kept as its JSON text. *)
Record request := {
  req_accountId : string;
  req_amount : number;
  req_referenceId : string;
  req_description : option string;
  req_metadata : option string
}.

(** What one execution of a flow body draws from outside: [uuidv4()] and
    [new Date()]. *)
Record inputs := {
  uuidv4 : uuid;
  new_Date : Z
}.

(** [x || dflt] for an optional string: undefined and the empty string are
    falsy. *)
Definition or_default (x : option string) (dflt : string) : string :=
  match x with
  | None | Some EmptyString => dflt
  | Some v => v
  end.

(** [{ ...cached.response_body, idempotent: true }] *)
Definition replay (body : response) : response :=
  {| transactionId := transactionId body; referenceId := referenceId body;
     type := type body; accountId := accountId body; amount := amount body;
     balanceAfter := balanceAfter body; description := description body;
     createdAt := createdAt body; idempotent := Some true |}.

Definition status_only (n : Z) : error :=
  {| code := None; statusCode := Some n |}.

Definition find_account (accountId : string) (accounts : list Account)
  : option Account :=
  find (fun a => String.eqb (id a) accountId) accounts.

(** [locked || unlocked] *)
Definition or_else (locked : option Account) (unlocked : Account) : Account :=
  match locked with
  | Some a => a
  | None => unlocked
  end.

(** The function [topUpWallet] hands to [withTransaction]. *)
Definition topUpWallet_body (r : request) (i : inputs) : M response :=
  cached <- checkIdempotency (req_referenceId r) ;;
  match cached with
  | Some c => ret (replay (ik_response_body c))
  | None =>
      treasury <- getAccountByExternalId SYSTEM_ACCOUNTS_TREASURY ;;
      match treasury with
      | None => throw (status_only 500)
      | Some treasury =>
          accounts <- getAccountsWithLock [req_accountId r; id treasury] ;;
          match find_account (req_accountId r) accounts with
          | None => throw ACCOUNT_NOT_FOUND
          | Some userAccount =>
              if negb (String.eqb (asset_type_id userAccount)
                         (asset_type_id treasury))
              then throw (status_only 400)
              else
                let treasuryLocked := find_account (id treasury) accounts in
                let txId := uuidv4 i in
                insert_transaction txId TOP_UP (req_referenceId r)
                  (or_default (req_description r) "Wallet top-up")
                  (or_default (req_metadata r) "{}") ;;;
                p <- postDoubleEntry txId (or_else treasuryLocked treasury)
                       userAccount (req_amount r) (asset_type_id userAccount) ;;
                let result :=
                  {| transactionId := txId;
                     referenceId := req_referenceId r;
                     type := TOP_UP;
                     accountId := req_accountId r;
                     amount := req_amount r;
                     balanceAfter := snd p;
                     description :=
                       or_default (req_description r) "Wallet top-up";
                     createdAt := new_Date i;
                     idempotent := None |} in
                storeIdempotencyResult (req_referenceId r) 201 result ;;;
                ret result
          end
      end
  end.

(** The function [issueBonus] hands to [withTransaction]. *)
Definition issueBonus_body (r : request) (i : inputs) : M response :=
  cached <- checkIdempotency (req_referenceId r) ;;
  match cached with
  | Some c => ret (replay (ik_response_body c))
  | None =>
      bonusPool <- getAccountByExternalId SYSTEM_ACCOUNTS_BONUS_POOL ;;
      match bonusPool with
      | None => throw (status_only 500)
      | Some bonusPool =>
          accounts <- getAccountsWithLock [req_accountId r; id bonusPool] ;;
          match find_account (req_accountId r) accounts with
          | None => throw ACCOUNT_NOT_FOUND
          | Some userAccount =>
              let bonusPoolLocked := find_account (id bonusPool) accounts in
              let txId := uuidv4 i in
              insert_transaction txId BONUS (req_referenceId r)
                (or_default (req_description r) "Bonus issued")
                (or_default (req_metadata r) "{}") ;;;
              p <- postDoubleEntry txId (or_else bonusPoolLocked bonusPool)
                     userAccount (req_amount r) (asset_type_id userAccount) ;;
              let result :=
                {| transactionId := txId;
                   referenceId := req_referenceId r;
                   type := BONUS;
                   accountId := req_accountId r;
                   amount := req_amount r;
                   balanceAfter := snd p;
                   description :=
                     or_default (req_description r) "Bonus issued";
                   createdAt := new_Date i;
                   idempotent := None |} in
              storeIdempotencyResult (req_referenceId r) 201 result ;;;
              ret result
          end
      end
  end.

(** The function [spendCredits] hands to [withTransaction]. *)
Definition spendCredits_body (r : request) (i : inputs) : M response :=
  cached <- checkIdempotency (req_referenceId r) ;;
  match cached with
  | Some c => ret (replay (ik_response_body c))
  | None =>
      revenue <- getAccountByExternalId SYSTEM_ACCOUNTS_REVENUE ;;
      match revenue with
      | None => throw (status_only 500)
      | Some revenue =>
          accounts <- getAccountsWithLock [req_accountId r; id revenue] ;;
          match find_account (req_accountId r) accounts with
          | None => throw ACCOUNT_NOT_FOUND
          | Some userAccount =>
              if (parseFloat (balance userAccount) <? req_amount r)%float
              then throw INSUFFICIENT_BALANCE
              else
                let revenueLocked := find_account (id revenue) accounts in
                let txId := uuidv4 i in
                insert_transaction txId SPEND (req_referenceId r)
                  (or_default (req_description r) "Credit spend")
                  (or_default (req_metadata r) "{}") ;;;
                p <- postDoubleEntry txId userAccount
                       (or_else revenueLocked revenue)
                       (req_amount r) (asset_type_id userAccount) ;;
                let result :=
                  {| transactionId := txId;
                     referenceId := req_referenceId r;
                     type := SPEND;
                     accountId := req_accountId r;
                     amount := req_amount r;
                     balanceAfter := fst p;
                     description :=
                       or_default (req_description r) "Credit spend";
                     createdAt := new_Date i;
                     idempotent := None |} in
                storeIdempotencyResult (req_referenceId r) 201 result ;;;
                ret result
          end
      end
  end.

(** ** config/database.js *)

(** What [withTransaction] does around the function it runs. *)
Inductive event :=
| pool_connect
| BEGIN
| run_fn (attempt : nat)
| COMMIT
| ROLLBACK
| setTimeout (delay : number)
| client_release.

Definition isRetryable (err : error) : bool :=
  match code err with
  | Some c => String.eqb c "40001" || String.eqb c "40P01"
  | None => false
  end.

(** [Math.min(50 * Math.pow(2, attempt) + Math.random() * 50, 2000)] *)
Definition backoff_delay (attempt : nat) (Math_random : number) : number :=
  Math_min (50 * Math_pow2 attempt + Math_random * 50)%float 2000%float.

(** [BEGIN] on a fresh connection: no lock is held, nothing has been sent,
    and [NOW()] is the time the transaction starts. *)
Definition begin (now : Z) (db : session) : session :=
  {| accounts := accounts db; account_balances := account_balances db;
     transactions := transactions db; ledger_entries := ledger_entries db;
     idempotency_keys := idempotency_keys db; locked := [];
     sent := []; NOW := now |}.

(** The outside of one call of [withTransaction]: when each attempt
    starts, and what [Math.random()] returns before each retry. *)
Record environment := {
  clock : nat -> Z;
  Math_random : nat -> number
}.

(** The loop of [withTransaction].  [remaining] is [maxRetries - attempt],
    so that [while (attempt < maxRetries)] is the test [remaining <> 0]; the
    function [fn] is given the number of the attempt, so that it may behave
    differently from one attempt to the next, as it does when the store
    reports a conflict.  The result is what the call returns ([None] for
    [undefined], when the loop is left without running), the store
    afterwards, and the events in order.  After an error the store is the
    one the transaction started from. *)
Fixpoint withTransaction_loop {A} (fn : nat -> M A) (maxRetries : nat)
  (env : environment) (remaining attempt : nat) (db : session)
  : result (option A) * session * list event :=
  match remaining with
  | O => (Ok None, db, [])
  | S remaining' =>
      match fn attempt (begin (clock env attempt) db) with
      | (Ok r, s') =>
          (Ok (Some r), s',
           [pool_connect; BEGIN; run_fn attempt; COMMIT; client_release])
      | (Throw err, _) =>
          if isRetryable err && (attempt <? maxRetries - 1)%nat then
            let attempt' := S attempt in
            let delay := backoff_delay attempt' (Math_random env attempt') in
            let '(r, db', evs) :=
              withTransaction_loop fn maxRetries env remaining' attempt' db in
            (r, db',
             [pool_connect; BEGIN; run_fn attempt; ROLLBACK;
              setTimeout delay; client_release] ++ evs)
          else
            (Throw err, db,
             [pool_connect; BEGIN; run_fn attempt; ROLLBACK; client_release])
      end
  end.

Definition withTransaction {A} (fn : nat -> M A) (maxRetries : nat)
  (env : environment) (db : session)
  : result (option A) * session * list event :=
  withTransaction_loop fn maxRetries env maxRetries 0%nat db.

Definition default_maxRetries : nat := 3.

(** The exported flows: each attempt draws its own [uuidv4()] and
    [new Date()]. *)
Definition topUpWallet (r : request) (ins : nat -> inputs) :=
  withTransaction (fun k => topUpWallet_body r (ins k)) default_maxRetries.

Definition issueBonus (r : request) (ins : nat -> inputs) :=
  withTransaction (fun k => issueBonus_body r (ins k)) default_maxRetries.

Definition spendCredits (r : request) (ins : nat -> inputs) :=
  withTransaction (fun k => spendCredits_body r (ins k)) default_maxRetries.

(** ** The query surface of services/walletService.js *)

(** [String.prototype.toUpperCase] on ASCII text: the letters a to z
    become A to Z.  The upper case of the characters beyond ASCII is not
    modelled; bytes above 127 are left as they are. *)
Definition toUpperCase_char (c : ascii) : ascii :=
  let n := N_of_ascii c in
  if (97 <=? n)%N && (n <=? 122)%N then ascii_of_N (n - 32) else c.

Fixpoint toUpperCase (x : string) : string :=
  match x with
  | EmptyString => EmptyString
  | String c r => String (toUpperCase_char c) (toUpperCase r)
  end.

(** A text parameter compared with the enum column [t.type]. *)
Definition transaction_type_of_text (x : string) : option transaction_type :=
  if String.eqb x "TOP_UP" then Some TOP_UP
  else if String.eqb x "BONUS" then Some BONUS
  else if String.eqb x "SPEND" then Some SPEND
  else None.

(** [ledger_entries le JOIN transactions t ON t.id = le.transaction_id
    WHERE le.account_id = $1], with the optional [AND t.type = $4]. *)
Definition history_rows (accountId : uuid) (ty : option transaction_type)
  (s : session) : list (ledger_entries_row * transactions_row) :=
  flat_map
    (fun le =>
       map (pair le)
         (filter
            (fun t =>
               String.eqb (t_id t) (le_transaction_id le)
               && match ty with
                  | Some k => transaction_type_eqb (t_type t) k
                  | None => true
                  end)
            (transactions s)))
    (filter (fun le => String.eqb (le_account_id le) accountId)
       (ledger_entries s)).

(** [ORDER BY t.created_at DESC].  The store is free in the order of rows
    of equal time; here they keep the order they had. *)
Fixpoint insert_desc {A} (key : A -> Z) (x : A) (l : list A) : list A :=
  match l with
  | [] => [x]
  | y :: r => if key y <=? key x then x :: l else y :: insert_desc key x r
  end.

Definition order_by_desc {A} (key : A -> Z) (l : list A) : list A :=
  fold_right (insert_desc key) [] l.

Record history_entry := {
  h_transactionId : uuid;
  h_type : transaction_type;
  h_referenceId : string;
  h_description : string;
  h_metadata : string;
  h_amount : number;
  h_balanceAfter : number;
  h_createdAt : Z
}.

Record history_page := {
  p_accountId : string;
  total : Z;
  limit : Z;
  offset : Z;
  entries : list history_entry
}.

Definition history_entry_of (r : ledger_entries_row * transactions_row)
  : history_entry :=
  {| h_transactionId := t_id (snd r);
     h_type := t_type (snd r);
     h_referenceId := t_reference_id (snd r);
     h_description := t_description (snd r);
     h_metadata := t_metadata (snd r);
     h_amount := (- parseFloat (le_amount (fst r)))%float;
     h_balanceAfter := parseFloat (le_balance_after (fst r));
     h_createdAt := t_created_at (snd r) |}.

(** The optional [type]: absent, or the empty string, adds no filter. *)
Definition type_filter (ty : option string) : option string :=
  match ty with
  | None | Some EmptyString => None
  | Some x => Some (toUpperCase x)
  end.

(** [SELECT id FROM accounts WHERE id = $1 AND is_active = TRUE] *)
Definition select_accounts_active (accountId : string) : M (list uuid) :=
  query SELECT_accounts_active
    (with_uuid accountId
       (fun u s =>
          (Ok (map a_id
                 (filter (fun a => String.eqb (a_id a) u && a_is_active a)
                    (accounts s))), s))).

Definition with_type_filter {A} (ty : option string)
  (k : option transaction_type -> M A) : M A :=
  match type_filter ty with
  | None => k None
  | Some x =>
      match transaction_type_of_text x with
      | Some t => k (Some t)
      | None => throw invalid_text_representation
      end
  end.

(** The parameters are read when they are bound; the store then looks at
    the offset before the limit. *)
Definition select_ledger_entries_page (accountId : string) (limit offset : Z)
  (ty : option string) : M (list (ledger_entries_row * transactions_row)) :=
  query SELECT_ledger_entries_page
    (with_uuid accountId
       (fun u =>
          with_type_filter ty
            (fun t s =>
               if offset <? 0
               then (Throw invalid_row_count_in_result_offset_clause, s)
               else if limit <? 0
               then (Throw invalid_row_count_in_limit_clause, s)
               else
                 (Ok (firstn (Z.to_nat limit)
                        (skipn (Z.to_nat offset)
                           (order_by_desc (fun r => t_created_at (snd r))
                              (history_rows u t s)))), s)))).

Definition select_ledger_entries_count (accountId : string)
  (ty : option string) : M Z :=
  query SELECT_ledger_entries_count
    (with_uuid accountId
       (fun u =>
          with_type_filter ty
            (fun t s =>
               (Ok (Z.of_nat (List.length (history_rows u t s))), s)))).

(** [getTransactionHistory(accountId, { limit = 20, offset = 0, type } = {})] *)
Definition getTransactionHistory (accountId : string)
  (limit_opt offset_opt : option Z) (ty : option string) : M history_page :=
  let limit := match limit_opt with Some l => l | None => 20 end in
  let offset := match offset_opt with Some o => o | None => 0 end in
  accountCheck <- select_accounts_active accountId ;;
  match accountCheck with
  | [] => throw ACCOUNT_NOT_FOUND
  | _ :: _ =>
      rows <- select_ledger_entries_page accountId limit offset ty ;;
      count <- select_ledger_entries_count accountId ty ;;
      ret {| p_accountId := accountId; total := count; limit := limit;
             offset := offset; entries := map history_entry_of rows |}
  end.

(** ** middleware/validation.js: [schemas.getHistory]

    The query parameters arrive as integers; the format of [accountId] is
    not modelled. *)
Record history_query := {
  q_limit : option Z;
  q_offset : option Z;
  q_type : option string
}.




(** ** migrations/001_schema.sql: [verify_balance_integrity] *)

Record integrity_row := {
  cached_balance : numeric;
  ledger_balance : numeric;
  is_consistent : bool
}.

(** [SUM(le.amount)] over the rows the LEFT JOIN pairs with a balance row:
    NULL, here [None], when the account has no ledger entry. *)
Definition SUM_amount (p_account_id : uuid) (s : session) : option numeric :=
  match filter (fun le => String.eqb (le_account_id le) p_account_id)
          (ledger_entries s) with
  | [] => None
  | l => Some (fold_right Z.add 0 (map le_amount l))
  end.

Definition COALESCE (x : option numeric) (dflt : numeric) : numeric :=
  match x with
  | Some v => v
  | None => dflt
  end.

(** The function of the schema, on the uuid it is given.  The literal
    0.00000001 is one unit.  The primary key of account_balances leaves at
    most one row per account, which is the one group of
    [GROUP BY ab.balance]. *)
Definition verify_balance_integrity (p_account_id : uuid) (s : session)
  : list integrity_row :=
  map (fun ab =>
         let ledger :=
           COALESCE (option_map Z.opp (SUM_amount p_account_id s)) 0 in
         {| cached_balance := ab_balance ab;
            ledger_balance := ledger;
            is_consistent := Z.abs (ab_balance ab - ledger) <? 1 |})
    (filter (fun ab => String.eqb (ab_account_id ab) p_account_id)
       (account_balances s)).

Record integrity_report := {
  r_accountId : string;
  cachedBalance : number;
  ledgerBalance : number;
  isConsistent : bool;
  discrepancy : number
}.

(** [SELECT * FROM verify_balance_integrity($1::uuid)] *)
Definition verifyLedgerIntegrity (accountId : string) : M integrity_report :=
  rows <- query SELECT_verify_balance_integrity
            (with_uuid accountId
               (fun u s => (Ok (verify_balance_integrity u s), s))) ;;
  match rows with
  | [] => throw (status_only 404)
  | row :: _ =>
      ret {| r_accountId := accountId;
             cachedBalance := parseFloat (cached_balance row);
             ledgerBalance := parseFloat (ledger_balance row);
             isConsistent := is_consistent row;
             discrepancy :=
               abs (parseFloat (cached_balance row)
                    - parseFloat (ledger_balance row))%float |}
  end.

(** ** services/walletService.js: the single-account resolver

    [getAccountWithLock], which no flow calls. *)

(** [SELECT a.*, ab.balance, ab.version FROM accounts a JOIN account_balances
    ab ON ab.account_id = a.id WHERE a.id = $1 AND a.is_active FOR UPDATE OF
    ab] *)
Definition select_account_for_update (accountId : uuid) (s : session)
  : list Account :=
  accounts_join_balances true
    (fun a => String.eqb (a_id a) accountId && a_is_active a) s.

Definition getAccountWithLock (accountId : string) : M (option Account) :=
  query SELECT_accounts_FOR_UPDATE
    (with_uuid accountId
       (fun u s =>
          let rows := select_account_for_update u s in
          (Ok (first_row rows), lock_rows (map id rows) s))).

(** ** services/walletService.js: the balance and the account list

    Both are sent through the pool, outside any transaction, and only read:
    they are functions of the store.  [select_balance] and
    [select_account_for_update] above give the rows for the uuid the text
    bound to [$1] has been read as.  The table asset_types, which the
    service never writes, and the column accounts.created_at, which the
    ledger core never reads, are kept beside the session. *)
Record asset_types_row := {
  at_id : uuid;
  at_code : string;
  at_name : string
}.

(** [accounts a JOIN asset_types at ON at.id = a.asset_type_id JOIN
    account_balances ab ON ab.account_id = a.id WHERE p a at] *)
Definition accounts_join_assets_balances (asset_types : list asset_types_row)
  (p : accounts_row -> asset_types_row -> bool) (s : session)
  : list (accounts_row * asset_types_row * account_balances_row) :=
  flat_map
    (fun a =>
       flat_map
         (fun k =>
            map (fun ab => (a, k, ab))
              (filter (fun ab => String.eqb (ab_account_id ab) (a_id a))
                 (account_balances s)))
         (filter (fun k => String.eqb (at_id k) (a_asset_type_id a) && p a k)
            asset_types))
    (accounts s).

Record balance_view := {
  bv_accountId : uuid;
  bv_externalId : option string;
  bv_name : string;
  bv_accountType : account_type;
  bv_asset_code : string;
  bv_asset_name : string;
  bv_balance : number;
  bv_version : Z;
  bv_updatedAt : Z
}.

Definition balance_view_of
  (r : accounts_row * asset_types_row * account_balances_row) : balance_view :=
  let '(a, k, ab) := r in
  {| bv_accountId := a_id a;
     bv_externalId := a_external_id a;
     bv_name := a_name a;
     bv_accountType := a_account_type a;
     bv_asset_code := at_code k;
     bv_asset_name := at_name k;
     bv_balance := parseFloat (ab_balance ab);
     bv_version := ab_version ab;
     bv_updatedAt := ab_updated_at ab |}.

Definition select_balance (asset_types : list asset_types_row)
  (accountId : uuid) (s : session)
  : list (accounts_row * asset_types_row * account_balances_row) :=
  accounts_join_assets_balances asset_types
    (fun a _ => String.eqb (a_id a) accountId && a_is_active a) s.

Definition getBalance (asset_types : list asset_types_row)
  (accountId : string) (s : session) : result balance_view :=
  match uuid_in accountId with
  | None => Throw invalid_text_representation
  | Some u =>
      match select_balance asset_types u s with
      | [] => Throw ACCOUNT_NOT_FOUND
      | account :: _ => Ok (balance_view_of account)
      end
  end.






(** ** middleware/errorHandler.js

    The message of the reply is the message of the error, the fixed text for
    an internal error, or the fixed text for a duplicate reference.  The
    [debug] key, added in development only, is left out. *)
Inductive message :=
| err_message
| internal_error_message
| duplicate_reference_message.

Record error_json := {
  ej_status : Z;
  ej_code : string;
  ej_message : message
}.

(** [err.statusCode && err.statusCode < 500] *)
Definition isClientError (err : error) : bool :=
  match statusCode err with
  | Some n => negb (n =? 0) && (n <? 500)
  | None => false
  end.

Definition errorMap (c : string) : option (Z * string) :=
  if String.eqb c "ACCOUNT_NOT_FOUND" then Some (404, "ACCOUNT_NOT_FOUND"%string)
  else if String.eqb c "INSUFFICIENT_BALANCE"
  then Some (422, "INSUFFICIENT_BALANCE"%string)
  else if String.eqb c "DUPLICATE_REFERENCE"
  then Some (409, "DUPLICATE_REFERENCE"%string)
  else if String.eqb c "VALIDATION_ERROR" then Some (400, "VALIDATION_ERROR"%string)
  else if String.eqb c "ASSET_MISMATCH" then Some (400, "ASSET_MISMATCH"%string)
  else None.

(** [err.code ? errorMap[err.code] : null] *)
Definition mapped (err : error) : option (Z * string) :=
  match code err with
  | None | Some EmptyString => None
  | Some c => errorMap c
  end.

Definition errorHandler (err : error) : error_json :=
  let status :=
    match mapped err with
    | Some (st, _) => st
    | None =>
        match statusCode err with
        | Some n => if n =? 0 then 500 else n
        | None => 500
        end
    end in
  if string_opt_eqb (code err) "23505"
  then {| ej_status := 409; ej_code := "DUPLICATE_REFERENCE";
          ej_message := duplicate_reference_message |}
  else {| ej_status := status;
          ej_code := match mapped err with
                     | Some (_, c) => c
                     | None => "INTERNAL_ERROR"%string
                     end;
          ej_message := if isClientError err then err_message
                        else internal_error_message |}.

(** ** controllers/walletController.js *)

(** What a handler sends: [res.status(status).json({ success: true, data })],
    or the reply of the error handler the error was passed to. *)
Inductive reply (A : Type) :=
| success (status : Z) (data : A)
| failure (e : error_json).
Arguments success {A} status data.
Arguments failure {A} e.

(** The error of reading a key of [undefined]: it has neither code nor
    status. *)
Definition TypeError : error := {| code := None; statusCode := None |}.

Module Controller.

(** The body shared by [topUp], [issueBonus] and [spend], which differ in
    the service function they call. *)
Definition created (x : result (option response) * session * list event)
  : reply response * session * list event :=
  match x with
  | (Ok (Some result), db, evs) =>
      (success (match idempotent result with
                | Some true => 200
                | _ => 201
                end) result, db, evs)
  | (Ok None, db, evs) => (failure (errorHandler TypeError), db, evs)
  | (Throw err, db, evs) => (failure (errorHandler err), db, evs)
  end.

Definition topUp (r : request) (ins : nat -> inputs) (env : environment)
  (db : session) : reply response * session * list event :=
  created (topUpWallet r ins env db).

Definition issueBonus (r : request) (ins : nat -> inputs) (env : environment)
  (db : session) : reply response * session * list event :=
  created (issueBonus r ins env db).

Definition spend (r : request) (ins : nat -> inputs) (env : environment)
  (db : session) : reply response * session * list event :=
  created (spendCredits r ins env db).

Definition ok {A} (x : result A) : reply A :=
  match x with
  | Ok data => success 200 data
  | Throw err => failure (errorHandler err)
  end.

Definition getBalance (asset_types : list asset_types_row)
  (accountId : string) (s : session) : reply balance_view :=
  ok (getBalance asset_types accountId s).

Definition auditBalance (accountId : string) (s : session)
  : reply integrity_report :=
  ok (fst (verifyLedgerIntegrity accountId s)).

End Controller.

(** ** migrations/002_seed.sql

    The store after the seed script, amounts in units of 10^-8. *)
Module Seed.

Local Open Scope string_scope.

Definition GOLD : uuid := "a1000000-0000-0000-0000-000000000001".
Definition DIAMONDS : uuid := "a1000000-0000-0000-0000-000000000002".
Definition LOYALTY : uuid := "a1000000-0000-0000-0000-000000000003".

Definition treasury_gold : uuid := "b1000000-0000-0000-0000-000000000001".
Definition treasury_diamonds : uuid := "b1000000-0000-0000-0000-000000000002".
Definition treasury_loyalty : uuid := "b1000000-0000-0000-0000-000000000003".
Definition revenue_gold : uuid := "b1000000-0000-0000-0000-000000000004".
Definition bonus_gold : uuid := "b1000000-0000-0000-0000-000000000005".

Definition alice : uuid := "c1000000-0000-0000-0000-000000000001".
Definition bob : uuid := "c1000000-0000-0000-0000-000000000002".
Definition charlie : uuid := "c1000000-0000-0000-0000-000000000003".

Definition account (i : uuid) (ext : string) (k : account_type)
  (n : string) (asset : uuid) : accounts_row :=
  {| a_id := i; a_external_id := Some ext; a_account_type := k;
     a_name := n; a_asset_type_id := asset; a_is_active := true |}.

Definition balance_row (i asset : uuid) (units : Z) : account_balances_row :=
  {| ab_account_id := i; ab_asset_type_id := asset;
     ab_balance := units * Zpos scale; ab_version := 0; ab_updated_at := 0 |}.

Definition opening (i : uuid) (ref desc : string) : transactions_row :=
  {| t_id := i; t_type := BONUS; t_reference_id := ref;
     t_description := desc; t_metadata := "{}"; t_created_at := 0 |}.

Definition entry (tx acc asset : uuid) (amount after : Z)
  : ledger_entries_row :=
  {| le_transaction_id := tx; le_account_id := acc;
     le_asset_type_id := asset; le_amount := amount * Zpos scale;
     le_balance_after := after * Zpos scale |}.

Definition tx_alice : uuid := "d1000000-0000-0000-0000-000000000001".
Definition tx_bob : uuid := "d1000000-0000-0000-0000-000000000002".
Definition tx_charlie : uuid := "d1000000-0000-0000-0000-000000000003".

Definition db : session :=
  {| accounts :=
       [ account treasury_gold "SYSTEM_TREASURY_GOLD" SYSTEM
           "Gold Coins Treasury" GOLD;
         account treasury_diamonds "SYSTEM_TREASURY_DIAMONDS" SYSTEM
           "Diamonds Treasury" DIAMONDS;
         account treasury_loyalty "SYSTEM_TREASURY_LOYALTY" SYSTEM
           "Loyalty Points Treasury" LOYALTY;
         account revenue_gold "SYSTEM_REVENUE_GOLD" SYSTEM
           "Gold Coins Revenue" GOLD;
         account bonus_gold "SYSTEM_BONUS_GOLD" SYSTEM
           "Gold Coins Bonus Pool" GOLD;
         account alice "user_alice" USER "Alice" GOLD;
         account bob "user_bob" USER "Bob" GOLD;
         account charlie "user_charlie" USER "Charlie" DIAMONDS ];
     account_balances :=
       [ balance_row treasury_gold GOLD 0;
         balance_row treasury_diamonds DIAMONDS 0;
         balance_row treasury_loyalty LOYALTY 0;
         balance_row revenue_gold GOLD 0;
         balance_row bonus_gold GOLD 0;
         balance_row alice GOLD 500;
         balance_row bob GOLD 200;
         balance_row charlie DIAMONDS 150 ];
     transactions :=
       [ opening tx_alice "SEED_OPENING_ALICE_GOLD"
           "Opening balance for Alice";
         opening tx_bob "SEED_OPENING_BOB_GOLD" "Opening balance for Bob";
         opening tx_charlie "SEED_OPENING_CHARLIE_DIAMONDS"
           "Opening balance for Charlie" ];
     ledger_entries :=
       [ entry tx_alice treasury_gold GOLD 500 (-500);
         entry tx_alice alice GOLD (-500) 500;
         entry tx_bob treasury_gold GOLD 200 (-700);
         entry tx_bob bob GOLD (-200) 200;
         entry tx_charlie treasury_diamonds DIAMONDS 150 (-150);
         entry tx_charlie charlie DIAMONDS (-150) 150 ];
     idempotency_keys := [];
     locked := [];
     sent := [];
     NOW := 0 |}.

Definition req (acc : uuid) (amt : number) (ref : string) : request :=
  {| req_accountId := acc; req_amount := amt; req_referenceId := ref;
     req_description := None; req_metadata := None |}.

Definition ins (k : nat) : inputs :=
  {| uuidv4 := "e0000000-0000-4000-8000-000000000001"; new_Date := 1000 |}.

Definition env : environment :=
  {| clock := fun _ => 1000; Math_random := fun _ => 0.5%float |}.

End Seed.

(** ** migrations/002_seed.sql as a script

    The statements of the seed script, run in order on a database: the
    table asset_types and the five tables of the session.  An INSERT with ON
    CONFLICT on a column skips, or updates, the row that conflicts on that
    column, and raises a unique violation (23505) for a row that conflicts
    on another unique column only.  The rows of ledger_entries get their
    ids from uuid_generate_v4(), so that their INSERT never conflicts.
    [now] is the time of the run. *)
Definition database : Type := list asset_types_row * session.

Definition script : Type := database -> result database.

Definition and_then (a b : script) : script :=
  fun d => match a d with
           | Ok d' => b d'
           | Throw e => Throw e
           end.

(** A statement over several rows handles them in order. *)
Definition for_each {A} (stmt : A -> script) (rows : list A) : script :=
  fold_right (fun row rest => and_then (stmt row) rest) (fun d => Ok d) rows.

(** [INSERT INTO asset_types (id, code, name, description) VALUES ... ON
    CONFLICT (code) DO NOTHING] *)
Definition insert_asset_type (row : asset_types_row) : script :=
  fun d =>
    let (asset_types, s) := d in
    if existsb (fun k => String.eqb (at_code k) (at_code row)) asset_types
    then Ok d
    else if existsb (fun k => String.eqb (at_id k) (at_id row)) asset_types
    then Throw unique_violation
    else Ok (asset_types ++ [row], s).

Definition set_accounts (l : list accounts_row) (s : session) : session :=
  {| accounts := l; account_balances := account_balances s;
     transactions := transactions s; ledger_entries := ledger_entries s;
     idempotency_keys := idempotency_keys s; locked := locked s;
     sent := sent s; NOW := NOW s |}.

(** [INSERT INTO accounts (id, external_id, account_type, name,
    asset_type_id) VALUES ... ON CONFLICT (external_id) DO NOTHING] *)
Definition insert_account (row : accounts_row) : script :=
  fun d =>
    let (asset_types, s) := d in
    if existsb (fun a => match a_external_id a, a_external_id row with
                         | Some x, Some y => String.eqb x y
                         | _, _ => false
                         end) (accounts s)
    then Ok d
    else if existsb (fun a => String.eqb (a_id a) (a_id row)) (accounts s)
    then Throw unique_violation
    else Ok (asset_types, set_accounts (accounts s ++ [row]) s).

(** [INSERT INTO account_balances (account_id, asset_type_id, balance)
    VALUES ... ON CONFLICT (account_id) DO NOTHING] *)
Definition insert_balance (now : Z) (row : uuid * uuid * numeric) : script :=
  fun d =>
    let (asset_types, s) := d in
    let '(accountId, assetTypeId, b) := row in
    if existsb (fun ab => String.eqb (ab_account_id ab) accountId)
         (account_balances s)
    then Ok d
    else Ok (asset_types,
             set_account_balances
               (account_balances s ++
                  [{| ab_account_id := accountId;
                      ab_asset_type_id := assetTypeId; ab_balance := b;
                      ab_version := 0; ab_updated_at := now |}]) s).

(** [INSERT INTO account_balances (account_id, asset_type_id, balance)
    VALUES ... ON CONFLICT (account_id) DO UPDATE SET balance =
    EXCLUDED.balance]; the trigger account_balances_updated_at sets
    updated_at. *)
Definition upsert_balance (now : Z) (row : uuid * uuid * numeric) : script :=
  fun d =>
    let (asset_types, s) := d in
    let '(accountId, assetTypeId, b) := row in
    if existsb (fun ab => String.eqb (ab_account_id ab) accountId)
         (account_balances s)
    then Ok (asset_types,
             set_account_balances
               (map (fun ab =>
                       if String.eqb (ab_account_id ab) accountId
                       then {| ab_account_id := ab_account_id ab;
                               ab_asset_type_id := ab_asset_type_id ab;
                               ab_balance := b;
                               ab_version := ab_version ab;
                               ab_updated_at := now |}
                       else ab) (account_balances s)) s)
    else Ok (asset_types,
             set_account_balances
               (account_balances s ++
                  [{| ab_account_id := accountId;
                      ab_asset_type_id := assetTypeId; ab_balance := b;
                      ab_version := 0; ab_updated_at := now |}]) s).

(** [INSERT INTO transactions (id, type, reference_id, description) VALUES
    ... ON CONFLICT (reference_id) DO NOTHING] *)
Definition insert_opening (now : Z) (row : uuid * string * string) : script :=
  fun d =>
    let (asset_types, s) := d in
    let '(txId, reference, desc) := row in
    if existsb (fun t => String.eqb (t_reference_id t) reference)
         (transactions s)
    then Ok d
    else if existsb (fun t => String.eqb (t_id t) txId) (transactions s)
    then Throw unique_violation
    else Ok (asset_types,
             set_transactions
               (transactions s ++
                  [{| t_id := txId; t_type := BONUS;
                      t_reference_id := reference; t_description := desc;
                      t_metadata := "{}"; t_created_at := now |}]) s).

(** [INSERT INTO ledger_entries (transaction_id, account_id, asset_type_id,
    amount, balance_after) VALUES ... ON CONFLICT DO NOTHING] *)
Definition insert_entry (row : ledger_entries_row) : script :=
  fun d =>
    let (asset_types, s) := d in
    Ok (asset_types, set_ledger_entries (ledger_entries s ++ [row]) s).

(** An opening balance: the transaction, its two entries, the balance. *)
Definition opening_balance (now : Z) (tx : uuid) (reference desc : string)
  (treasury user asset : uuid) (units treasury_after : Z) : script :=
  and_then (insert_opening now (tx, reference, desc))
    (and_then
       (for_each insert_entry
          [Seed.entry tx treasury asset units treasury_after;
           Seed.entry tx user asset (- units) units])
       (upsert_balance now (user, asset, units * Zpos scale))).

Definition seed_script (now : Z) : script :=
  and_then
    (for_each insert_asset_type
       [ {| at_id := Seed.GOLD; at_code := "GOLD_COINS";
            at_name := "Gold Coins" |};
         {| at_id := Seed.DIAMONDS; at_code := "DIAMONDS";
            at_name := "Diamonds" |};
         {| at_id := Seed.LOYALTY; at_code := "LOYALTY_POINTS";
            at_name := "Loyalty Points" |} ])
    (and_then
       (for_each insert_account
          [ Seed.account Seed.treasury_gold "SYSTEM_TREASURY_GOLD" SYSTEM
              "Gold Coins Treasury" Seed.GOLD;
            Seed.account Seed.treasury_diamonds "SYSTEM_TREASURY_DIAMONDS"
              SYSTEM "Diamonds Treasury" Seed.DIAMONDS;
            Seed.account Seed.treasury_loyalty "SYSTEM_TREASURY_LOYALTY"
              SYSTEM "Loyalty Points Treasury" Seed.LOYALTY;
            Seed.account Seed.revenue_gold "SYSTEM_REVENUE_GOLD" SYSTEM
              "Gold Coins Revenue" Seed.GOLD;
            Seed.account Seed.bonus_gold "SYSTEM_BONUS_GOLD" SYSTEM
              "Gold Coins Bonus Pool" Seed.GOLD ])
       (and_then
          (for_each (insert_balance now)
             [ (Seed.treasury_gold, Seed.GOLD, 0);
               (Seed.treasury_diamonds, Seed.DIAMONDS, 0);
               (Seed.treasury_loyalty, Seed.LOYALTY, 0);
               (Seed.revenue_gold, Seed.GOLD, 0);
               (Seed.bonus_gold, Seed.GOLD, 0) ])
          (and_then
             (for_each insert_account
                [ Seed.account Seed.alice "user_alice" USER "Alice" Seed.GOLD;
                  Seed.account Seed.bob "user_bob" USER "Bob" Seed.GOLD;
                  Seed.account Seed.charlie "user_charlie" USER "Charlie"
                    Seed.DIAMONDS ])
             (and_then
                (opening_balance now Seed.tx_alice "SEED_OPENING_ALICE_GOLD"
                   "Opening balance for Alice" Seed.treasury_gold Seed.alice
                   Seed.GOLD 500 (-500))
                (and_then
                   (opening_balance now Seed.tx_bob "SEED_OPENING_BOB_GOLD"
                      "Opening balance for Bob" Seed.treasury_gold Seed.bob
                      Seed.GOLD 200 (-700))
                   (opening_balance now Seed.tx_charlie
                      "SEED_OPENING_CHARLIE_DIAMONDS"
                      "Opening balance for Charlie" Seed.treasury_diamonds
                      Seed.charlie Seed.DIAMONDS 150 (-150))))))).

(** ** Vocabulary of the statements *)

(** The balance and version the cache holds for an account, one pair per
    row of the account. *)
Definition cached_rows (accountId : uuid) (l : list account_balances_row)
  : list (numeric * Z) :=
  map (fun ab => (ab_balance ab, ab_version ab))
    (filter (fun ab => String.eqb (ab_account_id ab) accountId) l).

Definition cached (accountId : uuid) (s : session) : list (numeric * Z) :=
  cached_rows accountId (account_balances s).

(** The locked account objects of the seed a posting from the treasury to
    Alice works on. *)
Definition seed_treasury : Account :=
  {| id := Seed.treasury_gold; external_id := Some "SYSTEM_TREASURY_GOLD"%string;
     account_type_of := SYSTEM; name := "Gold Coins Treasury";
     asset_type_id := Seed.GOLD; is_active := true; balance := 0;
     version := Some 0 |}.

Definition seed_alice : Account :=
  {| id := Seed.alice; external_id := Some "user_alice"%string;
     account_type_of := USER; name := "Alice";
     asset_type_id := Seed.GOLD; is_active := true;
     balance := 500 * Zpos scale; version := Some 0 |}.

(** The session after one [INSERT INTO ledger_entries], after one [UPDATE
    account_balances], and after the four statements of a posting. *)
Definition appended (e : ledger_entries_row) (s : session) : session :=
  set_ledger_entries (ledger_entries s ++ [e]) (record INSERT_ledger_entries s).

Definition updated (accountId : uuid) (b : numeric) (s : session) : session :=
  set_account_balances
    (map (update_row accountId b (NOW s)) (account_balances s))
    (record UPDATE_account_balances s).

Definition posted (tx idD idC asset : uuid) (a dN cN : numeric) (s : session)
  : session :=
  updated idC cN
    (updated idD dN
       (appended (ledger_entry tx idC asset (- a) cN)
          (appended (ledger_entry tx idD asset a dN) s))).

(** The session after [storeIdempotencyResult]. *)
Definition stored (referenceId : string) (statusCode : Z) (body : response)
  (s : session) : session :=
  if existsb (fun r => String.eqb (ik_key r) referenceId) (idempotency_keys s)
  then record INSERT_idempotency_keys s
  else
    set_idempotency_keys
      (idempotency_keys s ++
         [{| ik_key := referenceId; ik_response_status := statusCode;
             ik_response_body := body; ik_created_at := NOW s;
             ik_expires_at := NOW s + hours_24 |}])
      (record INSERT_idempotency_keys s).

(** The session after [INSERT INTO transactions]. *)
Definition inserted (txId : uuid) (ty : transaction_type)
  (reference desc meta : string) (s : session) : session :=
  set_transactions
    (transactions s ++
       [{| t_id := txId; t_type := ty; t_reference_id := reference;
           t_description := desc; t_metadata := meta;
           t_created_at := NOW s |}])
    (record INSERT_transactions s).

(** Two sessions over the same five tables. *)
Definition same_tables (s s' : session) : Prop :=
  accounts s' = accounts s /\ account_balances s' = account_balances s /\
  transactions s' = transactions s /\ ledger_entries s' = ledger_entries s /\
  idempotency_keys s' = idempotency_keys s.

(** The revenue account of the seed as [getAccountByExternalId] returns it,
    and a request that spends the whole of Alice's balance. *)
Definition seed_revenue : Account :=
  {| id := Seed.revenue_gold; external_id := Some "SYSTEM_REVENUE_GOLD"%string;
     account_type_of := SYSTEM; name := "Gold Coins Revenue";
     asset_type_id := Seed.GOLD; is_active := true; balance := 0;
     version := None |}.

Definition spend_all : request := Seed.req Seed.alice 500%float "r3".

(** The three flows. *)
Inductive flow := TopUp | Bonus | Spend.

Definition flow_body (f : flow) : request -> inputs -> M response :=
  match f with
  | TopUp => topUpWallet_body
  | Bonus => issueBonus_body
  | Spend => spendCredits_body
  end.

Definition run_flow (f : flow) (r : request) (ins : nat -> inputs)
  : environment -> session -> result (option response) * session * list event :=
  match f with
  | TopUp => topUpWallet r ins
  | Bonus => issueBonus r ins
  | Spend => spendCredits r ins
  end.

(** The well-known external id of the system account a flow posts
    against. *)
Definition counterparty (f : flow) : string :=
  match f with
  | TopUp => SYSTEM_ACCOUNTS_TREASURY
  | Bonus => SYSTEM_ACCOUNTS_BONUS_POOL
  | Spend => SYSTEM_ACCOUNTS_REVENUE
  end.

(** Requests on Charlie's Diamonds wallet: the three system accounts the
    flows use hold Gold Coins. *)
Definition bonus_charlie : request := Seed.req Seed.charlie 10%float "r2".
Definition spend_charlie : request := Seed.req Seed.charlie 10%float "r6".
Definition topup_charlie : request := Seed.req Seed.charlie 10%float "r7".

Definition ASSET_MISMATCH : error :=
  {| code := Some "ASSET_MISMATCH"%string; statusCode := Some 400 |}.

(** The asset type of an account of the store. *)
Definition asset_of (accountId : uuid) (s : session) : option uuid :=
  option_map a_asset_type_id
    (find (fun a => String.eqb (a_id a) accountId) (accounts s)).

(** Two responses equal but for the [idempotent] key. *)
Definition same_response (a b : response) : Prop :=
  transactionId a = transactionId b /\ referenceId a = referenceId b /\
  type a = type b /\ accountId a = accountId b /\ amount a = amount b /\
  balanceAfter a = balanceAfter b /\ description a = description b /\
  createdAt a = createdAt b.

(** A store that holds no idempotency record under a key, live or
    expired. *)
Definition key_unused (referenceId : string) (s : session) : Prop :=
  existsb (fun r => String.eqb (ik_key r) referenceId) (idempotency_keys s)
  = false.

(** A first top-up of Alice's wallet on the seeded store, and its
    response. *)
Definition topup_alice : request := Seed.req Seed.alice 100%float "r1".

Definition topup_alice_response : response :=
  {| transactionId := uuidv4 (Seed.ins 0);
     referenceId := "r1";
     type := TOP_UP;
     accountId := Seed.alice;
     amount := 100%float;
     balanceAfter := 600%float;
     description := "Wallet top-up";
     createdAt := 1000;
     idempotent := None |}.

Definition topup_alice_done : session :=
  snd (topUpWallet_body topup_alice (Seed.ins 0) Seed.db).

(** The record the first top-up leaves in idempotency_keys, and the
    response a replay returns. *)
Definition topup_alice_record : idempotency_keys_row :=
  {| ik_key := "r1";
     ik_response_status := 201;
     ik_response_body := topup_alice_response;
     ik_created_at := 0;
     ik_expires_at := 86400000 |}.

Definition topup_alice_replayed : response :=
  {| transactionId := uuidv4 (Seed.ins 0);
     referenceId := "r1";
     type := TOP_UP;
     accountId := Seed.alice;
     amount := 100%float;
     balanceAfter := 600%float;
     description := "Wallet top-up";
     createdAt := 1000;
     idempotent := Some true |}.

(** Ascending order of the keys, and strictly ascending order of ids. *)
Definition ascending {A} (key : A -> string) : list A -> Prop :=
  Sorted (fun a b => String.leb (key a) (key b) = true).

Definition strictly_ascending : list uuid -> Prop :=
  Sorted (fun a b => String.ltb a b = true).

(** A request on an account id the seeded store does not hold. *)
Definition topup_nobody : request :=
  Seed.req "00000000-0000-4000-8000-000000000001"%string 100%float "r5".

(** The id of Alice in upper case, which the store reads as her id, and a
    text with colons for hyphens, which it does not read as a uuid; both
    are accepted by the schemas of the routes. *)
Definition ALICE : string := "C1000000-0000-0000-0000-000000000001".

Definition alice_with_colons : string :=
  "c1000000:0000:0000:0000:000000000001".

Definition topup_ALICE : request := Seed.req ALICE 100%float "r11".

Definition topup_colons : request :=
  Seed.req alice_with_colons 100%float "r12".

(** The rows of Alice and Bob as the lock query returns them. *)
Definition alice_locked : Account :=
  {| id := Seed.alice; external_id := Some "user_alice"%string;
     account_type_of := USER; name := "Alice";
     asset_type_id := Seed.GOLD; is_active := true;
     balance := 500 * Zpos scale; version := Some 0 |}.

Definition bob_locked : Account :=
  {| id := Seed.bob; external_id := Some "user_bob"%string;
     account_type_of := USER; name := "Bob";
     asset_type_id := Seed.GOLD; is_active := true;
     balance := 200 * Zpos scale; version := Some 0 |}.

(** The number of times the function was run, the delays slept, and the
    attempts that were run, in a list of events. *)
Fixpoint executions (evs : list event) : nat :=
  match evs with
  | [] => 0
  | run_fn _ :: r => S (executions r)
  | _ :: r => executions r
  end.

Fixpoint delays (evs : list event) : list number :=
  match evs with
  | [] => []
  | setTimeout d :: r => d :: delays r
  | _ :: r => delays r
  end.

Fixpoint attempts (evs : list event) : list nat :=
  match evs with
  | [] => []
  | run_fn k :: r => k :: attempts r
  | _ :: r => attempts r
  end.

(** A function that meets a serialization failure at every attempt. *)
Definition serialization_failure : error := pg_error "40001".
Definition deadlock_detected : error := pg_error "40P01".

Definition always_conflicts : nat -> M unit :=
  fun _ => throw serialization_failure.

(** What the function does at an attempt on the store [db]. *)
Definition outcome {A} (fn : nat -> M A) (env : environment) (db : session)
  (k : nat) : result A :=
  fst (fn k (begin (clock env k) db)).

(** The executions after the first one. *)
Definition re_executions (evs : list event) : nat := executions evs - 1.

(** Most recent first: descending order of the creation time of the
    transaction. *)
Definition created_at (r : ledger_entries_row * transactions_row) : Z :=
  t_created_at (snd r).


(** An account of the store that can be queried: present and active. *)
Definition account_active (accountId : uuid) (s : session) : Prop :=
  exists a, In a (accounts s) /\ a_id a = accountId /\ a_is_active a = true.



(** The category a valid filter selects; [None] without a filter. *)
Definition category (ty : option string) : option (option transaction_type) :=
  match type_filter ty with
  | None => Some None
  | Some x => option_map Some (transaction_type_of_text x)
  end.

(** The sum of the ledger amounts of an account. *)
Definition journal_sum (accountId : uuid) (s : session) : Z :=
  fold_right Z.add 0
    (map le_amount
       (filter (fun le => String.eqb (le_account_id le) accountId)
          (ledger_entries s))).


Definition history_query_alice : history_query :=
  {| q_limit := Some 2; q_offset := None; q_type := None |}.

(** The decimal a NUMERIC(20,8) value stands for; [decimal_value 1] is
    10^-8. *)
Definition decimal_value (n : numeric) : QArith_base.Q :=
  QArith_base.Qmake n scale.

(** The balance rows of an account. *)
Definition balance_rows (accountId : uuid) (s : session)
  : list account_balances_row :=
  filter (fun ab => String.eqb (ab_account_id ab) accountId)
    (account_balances s).

(** The seeded store with Alice holding 100000000.00000000 Gold Coins, in
    the cache and in the ledger alike, and a top-up of 0.00000002 coins:
    the number of the request is the one JSON.parse reads from that
    decimal. *)
Definition large_balance : numeric := 10000000000000000.

Definition large_db : session :=
  {| accounts := accounts Seed.db;
     account_balances :=
       map (fun ab =>
              if String.eqb (ab_account_id ab) Seed.alice
              then {| ab_account_id := ab_account_id ab;
                      ab_asset_type_id := ab_asset_type_id ab;
                      ab_balance := large_balance;
                      ab_version := ab_version ab;
                      ab_updated_at := ab_updated_at ab |}
              else ab)
         (account_balances Seed.db);
     transactions := transactions Seed.db;
     ledger_entries :=
       [ledger_entry Seed.tx_alice Seed.treasury_gold Seed.GOLD
          large_balance (- large_balance);
        ledger_entry Seed.tx_alice Seed.alice Seed.GOLD
          (- large_balance) large_balance;
        Seed.entry Seed.tx_bob Seed.treasury_gold Seed.GOLD 200 (-700);
        Seed.entry Seed.tx_bob Seed.bob Seed.GOLD (-200) 200;
        Seed.entry Seed.tx_charlie Seed.treasury_diamonds Seed.DIAMONDS
          150 (-150);
        Seed.entry Seed.tx_charlie Seed.charlie Seed.DIAMONDS (-150) 150];
     idempotency_keys := [];
     locked := [];
     sent := [];
     NOW := 0 |}.

Definition small_amount : number := parseFloat 2.

Definition topup_small : request := Seed.req Seed.alice small_amount "r9".

Definition large_db_topped : session :=
  snd (topUpWallet_body topup_small (Seed.ins 0) large_db).

(** A history query on an account the seeded store does not hold. *)
Definition nobody : uuid := "00000000-0000-4000-8000-000000000000"%string.

Definition topup_small_response : response :=
  {| transactionId := uuidv4 (Seed.ins 0);
     referenceId := "r9";
     type := TOP_UP;
     accountId := Seed.alice;
     amount := small_amount;
     balanceAfter := (parseFloat large_balance + small_amount)%float;
     description := "Wallet top-up";
     createdAt := new_Date (Seed.ins 0);
     idempotent := None |}.

(** ** Vocabulary of the further statements *)

(** The category, the default description and the response of a flow. *)
Definition flow_type (f : flow) : transaction_type :=
  match f with
  | TopUp => TOP_UP
  | Bonus => BONUS
  | Spend => SPEND
  end.

Definition default_description (f : flow) : string :=
  match f with
  | TopUp => "Wallet top-up"
  | Bonus => "Bonus issued"
  | Spend => "Credit spend"
  end.

Definition flow_response (f : flow) (r : request) (i : inputs) (after : number)
  : response :=
  {| transactionId := uuidv4 i;
     referenceId := req_referenceId r;
     type := flow_type f;
     accountId := req_accountId r;
     amount := req_amount r;
     balanceAfter := after;
     description := or_default (req_description r) (default_description f);
     createdAt := new_Date i;
     idempotent := None |}.

(** The rows a flow locks, given the system account [cp] it has read, and
    the system account as the posting takes it: the locked row, or the row
    read before. *)
Definition flow_rows (r : request) (cp : Account) (s : session) : list Account :=
  select_accounts_for_update (sortedIds [req_accountId r; id cp]) s.

Definition system_account (r : request) (cp : Account) (s : session) : Account :=
  or_else (find_account (id cp) (flow_rows r cp s)) cp.

(** The error of a flow that does not find its user account among the
    rows: the store's, when it could not read an id as a uuid, and
    otherwise the flow's own. *)
Definition lock_error (r : request) (cp : Account) : error :=
  match uuid_array_in (sortedIds [req_accountId r; id cp]) with
  | Some _ => ACCOUNT_NOT_FOUND
  | None => invalid_text_representation
  end.

(** A spend debits the user and credits the system account; a top-up and a
    bonus debit the system account and credit the user. *)
Definition debit_account (f : flow) (user sys : Account) : Account :=
  match f with
  | Spend => user
  | _ => sys
  end.

Definition credit_account (f : flow) (user sys : Account) : Account :=
  match f with
  | Spend => sys
  | _ => user
  end.

(** The new balances a flow computes for the user and the system account. *)
Definition user_after (f : flow) (r : request) (user : Account) : number :=
  match f with
  | Spend => (parseFloat (balance user) - req_amount r)%float
  | _ => (parseFloat (balance user) + req_amount r)%float
  end.

Definition system_after (f : flow) (r : request) (sys : Account) : number :=
  match f with
  | Spend => (parseFloat (balance sys) + req_amount r)%float
  | _ => (parseFloat (balance sys) - req_amount r)%float
  end.

(** The check a flow makes on the user account it has locked. *)
Definition flow_admits (f : flow) (r : request) (user cp : Account) : bool :=
  match f with
  | TopUp => String.eqb (asset_type_id user) (asset_type_id cp)
  | Bonus => true
  | Spend => negb (parseFloat (balance user) <? req_amount r)%float
  end.

(** The check of the posting engine on the account it debits. *)
Definition posting_admits (f : flow) (r : request) (user sys : Account) : bool :=
  negb (account_type_eqb (account_type_of (debit_account f user sys)) USER
        && (parseFloat (balance (debit_account f user sys)) - req_amount r <? 0)%float).

(** The session of a flow after its three reads, and after its writes: [uN]
    and [sN] are the new balances of the user and of the system account as
    the store keeps them, [a] the amount. *)
Definition flow_locked (r : request) (cp : Account) (s : session) : session :=
  lock_rows (map id (flow_rows r cp s))
    (record SELECT_accounts_FOR_UPDATE
       (record SELECT_accounts_by_external_id
          (record SELECT_idempotency_keys s))).

Definition flow_posted (f : flow) (r : request) (i : inputs) (cp user : Account)
  (a uN sN : numeric) (s : session) : session :=
  let sys := system_account r cp s in
  posted (uuidv4 i) (id (debit_account f user sys))
    (id (credit_account f user sys)) (asset_type_id user) a
    (match f with Spend => uN | _ => sN end)
    (match f with Spend => sN | _ => uN end)
    (inserted (uuidv4 i) (flow_type f) (req_referenceId r)
       (or_default (req_description r) (default_description f))
       (or_default (req_metadata r) "{}")
       (flow_locked r cp s)).

Definition flow_written (f : flow) (r : request) (i : inputs) (cp user : Account)
  (a uN sN : numeric) (s : session) : session :=
  stored (req_referenceId r) 201 (flow_response f r i (user_after f r user))
    (flow_posted f r i cp user a uN sN s).

(** What a fresh execution of a flow that returns has done. *)
Definition fresh_run (f : flow) (r : request) (i : inputs) (s : session)
  (resp : response) (s' : session) (cp user : Account) (a uN sN : numeric)
  : Prop :=
  first_row (select_idempotency_key (req_referenceId r) s) = None /\
  first_row (select_account_by_external_id (counterparty f) s) = Some cp /\
  find_account (req_accountId r) (flow_rows r cp s) = Some user /\
  flow_admits f r user cp = true /\
  posting_admits f r user (system_account r cp s) = true /\
  transactions_conflict (uuidv4 i) (req_referenceId r) s = false /\
  toNumeric (req_amount r) = Some a /\
  toNumeric (user_after f r user) = Some uN /\
  toNumeric (system_after f r (system_account r cp s)) = Some sN /\
  resp = flow_response f r i (user_after f r user) /\
  s' = flow_written f r i cp user a uN sN s.

(** The handler of a flow, and the events of a call that runs the body
    once. *)
Definition controller (f : flow)
  : request -> (nat -> inputs) -> environment -> session ->
    reply response * session * list event :=
  match f with
  | TopUp => Controller.topUp
  | Bonus => Controller.issueBonus
  | Spend => Controller.spend
  end.

Definition committed : list event :=
  [pool_connect; BEGIN; run_fn 0; COMMIT; client_release].

Definition rolled_back : list event :=
  [pool_connect; BEGIN; run_fn 0; ROLLBACK; client_release].

(** The reply to the error a flow throws when its own check refuses the
    user account: a top-up on an account of another asset type, a spend
    above the balance. *)
Definition refusal_reply (f : flow) : error_json :=
  match f with
  | Spend => {| ej_status := 422; ej_code := "INSUFFICIENT_BALANCE";
                ej_message := err_message |}
  | _ => {| ej_status := 400; ej_code := "INTERNAL_ERROR";
            ej_message := err_message |}
  end.

(** The treasury of the seed as [getAccountByExternalId] returns it, Bob's
    locked row, and an environment whose clock is at the expiry of a record
    stored at time 0. *)
Definition seed_treasury_read : Account :=
  {| id := Seed.treasury_gold; external_id := Some "SYSTEM_TREASURY_GOLD"%string;
     account_type_of := SYSTEM; name := "Gold Coins Treasury";
     asset_type_id := Seed.GOLD; is_active := true; balance := 0;
     version := None |}.

Definition seed_bob : Account :=
  {| id := Seed.bob; external_id := Some "user_bob"%string;
     account_type_of := USER; name := "Bob";
     asset_type_id := Seed.GOLD; is_active := true;
     balance := 200 * Zpos scale; version := Some 0 |}.

Definition late_env : environment :=
  {| clock := fun _ => hours_24; Math_random := fun _ => 0.5%float |}.

Definition spend_too_much : request := Seed.req Seed.bob 999999%float "r8".

(** The treasury and Alice's row after her first top-up, and the
    transaction of that top-up. *)
Definition done_treasury : Account :=
  {| id := Seed.treasury_gold; external_id := Some "SYSTEM_TREASURY_GOLD"%string;
     account_type_of := SYSTEM; name := "Gold Coins Treasury";
     asset_type_id := Seed.GOLD; is_active := true;
     balance := -100 * Zpos scale; version := None |}.

Definition done_alice : Account :=
  {| id := Seed.alice; external_id := Some "user_alice"%string;
     account_type_of := USER; name := "Alice";
     asset_type_id := Seed.GOLD; is_active := true;
     balance := 600 * Zpos scale; version := Some 1 |}.

Definition topup_alice_transaction : transactions_row :=
  {| t_id := uuidv4 (Seed.ins 0); t_type := TOP_UP; t_reference_id := "r1";
     t_description := "Wallet top-up"; t_metadata := "{}"; t_created_at := 0 |}.





(** The signed sum of the journal entries of a transaction; a balanced
    journal; a journal whose entries all belong to a transaction of the
    store. *)
Definition transaction_sum (tx : uuid) (l : list ledger_entries_row) : Z :=
  fold_right Z.add 0
    (map le_amount
       (filter (fun le => String.eqb (le_transaction_id le) tx) l)).

Definition balanced (s : session) : Prop :=
  forall tx, transaction_sum tx (ledger_entries s) = 0.

Definition referential (s : session) : Prop :=
  forall le, In le (ledger_entries s) ->
             exists t, In t (transactions s) /\ t_id t = le_transaction_id le.



(** The change of the user's balance a flow stands for: minus the amount
    for a spend, plus the amount for a top-up or a bonus. *)
Definition signed (f : flow) (a : numeric) : numeric :=
  match f with
  | Spend => - a
  | _ => a
  end.

(** The rows of the audit with a new cached balance and a ledger balance
    moved by [d]. *)
Definition audit_moved (b d : numeric) (row : integrity_row) : integrity_row :=
  {| cached_balance := b;
     ledger_balance := ledger_balance row + d;
     is_consistent := Z.abs (b - (ledger_balance row + d)) <? 1 |}.

(** A top-up of 100 whose account is the treasury itself. *)
Definition topup_treasury : request :=
  Seed.req Seed.treasury_gold 100%float "r10".

Definition seed_treasury_twice : session :=
  snd (topUpWallet_body topup_treasury (Seed.ins 0) Seed.db).

(** The asset types of migrations/002_seed.sql. *)
Definition seed_asset_types : list asset_types_row :=
  [ {| at_id := Seed.GOLD; at_code := "GOLD_COINS"; at_name := "Gold Coins" |};
    {| at_id := Seed.DIAMONDS; at_code := "DIAMONDS"; at_name := "Diamonds" |};
    {| at_id := Seed.LOYALTY; at_code := "LOYALTY_POINTS";
       at_name := "Loyalty Points" |} ].

(** The primary key of account_balances: one row per account. *)
Definition one_balance_row_per_account (s : session) : Prop :=
  NoDup (map ab_account_id (account_balances s)).

(** A balance view after a posting: the new balance, the next version, the
    time of the update. *)
Definition balance_view_moved (b : numeric) (now : Z) (v : balance_view)
  : balance_view :=
  {| bv_accountId := bv_accountId v;
     bv_externalId := bv_externalId v;
     bv_name := bv_name v;
     bv_accountType := bv_accountType v;
     bv_asset_code := bv_asset_code v;
     bv_asset_name := bv_asset_name v;
     bv_balance := parseFloat b;
     bv_version := bv_version v + 1;
     bv_updatedAt := now |}.

Definition seed_alice_view : balance_view :=
  {| bv_accountId := Seed.alice;
     bv_externalId := Some "user_alice"%string;
     bv_name := "Alice";
     bv_accountType := USER;
     bv_asset_code := "GOLD_COINS";
     bv_asset_name := "Gold Coins";
     bv_balance := 500%float;
     bv_version := 0;
     bv_updatedAt := 0 |}.



(** Text of ASCII characters only, on which [toUpperCase] is the method of
    JavaScript. *)
Definition isASCII (x : string) : bool :=
  forallb (fun c => (N_of_ascii c <? 128)%N) (list_ascii_of_string x).





(** The journal entry a flow writes on the user account, and the
    transaction it belongs to. *)
Definition user_entry (f : flow) (r : request) (i : inputs) (user : Account)
  (a uN : numeric) : ledger_entries_row :=
  ledger_entry (uuidv4 i) (req_accountId r) (asset_type_id user)
    (- signed f a) uN.

Definition flow_transaction (f : flow) (r : request) (i : inputs) (now : Z)
  : transactions_row :=
  {| t_id := uuidv4 i; t_type := flow_type f;
     t_reference_id := req_referenceId r;
     t_description := or_default (req_description r) (default_description f);
     t_metadata := or_default (req_metadata r) "{}";
     t_created_at := now |}.

(** A store whose transactions all started before the time [now]. *)
Definition all_before (now : Z) (s : session) : Prop :=
  forall t, In t (transactions s) -> t_created_at t < now.

(** The seeded store at time 1000, when its three transactions are in the
    past. *)
Definition seed_later : session := begin 1000 Seed.db.

(** The seeded store with Bob's account deactivated. *)
Definition bob_inactive : session :=
  {| accounts :=
       map (fun a =>
              if String.eqb (a_id a) Seed.bob
              then {| a_id := a_id a; a_external_id := a_external_id a;
                      a_account_type := a_account_type a; a_name := a_name a;
                      a_asset_type_id := a_asset_type_id a;
                      a_is_active := false |}
              else a)
         (accounts Seed.db);
     account_balances := account_balances Seed.db;
     transactions := transactions Seed.db;
     ledger_entries := ledger_entries Seed.db;
     idempotency_keys := [];
     locked := [];
     sent := [];
     NOW := 0 |}.

(** ** Whole numbers in binary64

    The binary64 number equal to the whole number [z], or to its opposite:
    the mantissa is [z] shifted up to 53 bits.  It is the number as long as
    [z] has at most 53 bits. *)
Definition whole_finite (s : bool) (z : positive) : spec_float :=
  S754_finite s (Z.to_pos (Zpos z * 2 ^ (53 - Zpos (digits2_pos z))))
    (Zpos (digits2_pos z) - 53).

Definition whole (k : Z) : spec_float :=
  match k with
  | Z0 => S754_zero false
  | Zpos z => whole_finite false z
  | Zneg z => whole_finite true z
  end.

(** A row of the audit with both balances moved by [d]. *)
Definition audit_shifted (d : numeric) (row : integrity_row) : integrity_row :=
  {| cached_balance := cached_balance row + d;
     ledger_balance := ledger_balance row + d;
     is_consistent := is_consistent row |}.

(** A database without rows, and the database after the seed script has
    run once at each of the times [clocks], in that order: [None] if a run
    fails. *)
Definition empty_database : database :=
  ([],
   {| accounts := []; account_balances := []; transactions := [];
      ledger_entries := []; idempotency_keys := []; locked := []; sent := [];
      NOW := 0 |}).

Fixpoint seed_runs (clocks : list Z) (d : database) : option database :=
  match clocks with
  | [] => Some d
  | now :: later =>
      match seed_script now d with
      | Ok d' => seed_runs later d'
      | Throw _ => None
      end
  end.

Definition seeded (clocks : list Z) : option database :=
  seed_runs clocks empty_database.

(** The seeded store with the times of a first run at [t0] and a last run
    at [t], and with [l] as its journal: the transactions and the balance
    rows of the system accounts are of the first run, the balance rows of
    the three users were last written at [t]. *)
Definition seeded_tables (t0 t : Z) (l : list ledger_entries_row) : session :=
  {| accounts := accounts Seed.db;
     account_balances :=
       map (fun ab =>
              {| ab_account_id := ab_account_id ab;
                 ab_asset_type_id := ab_asset_type_id ab;
                 ab_balance := ab_balance ab;
                 ab_version := ab_version ab;
                 ab_updated_at :=
                   if existsb (String.eqb (ab_account_id ab))
                        [Seed.alice; Seed.bob; Seed.charlie]
                   then t else t0 |})
         (account_balances Seed.db);
     transactions :=
       map (fun x =>
              {| t_id := t_id x; t_type := t_type x;
                 t_reference_id := t_reference_id x;
                 t_description := t_description x;
                 t_metadata := t_metadata x; t_created_at := t0 |})
         (transactions Seed.db);
     ledger_entries := l;
     idempotency_keys := []; locked := []; sent := []; NOW := 0 |}.

(** [n] copies of a list, one after the other. *)
Fixpoint copies {A} (n : nat) (l : list A) : list A :=
  match n with
  | O => []
  | S n' => copies n' l ++ l
  end.

(** * Properties *)

(** ** The input of a uuid *)

Lemma tolower_xdigit_spec (c : ascii) :
  isxdigit c = true ->
  isxdigit (tolower_xdigit c) = true /\
  tolower_xdigit (tolower_xdigit c) = tolower_xdigit c /\
  tolower_xdigit c <> "-"%char /\ tolower_xdigit c <> "{"%char.
Proof.
  destruct c as [[] [] [] [] [] [] [] []]; vm_compute; intros H;
    try discriminate H; repeat split; discriminate.
Qed.

Lemma string_to_uuid_head (todo i : nat) (src out tl : string) :
  string_to_uuid (S todo) i src = Some (out, tl) ->
  exists c out', out = String c out' /\ c <> "-"%char /\ c <> "{"%char.
Proof.
  cbn [string_to_uuid].
  destruct src as [|a [|b rest]]; try discriminate.
  destruct (isxdigit a) eqn:Ea; [|discriminate].
  destruct (isxdigit b); [|discriminate]. cbn [andb].
  destruct (string_to_uuid todo (S i) _) as [[o t]|]; [|discriminate].
  intros H. injection H as <- <-.
  destruct (tolower_xdigit_spec a Ea) as (_ & _ & N1 & N2). eauto.
Qed.

(** The canonical text reads as itself. *)
Lemma string_to_uuid_out (todo : nat) :
  forall (i : nat) (src out tl rest : string),
    (todo + i = 16)%nat ->
    string_to_uuid todo i src = Some (out, tl) ->
    string_to_uuid todo i (out ++ rest) = Some (out, rest).
Proof.
  induction todo as [|todo IH]; intros i src out tl rest Hi H.
  - cbn [string_to_uuid] in *. injection H as <- <-. reflexivity.
  - assert (Hy : exists hy, hy = existsb (Nat.eqb i) [3; 5; 7; 9]%nat)
      by eauto.
    destruct Hy as (hy & Hy).
    assert (HO : hy = true -> Nat.odd i && (i <? 15)%nat = true).
    { intros ->. symmetry in Hy. cbn [existsb] in Hy.
      repeat (apply orb_prop in Hy as [Hy|Hy];
              [apply Nat.eqb_eq in Hy; subst i; reflexivity|]).
      discriminate. }
    unfold string_to_uuid in H |- *; fold string_to_uuid in H |- *.
    rewrite <- Hy in H |- *. clear Hy.
    destruct src as [|a [|b src]]; try discriminate.
    destruct (isxdigit a) eqn:Ea; [|discriminate].
    destruct (isxdigit b) eqn:Eb; [|discriminate]. cbn [andb] in H.
    destruct (string_to_uuid todo (S i) _) as [[o t]|] eqn:E; [|discriminate].
    injection H as <- <-.
    destruct (tolower_xdigit_spec a Ea) as (Xa & Ia & _).
    destruct (tolower_xdigit_spec b Eb) as (Xb & Ib & _).
    pose proof (IH (S i) _ o t rest ltac:(lia) E) as R.
    cbn [append]. rewrite Xa, Xb. cbn [andb]. rewrite Ia, Ib.
    destruct hy.
    + cbn [append]. cbv beta iota zeta. rewrite (HO eq_refl), R.
      reflexivity.
    + destruct todo as [|todo'].
      * cbn [string_to_uuid] in E. injection E as <- <-.
        assert (i = 15)%nat by lia. subst i. cbn [append].
        cbn [string_to_uuid].
        destruct rest as [|c rest']; [reflexivity|].
        destruct c as [[] [] [] [] [] [] [] []]; reflexivity.
      * destruct (string_to_uuid_head _ _ _ _ _ E) as (c & o' & -> & N & _).
        cbn [append] in *.
        assert (K : match String c (o' ++ rest) with
                    | String "-" after =>
                        if Nat.odd i && (i <? 15)%nat then after
                        else String c (o' ++ rest)
                    | _ => String c (o' ++ rest)
                    end = String c (o' ++ rest)).
        { destruct c as [[] [] [] [] [] [] [] []]; try reflexivity.
          exfalso. apply N. reflexivity. }
        rewrite K, R. reflexivity.
Qed.

Lemma uuid_in_canonical (text : string) (u : uuid) :
  uuid_in text = Some u -> uuid_in u = Some u.
Proof.
  unfold uuid_in.
  set (src := match text with String "{" r => r | _ => text end).
  destruct (string_to_uuid 16 0 src) as [[out tl]|] eqn:E; [|discriminate].
  intros H.
  assert (out = u).
  { destruct (match text with String "{" _ => true | _ => false end);
      destruct tl as [|c [|]]; try discriminate; try congruence.
    all: destruct c as [[] [] [] [] [] [] [] []]; try discriminate;
      congruence. }
  subst out.
  destruct (string_to_uuid_head _ _ _ _ _ E) as (c & o' & -> & _ & N).
  pose proof (string_to_uuid_out 16 0 src _ tl EmptyString eq_refl E) as R.
  assert (A : forall x : string, (x ++ "")%string = x).
  { induction x as [|y x IH]; cbn [append]; [reflexivity|]. now rewrite IH. }
  rewrite A in R.
  replace (match String c o' with String "{" r => r | _ => String c o' end)
    with (String c o').
  2:{ destruct c as [[] [] [] [] [] [] [] []]; try reflexivity.
      exfalso. apply N. reflexivity. }
  rewrite R.
  replace (match String c o' with String "{" _ => true | _ => false end)
    with false; [reflexivity|].
  destruct c as [[] [] [] [] [] [] [] []]; try reflexivity.
  exfalso. apply N. reflexivity.
Qed.

(** ** Binary64 facts *)

Lemma digits2_pos_bounds (p : positive) :
  2 ^ (Zpos (digits2_pos p) - 1) <= Zpos p < 2 ^ Zpos (digits2_pos p).
Proof.
  assert (step : forall d, 0 < d -> 2 ^ d = 2 * 2 ^ (d - 1)).
  { intros d Hd. rewrite <- Z.pow_succ_r by lia. f_equal. lia. }
  induction p as [p IH | p IH |]; simpl digits2_pos.
  - rewrite Pos2Z.inj_succ.
    replace (Z.succ (Zpos (digits2_pos p)) - 1) with (Zpos (digits2_pos p)) by lia.
    rewrite Z.pow_succ_r by lia.
    rewrite (step (Zpos (digits2_pos p))) in * by lia. lia.
  - rewrite Pos2Z.inj_succ.
    replace (Z.succ (Zpos (digits2_pos p)) - 1) with (Zpos (digits2_pos p)) by lia.
    rewrite Z.pow_succ_r by lia.
    rewrite (step (Zpos (digits2_pos p))) in * by lia. lia.
  - simpl. lia.
Qed.

Lemma iter_xO_pow (m d : positive) :
  Zpos (Pos.iter xO m d) = Zpos m * 2 ^ Zpos d.
Proof.
  induction d as [|d IH] using Pos.peano_ind.
  - simpl. lia.
  - rewrite Pos.iter_succ, Pos2Z.inj_succ, Z.pow_succ_r by lia.
    rewrite Pos2Z.inj_xO, IH. lia.
Qed.

Lemma shl_align_value (m : positive) (e ez : Z) :
  ez <= e -> Zpos (fst (shl_align m e ez)) = Zpos m * 2 ^ (e - ez).
Proof.
  intros H. unfold shl_align.
  destruct (ez - e) as [|d|d] eqn:E.
  - replace (e - ez) with 0 by lia. simpl. lia.
  - lia.
  - simpl fst. rewrite iter_xO_pow. f_equal. f_equal. lia.
Qed.

Lemma canonical_lt (m1 m2 : positive) (e1 e2 : Z) :
  bounded prec emax m1 e1 = true ->
  bounded prec emax m2 e2 = true ->
  e1 < e2 ->
  Zpos m1 < Zpos m2 * 2 ^ (e2 - e1).
Proof.
  unfold bounded, canonical_mantissa, fexp, emin, prec, emax.
  intros H1 H2 Hlt.
  apply andb_prop in H1 as [H1 _]. apply andb_prop in H2 as [H2 _].
  apply Z.eqb_eq in H1. apply Z.eqb_eq in H2.
  pose proof (digits2_pos_bounds m1) as [_ B1].
  pose proof (digits2_pos_bounds m2) as [B2 _].
  assert (D2 : Zpos (digits2_pos m2) = 53) by lia.
  assert (D1 : Zpos (digits2_pos m1) <= 53) by lia.
  rewrite D2 in B2.
  assert (P1 : 2 ^ Zpos (digits2_pos m1) <= 2 ^ 53)
    by (apply Z.pow_le_mono_r; lia).
  assert (P2 : 2 ^ 1 <= 2 ^ (e2 - e1)) by (apply Z.pow_le_mono_r; lia).
  change (2 ^ 1) with 2 in P2. change (2 ^ (53 - 1)) with 4503599627370496 in B2.
  change (2 ^ 53) with 9007199254740992 in P1.
  nia.
Qed.

Lemma binary_normalize_not_neg (z e : Z) :
  0 <= z ->
  SFltb (binary_normalize prec emax z e false) (S754_zero false) = false.
Proof.
  intros Hz. destruct z as [|p|p]; [reflexivity | | lia].
  unfold binary_normalize, binary_round, binary_round_aux.
  destruct (shl_align p e _) as [mz ez'].
  destruct (shr_fexp prec emax (Zpos mz) ez' loc_Exact) as [mrs' e'].
  destruct (shr_fexp prec emax _ e' loc_Exact) as [mrs'' e''].
  destruct (shr_m mrs''); try reflexivity.
  destruct (e'' <=? _); reflexivity.
Qed.

Lemma SFsub_not_neg (x y : spec_float) :
  valid_binary x = true -> valid_binary y = true ->
  SFltb x y = false ->
  SFltb (SF64sub x y) (S754_zero false) = false.
Proof.
  intros Vx Vy.
  destruct x as [sx|sx| |sx mx ex], y as [sy|sy| |sy my ey];
    try (unfold SFltb, SF64sub;
         try destruct sx; try destruct sy; simpl; congruence).
  simpl in Vx, Vy. unfold SFltb at 1. unfold SF64sub, SFsub. simpl SFcompare.
  intros H. apply binary_normalize_not_neg.
  rewrite !shl_align_value by lia.
  assert (P1 : 0 < 2 ^ (ex - Z.min ex ey)) by (apply Z.pow_pos_nonneg; lia).
  assert (P2 : 0 < 2 ^ (ey - Z.min ex ey)) by (apply Z.pow_pos_nonneg; lia).
  destruct sx, sy; cbv [cond_Zopp]; try discriminate; try nia.
  - destruct (Z.compare_spec ex ey) as [E|E|E]; try discriminate.
    + subst ey. rewrite Z.min_id, Z.sub_diag in *.
      fold (Pos.compare mx my) in H.
      destruct (Pos.compare_spec mx my); simpl in H; try discriminate; lia.
    + pose proof (canonical_lt _ _ _ _ Vx Vy E).
      rewrite Z.min_l in * by lia. rewrite Z.sub_diag. lia.
  - destruct (Z.compare_spec ex ey) as [E|E|E]; try discriminate.
    + subst ey. rewrite Z.min_id, Z.sub_diag in *.
      fold (Pos.compare mx my) in H.
      destruct (Pos.compare_spec mx my); simpl in H; try discriminate; lia.
    + pose proof (canonical_lt _ _ _ _ Vy Vx E).
      rewrite Z.min_r in * by lia. rewrite Z.sub_diag. lia.
Qed.

Lemma Prim2SF_zero : Prim2SF 0 = S754_zero false.
Proof. reflexivity. Qed.

(** A difference is never negative when the first operand is not below
    the second: rounding keeps the sign of the exact result. *)
Lemma sub_not_neg (b a : float) :
  (b <? a)%float = false -> (b - a <? 0)%float = false.
Proof.
  rewrite !ltb_spec, sub_spec, Prim2SF_zero.
  apply SFsub_not_neg; apply Prim2SF_valid.
Qed.

Lemma toNumeric_opp (x : number) :
  toNumeric (- x)%float = option_map Z.opp (toNumeric x).
Proof.
  unfold toNumeric. rewrite opp_spec.
  destruct (Prim2SF x) as [s|s| |s m e]; try reflexivity.
  cbv [SFopp]. destruct (shortest_decimal m e) as [c q].
  destruct (Z.of_N (round_to_scale c q) <? numeric_limit); [|reflexivity].
  destruct s; simpl; f_equal; lia.
Qed.

Lemma toNumeric_not_neg (x : number) (d : numeric) :
  (x <? 0)%float = false -> toNumeric x = Some d -> 0 <= d.
Proof.
  rewrite ltb_spec, Prim2SF_zero. unfold toNumeric, SFltb.
  destruct (Prim2SF x) as [s|s| |s m e]; try discriminate.
  - intros _ H. injection H as <-. lia.
  - destruct (shortest_decimal m e) as [c q].
    destruct (Z.of_N (round_to_scale c q) <? numeric_limit); [|discriminate].
    destruct s; simpl; [discriminate|].
    intros _ H. injection H as <-. lia.
Qed.

Lemma SFsub_diag (x : spec_float) :
  SF64sub x x = S754_zero false \/ SF64sub x x = S754_nan.
Proof.
  destruct x as [s|s| |s m e]; simpl; auto.
  - destruct s; auto.
  - destruct s; auto.
  - left. unfold SF64sub, SFsub. rewrite Z.sub_diag. reflexivity.
Qed.

(** What is left of a balance from which the balance itself is taken. *)
Lemma toNumeric_sub_diag (x : number) (d : numeric) :
  toNumeric (x - x)%float = Some d -> d = 0.
Proof.
  unfold toNumeric. rewrite sub_spec.
  destruct (SFsub_diag (Prim2SF x)) as [-> | ->]; [|discriminate].
  intros H. injection H as <-. reflexivity.
Qed.

(** ** Running the statements *)

Lemma run_bind {A B} (m : M A) (k : A -> M B) (s s1 : session) (a : A) :
  m s = (Ok a, s1) -> bind m k s = k a s1.
Proof. unfold bind. intros ->. reflexivity. Qed.

Lemma run_bind_throw {A B} (m : M A) (k : A -> M B) (s s1 : session)
  (e : error) :
  m s = (Throw e, s1) -> bind m k s = (Throw e, s1).
Proof. unfold bind. intros ->. reflexivity. Qed.

(** ** The posting engine *)

Lemma run_insert_ledger_entry (tx acc asset : uuid) (amt bal : number)
  (a b : numeric) (s : session) :
  toNumeric amt = Some a -> toNumeric bal = Some b ->
  insert_ledger_entry tx acc asset amt bal s
  = (Ok tt, appended (ledger_entry tx acc asset a b) s).
Proof.
  intros Ea Eb. unfold insert_ledger_entry, query. rewrite Ea, Eb.
  reflexivity.
Qed.

Lemma run_update_account_balance (acc : uuid) (bal : number) (b : numeric)
  (s : session) :
  toNumeric bal = Some b ->
  update_account_balance acc bal s = (Ok tt, updated acc b s).
Proof.
  intros Eb. unfold update_account_balance, query. rewrite Eb. reflexivity.
Qed.

Lemma insert_ledger_entry_refused (tx acc asset : uuid) (amt bal : number)
  (s : session) :
  toNumeric amt = None \/ toNumeric bal = None ->
  insert_ledger_entry tx acc asset amt bal s
  = (Throw numeric_value_out_of_range, record INSERT_ledger_entries s).
Proof.
  unfold insert_ledger_entry, query.
  intros [E|E]; rewrite E; [|destruct (toNumeric amt)]; reflexivity.
Qed.

Lemma update_account_balance_refused (acc : uuid) (bal : number) (s : session) :
  toNumeric bal = None ->
  update_account_balance acc bal s
  = (Throw numeric_value_out_of_range, record UPDATE_account_balances s).
Proof.
  intros E. unfold update_account_balance, query. rewrite E. reflexivity.
Qed.

Lemma run_postDoubleEntry (tx : uuid) (D C : Account) (m : number)
  (asset : uuid) (s : session) (a dN cN : numeric) :
  account_type_eqb (account_type_of D) USER
  && (parseFloat (balance D) - m <? 0)%float = false ->
  toNumeric m = Some a ->
  toNumeric (parseFloat (balance D) - m)%float = Some dN ->
  toNumeric (parseFloat (balance C) + m)%float = Some cN ->
  postDoubleEntry tx D C m asset s =
  (Ok ((parseFloat (balance D) - m)%float, (parseFloat (balance C) + m)%float),
   posted tx (id D) (id C) asset a dN cN s).
Proof.
  intros G Ea Ed Ec. unfold postDoubleEntry. rewrite G.
  assert (Eo : toNumeric (- m)%float = Some (- a))
    by (rewrite toNumeric_opp, Ea; reflexivity).
  rewrite (run_bind _ _ _ _ _ (run_insert_ledger_entry _ _ _ _ _ _ _ _ Ea Ed)).
  rewrite (run_bind _ _ _ _ _ (run_insert_ledger_entry _ _ _ _ _ _ _ _ Eo Ec)).
  rewrite (run_bind _ _ _ _ _ (run_update_account_balance _ _ _ _ Ed)).
  rewrite (run_bind _ _ _ _ _ (run_update_account_balance _ _ _ _ Ec)).
  reflexivity.
Qed.

(** A posting either is refused for the balance, before anything is sent,
    or is refused by the store for a value out of range, or goes through. *)
Lemma postDoubleEntry_cases (tx : uuid) (D C : Account) (m : number)
  (asset : uuid) (s : session) :
  (account_type_eqb (account_type_of D) USER
   && (parseFloat (balance D) - m <? 0)%float = true
   /\ postDoubleEntry tx D C m asset s = (Throw INSUFFICIENT_BALANCE, s))
  \/ (account_type_eqb (account_type_of D) USER
      && (parseFloat (balance D) - m <? 0)%float = false
      /\ exists s', postDoubleEntry tx D C m asset s
                    = (Throw numeric_value_out_of_range, s'))
  \/ (account_type_eqb (account_type_of D) USER
      && (parseFloat (balance D) - m <? 0)%float = false
      /\ exists a dN cN,
          toNumeric m = Some a
          /\ toNumeric (parseFloat (balance D) - m)%float = Some dN
          /\ toNumeric (parseFloat (balance C) + m)%float = Some cN
          /\ postDoubleEntry tx D C m asset s =
             (Ok ((parseFloat (balance D) - m)%float,
                  (parseFloat (balance C) + m)%float),
              posted tx (id D) (id C) asset a dN cN s)).
Proof.
  destruct (account_type_eqb (account_type_of D) USER
            && (parseFloat (balance D) - m <? 0)%float) eqn:G.
  - left. split; [reflexivity|]. unfold postDoubleEntry. rewrite G.
    reflexivity.
  - right.
    destruct (toNumeric m) as [a|] eqn:Ea;
      [destruct (toNumeric (parseFloat (balance D) - m)%float) as [dN|] eqn:Ed;
       [destruct (toNumeric (parseFloat (balance C) + m)%float) as [cN|] eqn:Ec|]
      |].
    + right. split; [reflexivity|]. exists a, dN, cN.
      repeat split; try assumption.
      apply run_postDoubleEntry; assumption.
    + left. split; [reflexivity|]. unfold postDoubleEntry. rewrite G.
      assert (Eo : toNumeric (- m)%float = Some (- a))
        by (rewrite toNumeric_opp, Ea; reflexivity).
      rewrite (run_bind _ _ _ _ _
                 (run_insert_ledger_entry _ _ _ _ _ _ _ _ Ea Ed)).
      eexists. apply run_bind_throw. apply insert_ledger_entry_refused.
      right. exact Ec.
    + left. split; [reflexivity|]. unfold postDoubleEntry. rewrite G.
      eexists. apply run_bind_throw. apply insert_ledger_entry_refused.
      right. exact Ed.
    + left. split; [reflexivity|]. unfold postDoubleEntry. rewrite G.
      eexists. apply run_bind_throw. apply insert_ledger_entry_refused.
      left. exact Ea.
Qed.


Lemma postDoubleEntry_Throw (tx : uuid) (D C : Account) (m : number)
  (asset : uuid) (s s' : session) (e : error) :
  postDoubleEntry tx D C m asset s = (Throw e, s') ->
  (account_type_eqb (account_type_of D) USER
   && (parseFloat (balance D) - m <? 0)%float = true
   /\ e = INSUFFICIENT_BALANCE /\ s' = s)
  \/ e = numeric_value_out_of_range.
Proof.
  intros H.
  destruct (postDoubleEntry_cases tx D C m asset s)
    as [(G & E) | [(_ & s1 & E) | (G & a & dN & cN & Ea & Ed & Ec & E)]];
    rewrite E in H; try discriminate.
  - injection H as <- <-. left. auto.
  - injection H as <- _. right. reflexivity.
Qed.

Lemma posted_tables (tx idD idC asset : uuid) (a dN cN : numeric) (s : session) :
  accounts (posted tx idD idC asset a dN cN s) = accounts s /\
  account_balances (posted tx idD idC asset a dN cN s)
  = map (update_row idC cN (NOW s))
      (map (update_row idD dN (NOW s)) (account_balances s)) /\
  transactions (posted tx idD idC asset a dN cN s) = transactions s /\
  ledger_entries (posted tx idD idC asset a dN cN s)
  = ledger_entries s ++ [ledger_entry tx idD asset a dN;
                         ledger_entry tx idC asset (- a) cN] /\
  idempotency_keys (posted tx idD idC asset a dN cN s) = idempotency_keys s /\
  locked (posted tx idD idC asset a dN cN s) = locked s /\
  sent (posted tx idD idC asset a dN cN s)
  = sent s ++ [INSERT_ledger_entries; INSERT_ledger_entries;
               UPDATE_account_balances; UPDATE_account_balances] /\
  NOW (posted tx idD idC asset a dN cN s) = NOW s.
Proof.
  unfold posted, updated, appended.
  repeat split;
    cbn [accounts account_balances transactions ledger_entries
         idempotency_keys locked sent NOW record set_ledger_entries
         set_account_balances];
    rewrite <- ?app_assoc; reflexivity.
Qed.

Lemma update_row_account_id (k : uuid) (b now : Z) (r : account_balances_row) :
  ab_account_id (update_row k b now r) = ab_account_id r.
Proof. unfold update_row. destruct (String.eqb _ _); reflexivity. Qed.

Lemma cached_rows_update (k : uuid) (b now : Z) (x : uuid)
  (l : list account_balances_row) :
  cached_rows x (map (update_row k b now) l) =
  if String.eqb x k
  then map (fun bv => (b, snd bv + 1)) (cached_rows x l)
  else cached_rows x l.
Proof.
  unfold cached_rows.
  induction l as [|r l IH]; simpl.
  - destruct (String.eqb x k); reflexivity.
  - rewrite update_row_account_id.
    destruct (String.eqb_spec (ab_account_id r) x) as [E2|E2]; simpl;
      rewrite IH; [|reflexivity].
    unfold update_row. rewrite E2.
    destruct (String.eqb x k); reflexivity.
Qed.





(** ** Running the statements of the flows *)

Lemma run_checkIdempotency (ref : string) (s : session) :
  checkIdempotency ref s =
  (Ok (first_row (select_idempotency_key ref s)),
   record SELECT_idempotency_keys s).
Proof. reflexivity. Qed.

Lemma run_getAccountByExternalId (ext : string) (s : session) :
  getAccountByExternalId ext s =
  (Ok (first_row (select_account_by_external_id ext s)),
   record SELECT_accounts_by_external_id s).
Proof. reflexivity. Qed.

Lemma run_getAccountsWithLock (ids : list string) (s : session) :
  getAccountsWithLock ids s =
  match uuid_array_in (sortedIds ids) with
  | Some _ =>
      (Ok (select_accounts_for_update (sortedIds ids) s),
       lock_rows (map id (select_accounts_for_update (sortedIds ids) s))
         (record SELECT_accounts_FOR_UPDATE s))
  | None =>
      (Throw invalid_text_representation, record SELECT_accounts_FOR_UPDATE s)
  end.
Proof.
  unfold getAccountsWithLock, query.
  destruct (uuid_array_in (sortedIds ids)); reflexivity.
Qed.

(** A row is returned only when every text has been read as a uuid. *)
Lemma select_accounts_for_update_cast (texts : list string) (s : session)
  (x : string) (u : Account) :
  find_account x (select_accounts_for_update texts s) = Some u ->
  exists ids, uuid_array_in texts = Some ids.
Proof.
  unfold select_accounts_for_update.
  destruct (uuid_array_in texts) as [ids|]; [eauto|discriminate].
Qed.

Lemma run_insert_transaction (txId : uuid) (ty : transaction_type)
  (ref desc meta : string) (s : session) :
  transactions_conflict txId ref s = false ->
  insert_transaction txId ty ref desc meta s =
  (Ok tt, inserted txId ty ref desc meta s).
Proof.
  intros H. unfold insert_transaction, query.
  change (transactions_conflict txId ref (record INSERT_transactions s))
    with (transactions_conflict txId ref s).
  rewrite H. reflexivity.
Qed.

Lemma run_insert_transaction_conflict (txId : uuid) (ty : transaction_type)
  (ref desc meta : string) (s : session) :
  transactions_conflict txId ref s = true ->
  insert_transaction txId ty ref desc meta s =
  (Throw unique_violation, record INSERT_transactions s).
Proof.
  intros H. unfold insert_transaction, query.
  change (transactions_conflict txId ref (record INSERT_transactions s))
    with (transactions_conflict txId ref s).
  rewrite H. reflexivity.
Qed.

(** The reads see the tables only: not what was sent, not the locks. *)
Lemma select_idempotency_key_record ref q s :
  select_idempotency_key ref (record q s) = select_idempotency_key ref s.
Proof. reflexivity. Qed.

Lemma select_account_by_external_id_record ext q s :
  select_account_by_external_id ext (record q s)
  = select_account_by_external_id ext s.
Proof. reflexivity. Qed.

Lemma select_accounts_for_update_record ids q s :
  select_accounts_for_update ids (record q s)
  = select_accounts_for_update ids s.
Proof. reflexivity. Qed.

Lemma transactions_conflict_lock txId ref ids q s :
  transactions_conflict txId ref (lock_rows ids (record q s))
  = transactions_conflict txId ref s.
Proof. reflexivity. Qed.

Lemma run_storeIdempotencyResult (ref : string) (st : Z) (body : response)
  (s : session) :
  storeIdempotencyResult ref st body s = (Ok tt, stored ref st body s).
Proof.
  unfold storeIdempotencyResult, stored, query.
  change (idempotency_keys (record INSERT_idempotency_keys s))
    with (idempotency_keys s).
  destruct (existsb _ _); reflexivity.
Qed.

Lemma stored_tables (ref : string) (st : Z) (body : response) (s : session) :
  accounts (stored ref st body s) = accounts s /\
  account_balances (stored ref st body s) = account_balances s /\
  transactions (stored ref st body s) = transactions s /\
  ledger_entries (stored ref st body s) = ledger_entries s /\
  locked (stored ref st body s) = locked s.
Proof. unfold stored. destruct (existsb _ _); repeat split. Qed.

Ltac run :=
  repeat first
    [ rewrite run_checkIdempotency
    | rewrite run_getAccountByExternalId
    | rewrite run_getAccountsWithLock
    | rewrite run_storeIdempotencyResult
    | rewrite select_idempotency_key_record
    | rewrite select_account_by_external_id_record
    | rewrite select_accounts_for_update_record ].

(** The lock query of a flow whose user account has been found. *)
Ltac cast_by H :=
  let ids := fresh "ids" in
  let E := fresh "Ecast" in
  destruct (select_accounts_for_update_cast _ _ _ _ H) as (ids & E);
  rewrite E.

(** ** The flows *)

(** What a spend does once it has passed the idempotency check, found the
    revenue account and locked the user account. *)
Lemma spendCredits_body_locked (r : request) (i : inputs) (s : session)
  (revenue user : Account) :
  let rows := select_accounts_for_update
                (sortedIds [req_accountId r; id revenue]) s in
  first_row (select_idempotency_key (req_referenceId r) s) = None ->
  first_row (select_account_by_external_id SYSTEM_ACCOUNTS_REVENUE s)
    = Some revenue ->
  find_account (req_accountId r) rows = Some user ->
  spendCredits_body r i s =
  (if (parseFloat (balance user) <? req_amount r)%float
   then throw INSUFFICIENT_BALANCE
   else
     insert_transaction (uuidv4 i) SPEND (req_referenceId r)
       (or_default (req_description r) "Credit spend")
       (or_default (req_metadata r) "{}") ;;;
     p <- postDoubleEntry (uuidv4 i) user
            (or_else (find_account (id revenue) rows) revenue)
            (req_amount r) (asset_type_id user) ;;
     let result :=
       {| transactionId := uuidv4 i;
          referenceId := req_referenceId r;
          type := SPEND;
          accountId := req_accountId r;
          amount := req_amount r;
          balanceAfter := fst p;
          description := or_default (req_description r) "Credit spend";
          createdAt := new_Date i;
          idempotent := None |} in
     storeIdempotencyResult (req_referenceId r) 201 result ;;;
     ret result)
    (lock_rows (map id rows)
       (record SELECT_accounts_FOR_UPDATE
          (record SELECT_accounts_by_external_id
             (record SELECT_idempotency_keys s)))).
Proof.
  intros rows H1 H2 H3.
  unfold spendCredits_body. unfold bind at 1. run. rewrite H1.
  unfold bind at 1. run. rewrite H2. unfold bind at 1. run. cast_by H3.
  fold rows. rewrite H3. reflexivity.
Qed.

(** C3. A spend that has passed the idempotency check, found the revenue
    account and locked the user account compares the amount with the
    balance.  When the balance is below the amount it throws
    INSUFFICIENT_BALANCE (422) having sent three reads and written nothing.
    Otherwise the balance left, [balance - amount], is not negative; the
    posting engine does not refuse it, so that the only errors left are the
    store's (a reference or id already used, a value NUMERIC(20,8) cannot
    hold); and when the store accepts the writes the flow returns the
    balance left, stores it, not negative, as the user's new cached balance
    and as the balance after the user's ledger entry, and it is 0 when the
    amount is the whole balance. *)
Theorem spendCredits_balance_check (r : request) (i : inputs) (s : session)
  (revenue user : Account) :
  let rows := select_accounts_for_update
                (sortedIds [req_accountId r; id revenue]) s in
  let credit := or_else (find_account (id revenue) rows) revenue in
  let m := req_amount r in
  let left := (parseFloat (balance user) - m)%float in
  first_row (select_idempotency_key (req_referenceId r) s) = None ->
  first_row (select_account_by_external_id SYSTEM_ACCOUNTS_REVENUE s)
    = Some revenue ->
  find_account (req_accountId r) rows = Some user ->
  ((parseFloat (balance user) <? m)%float = true ->
   exists s',
     spendCredits_body r i s = (Throw INSUFFICIENT_BALANCE, s') /\
     same_tables s s' /\
     sent s' = sent s ++ [SELECT_idempotency_keys;
                          SELECT_accounts_by_external_id;
                          SELECT_accounts_FOR_UPDATE]) /\
  ((parseFloat (balance user) <? m)%float = false ->
   (left <? 0)%float = false /\
   (forall e s', spendCredits_body r i s = (Throw e, s') ->
                 e = unique_violation \/ e = numeric_value_out_of_range) /\
   (forall a dN cN,
      transactions_conflict (uuidv4 i) (req_referenceId r) s = false ->
      toNumeric m = Some a ->
      toNumeric left = Some dN ->
      toNumeric (parseFloat (balance credit) + m)%float = Some cN ->
      0 <= dN /\
      (m = parseFloat (balance user) -> dN = 0) /\
      exists resp s',
        spendCredits_body r i s = (Ok resp, s') /\
        balanceAfter resp = left /\
        ledger_entries s' =
          ledger_entries s ++
            [ledger_entry (uuidv4 i) (id user) (asset_type_id user) a dN;
             ledger_entry (uuidv4 i) (id credit) (asset_type_id user)
               (- a) cN] /\
        (id user <> id credit ->
         cached (id user) s'
         = map (fun bv => (dN, snd bv + 1)) (cached (id user) s)))).
Proof.
  intros rows credit m left H1 H2 H3.
  rewrite (spendCredits_body_locked r i s revenue user H1 H2 H3).
  fold rows credit m. split.
  - intros Hlt. rewrite Hlt. eexists. split; [reflexivity|].
    split; [repeat split|].
    unfold lock_rows, record. cbn [sent]. rewrite <- !app_assoc. reflexivity.
  - intros Hge. rewrite Hge.
    assert (Hleft : (left <? 0)%float = false) by (apply sub_not_neg; exact Hge).
    assert (G : account_type_eqb (account_type_of user) USER
                && (parseFloat (balance user) - m <? 0)%float = false)
      by (fold left; rewrite Hleft; apply andb_false_r).
    split; [exact Hleft|]. split.
    + intros e s'. unfold bind.
      destruct (insert_transaction _ _ _ _ _ _) as [[[]|e0] s1] eqn:Ei.
      * destruct (postDoubleEntry _ _ _ _ _ _) as [[p|e1] s2] eqn:Ep.
        -- run. discriminate.
        -- intros H. injection H as <- _.
           apply postDoubleEntry_Throw in Ep as [(G' & _) | ->]; [|auto].
           rewrite G in G'. discriminate.
      * intros H. injection H as <- _.
        unfold insert_transaction, query in Ei.
        destruct (transactions_conflict _ _ _); [|discriminate].
        injection Ei as <- _. auto.
    + intros a dN cN Hc Ea Ed Ec.
      split; [exact (toNumeric_not_neg _ _ Hleft Ed)|].
      split.
      { intros E. unfold left in Ed. rewrite E in Ed.
        exact (toNumeric_sub_diag _ _ Ed). }
      assert (Hc' : transactions_conflict (uuidv4 i) (req_referenceId r)
                      (lock_rows (map id rows)
                         (record SELECT_accounts_FOR_UPDATE
                            (record SELECT_accounts_by_external_id
                               (record SELECT_idempotency_keys s)))) = false)
        by exact Hc.
      rewrite (run_bind _ _ _ _ _ (run_insert_transaction _ _ _ _ _ _ Hc')).
      rewrite (run_bind _ _ _ _ _
                 (run_postDoubleEntry _ _ _ _ _ _ _ _ _ G Ea Ed Ec)).
      unfold bind. run. unfold ret.
      eexists. eexists. split; [reflexivity|]. split; [reflexivity|].
      unfold cached.
      match goal with
      | |- context [ledger_entries (stored ?k ?st ?b ?x)] =>
          destruct (stored_tables k st b x) as (_ & Eb & _ & El & _)
      end.
      rewrite Eb, El. clear Eb El.
      match goal with
      | |- context [ledger_entries (posted ?t ?d ?c ?h ?u ?v ?w ?x)] =>
          destruct (posted_tables t d c h u v w x) as (_ & -> & _ & -> & _)
      end.
      split; [reflexivity|].
      intros Hne. cbn [account_balances inserted set_transactions record
                       lock_rows].
      rewrite !cached_rows_update, String.eqb_refl.
      rewrite (proj2 (String.eqb_neq (id user) (id credit))) by assumption.
      reflexivity.
Qed.

Lemma spendCredits_balance_check_witness :
  (parseFloat (balance seed_alice) <? req_amount spend_all)%float = false /\
  exists resp s',
    spendCredits_body spend_all (Seed.ins 0) Seed.db = (Ok resp, s') /\
    balanceAfter resp = (parseFloat (balance seed_alice) - 500)%float /\
    cached Seed.alice s' = [(0, 1)].
Proof.
  assert (H1 : first_row (select_idempotency_key (req_referenceId spend_all)
                            Seed.db) = None) by reflexivity.
  assert (H2 : first_row (select_account_by_external_id
                            SYSTEM_ACCOUNTS_REVENUE Seed.db)
               = Some seed_revenue) by (vm_compute; reflexivity).
  assert (H3 : find_account (req_accountId spend_all)
                 (select_accounts_for_update
                    (sortedIds [req_accountId spend_all; id seed_revenue])
                    Seed.db) = Some seed_alice) by (vm_compute; reflexivity).
  assert (Hge : (parseFloat (balance seed_alice) <? req_amount spend_all)%float
                = false) by (vm_compute; reflexivity).
  split; [exact Hge|].
  pose proof (spendCredits_balance_check spend_all (Seed.ins 0) Seed.db
                seed_revenue seed_alice H1 H2 H3) as H.
  cbv zeta in H. destruct H as [_ H].
  destruct (H Hge) as (_ & _ & K).
  destruct (K (500 * Zpos scale) 0 (500 * Zpos scale))
    as (_ & _ & resp & s' & E & Eb & _ & Ec);
    try (vm_compute; reflexivity).
  exists resp, s'. split; [exact E|]. split; [exact Eb|].
  etransitivity; [apply Ec; vm_compute; discriminate|].
  vm_compute. reflexivity.
Defined.

(** C2. On the seeded store Charlie holds Diamonds while the bonus pool,
    the revenue account and the treasury the flows resolve hold Gold Coins.
    A bonus to Charlie and a spend by Charlie are nevertheless posted: each
    returns its response and appends two ledger entries of asset Diamonds,
    one of them on a Gold Coins account.  Only the top-up compares the asset
    types, and the error it throws carries the status 400 and no code:
    it is not ASSET_MISMATCH. *)
Theorem flows_asset_check_missing :
  asset_of Seed.charlie Seed.db = Some Seed.DIAMONDS /\
  asset_of Seed.bonus_gold Seed.db = Some Seed.GOLD /\
  asset_of Seed.revenue_gold Seed.db = Some Seed.GOLD /\
  (exists resp s',
     issueBonus_body bonus_charlie (Seed.ins 0) Seed.db = (Ok resp, s') /\
     balanceAfter resp = 160%float /\
     ledger_entries s' =
       ledger_entries Seed.db ++
         [ledger_entry (uuidv4 (Seed.ins 0)) Seed.bonus_gold Seed.DIAMONDS
            (10 * Zpos scale) (-10 * Zpos scale);
          ledger_entry (uuidv4 (Seed.ins 0)) Seed.charlie Seed.DIAMONDS
            (-10 * Zpos scale) (160 * Zpos scale)]) /\
  (exists resp s',
     spendCredits_body spend_charlie (Seed.ins 0) Seed.db = (Ok resp, s') /\
     balanceAfter resp = 140%float /\
     ledger_entries s' =
       ledger_entries Seed.db ++
         [ledger_entry (uuidv4 (Seed.ins 0)) Seed.charlie Seed.DIAMONDS
            (10 * Zpos scale) (140 * Zpos scale);
          ledger_entry (uuidv4 (Seed.ins 0)) Seed.revenue_gold Seed.DIAMONDS
            (-10 * Zpos scale) (10 * Zpos scale)]) /\
  (exists s',
     topUpWallet_body topup_charlie (Seed.ins 0) Seed.db
     = (Throw (status_only 400), s') /\
     same_tables Seed.db s' /\
     status_only 400 <> ASSET_MISMATCH).
Proof.
  split; [reflexivity|]. split; [reflexivity|]. split; [reflexivity|].
  split; [|split].
  - eexists. eexists. split; [vm_compute; reflexivity|].
    split; vm_compute; reflexivity.
  - eexists. eexists. split; [vm_compute; reflexivity|].
    split; vm_compute; reflexivity.
  - eexists. split; [vm_compute; reflexivity|].
    split; [repeat split|discriminate].
Qed.

(** ** Idempotency *)

Lemma flow_body_hit (f : flow) (r : request) (i : inputs) (s : session)
  (c : idempotency_keys_row) :
  first_row (select_idempotency_key (req_referenceId r) s) = Some c ->
  flow_body f r i s
  = (Ok (replay (ik_response_body c)), record SELECT_idempotency_keys s).
Proof.
  intros H.
  destruct f; cbn [flow_body];
    [unfold topUpWallet_body | unfold issueBonus_body
     | unfold spendCredits_body];
    unfold bind at 1; run; rewrite H; reflexivity.
Qed.

Lemma replay_same_response (b : response) : same_response (replay b) b.
Proof. repeat split. Qed.

(** A flow that misses the idempotency check and returns has stored its
    response under the reference, unless a record, then an expired one, was
    already there. *)
Lemma flow_body_fresh (f : flow) (r : request) (i : inputs) (s s' : session)
  (resp : response) :
  first_row (select_idempotency_key (req_referenceId r) s) = None ->
  flow_body f r i s = (Ok resp, s') ->
  exists s1,
    s' = stored (req_referenceId r) 201 resp s1 /\
    idempotency_keys s1 = idempotency_keys s /\ NOW s1 = NOW s /\
    idempotent resp = None.
Proof.
  intros H.
  destruct f; cbn [flow_body];
    [unfold topUpWallet_body | unfold issueBonus_body
     | unfold spendCredits_body];
    unfold bind at 1; run; rewrite H;
    unfold bind at 1; run;
    (destruct (first_row (select_account_by_external_id _ s)) as [cp|];
     [|discriminate]);
    unfold bind at 1; run;
    (destruct (uuid_array_in _) as [ids|]; [|discriminate]);
    (destruct (find_account (req_accountId r) _) as [user|];
     [|discriminate]);
    try (destruct (negb _); [discriminate|]);
    try (destruct (PrimFloat.ltb _ _); [discriminate|]);
    unfold bind at 1;
    (match goal with
     | |- context [insert_transaction ?t ?k ?a ?b ?c ?x] =>
         destruct (transactions_conflict t a x) eqn:Ec;
         [rewrite (run_insert_transaction_conflict t k a b c x Ec);
          discriminate
         |rewrite (run_insert_transaction t k a b c x Ec)]
     end);
    unfold bind at 1;
    (match goal with
     | |- context [postDoubleEntry ?t ?d ?c ?m ?a ?x] =>
         destruct (postDoubleEntry_cases t d c m a x)
           as [(_ & E) | [(_ & s2 & E) | (_ & a' & dN & cN & _ & _ & _ & E)]];
         rewrite E; try discriminate
     end);
    unfold bind; run; unfold ret;
    intros K; injection K as <- <-;
    eexists; (split; [reflexivity|]);
    (match goal with
     | |- context [posted ?t ?d ?c ?h ?u ?v ?w ?x] =>
         destruct (posted_tables t d c h u v w x)
           as (_ & _ & _ & _ & -> & _ & _ & ->)
     end);
    repeat split.
Qed.

Lemma key_unused_select (ref : string) (s : session) :
  key_unused ref s -> select_idempotency_key ref s = [].
Proof.
  unfold key_unused, select_idempotency_key.
  induction (idempotency_keys s) as [|x l IH]; [reflexivity|].
  cbn [existsb filter]. intros H. apply orb_false_elim in H as [Hx Hl].
  rewrite Hx. cbn [andb]. auto.
Qed.

Lemma stored_select (ref : string) (st : Z) (body : response)
  (s1 s2 : session) :
  key_unused ref s1 ->
  idempotency_keys s2 = idempotency_keys (stored ref st body s1) ->
  NOW s2 < NOW s1 + hours_24 ->
  exists c,
    first_row (select_idempotency_key ref s2) = Some c /\
    ik_response_body c = body /\ ik_response_status c = st.
Proof.
  intros Hk Hi Ht. pose proof (key_unused_select ref s1 Hk) as Hs.
  unfold key_unused in Hk. unfold stored in Hi. rewrite Hk in Hi.
  cbn [idempotency_keys set_idempotency_keys] in Hi.
  unfold select_idempotency_key in *. rewrite Hi, filter_app.
  assert (E : filter
                (fun r => String.eqb (ik_key r) ref && (NOW s2 <? ik_expires_at r))
                (idempotency_keys s1) = []).
  { clear - Hk. induction (idempotency_keys s1) as [|x l IH]; [reflexivity|].
    cbn [existsb filter] in *. apply orb_false_elim in Hk as [Hx Hl].
    rewrite Hx. cbn [andb]. auto. }
  rewrite E. cbn [filter ik_key ik_expires_at app].
  rewrite String.eqb_refl. cbn [andb].
  rewrite (proj2 (Z.ltb_lt _ _) Ht). cbn [first_row hd_error].
  eexists. repeat split.
Qed.

Lemma run_flow_withTransaction (f : flow) (r : request) (ins : nat -> inputs) :
  run_flow f r ins
  = withTransaction (fun k => flow_body f r (ins k)) default_maxRetries.
Proof. destruct f; reflexivity. Qed.

Lemma NoDup_map_eq {A B} (f : A -> B) (l : list A) (a b : A) :
  NoDup (map f l) -> In a l -> In b l -> f a = f b -> a = b.
Proof.
  induction l as [|x l IH]; intros Hn Ha Hb E; [destruct Ha|].
  cbn [map] in Hn. inversion Hn as [|y m Hx Hl]; subst.
  destruct Ha as [-> | Ha], Hb as [-> | Hb]; auto.
  - exfalso. apply Hx. rewrite E. apply in_map. exact Hb.
  - exfalso. apply Hx. rewrite <- E. apply in_map. exact Ha.
Qed.

(** The record [checkIdempotency] finds, from the table: the key of
    idempotency_keys is its primary key. *)
Lemma select_idempotency_key_live (referenceId : string) (s : session)
  (c : idempotency_keys_row) :
  NoDup (map ik_key (idempotency_keys s)) ->
  In c (idempotency_keys s) ->
  ik_key c = referenceId ->
  NOW s < ik_expires_at c ->
  first_row (select_idempotency_key referenceId s) = Some c.
Proof.
  intros Hpk Hc Ek Ht.
  assert (Hin : In c (select_idempotency_key referenceId s)).
  { apply filter_In. split; [exact Hc|].
    rewrite Ek, String.eqb_refl. apply Z.ltb_lt. exact Ht. }
  destruct (select_idempotency_key referenceId s) as [|c' l] eqn:E;
    [destruct Hin|].
  assert (Hin' : In c' (select_idempotency_key referenceId s))
    by (rewrite E; left; reflexivity).
  apply filter_In in Hin' as (Hc' & Hp).
  apply andb_true_iff in Hp as (Ek' & _). apply String.eqb_eq in Ek'.
  cbn [first_row hd_error]. f_equal.
  apply (NoDup_map_eq ik_key (idempotency_keys s)); auto. congruence.
Qed.

(** C4. Let the table of idempotency records, whose key is its primary
    key, hold a record under the reference of the request that has not
    expired when the transaction starts.  The flow then returns the body
    stored in that record with [idempotent: true] added, and nothing else
    of it changed: its one statement is the read of idempotency_keys, it
    takes no lock and the five tables are the ones it started from, also
    once [withTransaction] has committed.  And a request that has
    completed under a reference no record was kept for, replayed less than
    24 hours later, returns the response of the first run, equal to it but
    for the [idempotent] key, and leaves the tables as the first run left
    them. *)
Theorem idempotent_replay :
  (forall (f : flow) (r : request) (ins : nat -> inputs) (env : environment)
          (db : session) (c : idempotency_keys_row),
      let s := begin (clock env 0) db in
      NoDup (map ik_key (idempotency_keys db)) ->
      In c (idempotency_keys db) ->
      ik_key c = req_referenceId r ->
      clock env 0 < ik_expires_at c ->
      flow_body f r (ins 0%nat) s
      = (Ok (replay (ik_response_body c)), record SELECT_idempotency_keys s) /\
      run_flow f r ins env db
      = (Ok (Some (replay (ik_response_body c))),
         record SELECT_idempotency_keys s,
         [pool_connect; BEGIN; run_fn 0; COMMIT; client_release]) /\
      same_response (replay (ik_response_body c)) (ik_response_body c) /\
      idempotent (replay (ik_response_body c)) = Some true /\
      same_tables db (record SELECT_idempotency_keys s) /\
      locked (record SELECT_idempotency_keys s) = [] /\
      sent (record SELECT_idempotency_keys s) = [SELECT_idempotency_keys]) /\
  (forall (f : flow) (r : request) (i i2 : inputs) (s s' : session)
          (resp : response) (now2 : Z),
      key_unused (req_referenceId r) s ->
      flow_body f r i s = (Ok resp, s') ->
      now2 < NOW s + hours_24 ->
      flow_body f r i2 (begin now2 s')
      = (Ok (replay resp), record SELECT_idempotency_keys (begin now2 s')) /\
      same_response (replay resp) resp /\
      same_tables s' (record SELECT_idempotency_keys (begin now2 s'))).
Proof.
  split.
  - intros f r ins env db c s Hpk Hc Ek Ht.
    assert (H : first_row (select_idempotency_key (req_referenceId r) s)
                = Some c)
      by (apply select_idempotency_key_live; assumption).
    pose proof (flow_body_hit f r (ins 0%nat) s c H) as E.
    split; [exact E|]. split.
    + rewrite run_flow_withTransaction. unfold withTransaction.
      cbn [withTransaction_loop default_maxRetries]. fold s. rewrite E.
      reflexivity.
    + repeat split.
  - intros f r i i2 s s' resp now2 Hk E Ht.
    assert (Hm : first_row (select_idempotency_key (req_referenceId r) s) = None)
      by (rewrite (key_unused_select _ _ Hk); reflexivity).
    destruct (flow_body_fresh f r i s s' resp Hm E) as (s1 & -> & Hi & Hn & _).
    assert (Hk1 : key_unused (req_referenceId r) s1)
      by (unfold key_unused in *; rewrite Hi; exact Hk).
    destruct (stored_select (req_referenceId r) 201 resp s1
                (begin now2 (stored (req_referenceId r) 201 resp s1)) Hk1)
      as (c & Hc & <- & _).
    + reflexivity.
    + cbn [NOW begin]. lia.
    + split; [apply flow_body_hit; exact Hc|].
      split; [apply replay_same_response|]. repeat split.
Qed.

Lemma idempotent_replay_witness :
  idempotency_keys topup_alice_done = [topup_alice_record] /\
  run_flow Spend topup_alice Seed.ins Seed.env topup_alice_done
  = (Ok (Some topup_alice_replayed),
     record SELECT_idempotency_keys (begin 1000 topup_alice_done),
     [pool_connect; BEGIN; run_fn 0; COMMIT; client_release]) /\
  key_unused (req_referenceId topup_alice) Seed.db /\
  flow_body TopUp topup_alice (Seed.ins 0) Seed.db
  = (Ok topup_alice_response, topup_alice_done) /\
  flow_body TopUp topup_alice (Seed.ins 1) (begin 2000 topup_alice_done)
  = (Ok topup_alice_replayed,
     record SELECT_idempotency_keys (begin 2000 topup_alice_done)) /\
  same_response topup_alice_replayed topup_alice_response.
Proof.
  assert (Hk : key_unused (req_referenceId topup_alice) Seed.db)
    by (vm_compute; reflexivity).
  assert (E : flow_body TopUp topup_alice (Seed.ins 0) Seed.db
              = (Ok topup_alice_response, topup_alice_done))
    by (vm_compute; reflexivity).
  assert (Ht : 2000 < NOW Seed.db + hours_24) by (vm_compute; reflexivity).
  assert (K : idempotency_keys topup_alice_done = [topup_alice_record])
    by (vm_compute; reflexivity).
  destruct idempotent_replay as [H0 H].
  destruct (H TopUp topup_alice (Seed.ins 0) (Seed.ins 1) Seed.db
              topup_alice_done topup_alice_response 2000 Hk E Ht)
    as (R & S & _).
  destruct (H0 Spend topup_alice Seed.ins Seed.env topup_alice_done
              topup_alice_record) as (_ & R0 & _).
  - rewrite K. repeat constructor. intros [].
  - rewrite K. left. reflexivity.
  - reflexivity.
  - vm_compute. reflexivity.
  - split; [exact K|]. split; [exact R0|].
    split; [exact Hk|]. split; [exact E|]. split; [exact R|exact S].
Defined.

(** ** The account resolver *)

Lemma new_Set_In (l seen : list string) (x : string) :
  In x (new_Set seen l) <-> In x l /\ ~ In x seen.
Proof.
  revert seen. induction l as [|y l IH]; intros seen; cbn [new_Set].
  - cbn. tauto.
  - destruct (existsb (String.eqb y) seen) eqn:E.
    + apply existsb_exists in E as (z & Hz & Ez).
      apply String.eqb_eq in Ez. subst z.
      rewrite IH. cbn [In]. split.
      * tauto.
      * intros [[->|H] Hn]; [contradiction|tauto].
    + assert (Hy : ~ In y seen).
      { intros Hy. assert (existsb (String.eqb y) seen = true).
        { apply existsb_exists. exists y. split; [exact Hy|].
          apply String.eqb_refl. }
        congruence. }
      cbn [In]. rewrite IH. cbn [In]. split.
      * intros [->|[H Hn]]; [tauto|]. split; [tauto|]. tauto.
      * intros [[->|H] Hn]; [tauto|].
        destruct (String.eqb_spec y x) as [->|Ne]; [tauto|].
        right. split; [exact H|]. intros [F|F]; [contradiction|tauto].
Qed.

Lemma new_Set_NoDup (l seen : list string) : NoDup (new_Set seen l).
Proof.
  revert seen. induction l as [|y l IH]; intros seen; cbn [new_Set].
  - constructor.
  - destruct (existsb (String.eqb y) seen); [apply IH|].
    constructor; [|apply IH].
    rewrite new_Set_In. cbn [In]. tauto.
Qed.

Lemma insert_by_Permutation {A} (key : A -> string) (x : A) (l : list A) :
  Permutation (insert_by key x l) (x :: l).
Proof.
  induction l as [|y l IH]; cbn [insert_by]; [reflexivity|].
  destruct (String.leb (key x) (key y)); [reflexivity|].
  rewrite IH. apply perm_swap.
Qed.

Lemma sort_by_Permutation {A} (key : A -> string) (l : list A) :
  Permutation (sort_by key l) l.
Proof.
  unfold sort_by. induction l as [|y l IH]; cbn [fold_right]; [reflexivity|].
  rewrite insert_by_Permutation. constructor. exact IH.
Qed.

Lemma insert_by_ascending {A} (key : A -> string) (x : A) (l : list A) :
  ascending key l -> ascending key (insert_by key x l).
Proof.
  unfold ascending. induction l as [|y l IH]; intros H; cbn [insert_by].
  - repeat constructor.
  - destruct (String.leb (key x) (key y)) eqn:E.
    + constructor; [exact H|]. constructor. exact E.
    + inversion H as [|? ? Hl Hy]; subst.
      constructor; [apply IH; exact Hl|].
      assert (Eyx : String.leb (key y) (key x) = true).
      { destruct (String.leb_total (key x) (key y)); congruence. }
      destruct l as [|z l]; cbn [insert_by].
      * constructor. exact Eyx.
      * destruct (String.leb (key x) (key z)); constructor;
          [exact Eyx|]. inversion Hy; assumption.
Qed.

Lemma sort_by_ascending {A} (key : A -> string) (l : list A) :
  ascending key (sort_by key l).
Proof.
  unfold sort_by. induction l as [|y l IH]; cbn [fold_right].
  - constructor.
  - apply insert_by_ascending. exact IH.
Qed.

Lemma ascending_map {A} (key : A -> string) (l : list A) :
  ascending key l -> ascending (fun x => x) (map key l).
Proof.
  unfold ascending. induction 1 as [|y l Hl IH Hy]; cbn [map].
  - constructor.
  - constructor; [exact IH|].
    destruct Hy; cbn [map]; constructor; assumption.
Qed.

Lemma ascending_NoDup_strict (l : list string) :
  ascending (fun x => x) l -> NoDup l -> strictly_ascending l.
Proof.
  unfold ascending, strictly_ascending.
  induction 1 as [|y l Hl IH Hy]; intros Hn.
  - constructor.
  - inversion Hn as [|? ? Hy' Hn']; subst.
    constructor; [apply IH; exact Hn'|].
    destruct Hy as [|z l' Hyz]; constructor.
    unfold String.leb in Hyz. unfold String.ltb.
    destruct (String.compare y z) eqn:E; try reflexivity; try discriminate.
    apply String.compare_eq_iff in E. subst z.
    exfalso. apply Hy'. left. reflexivity.
Qed.

Lemma sortedIds_spec (accountIds : list string) :
  NoDup (sortedIds accountIds) /\
  strictly_ascending (sortedIds accountIds) /\
  (forall x, In x (sortedIds accountIds) <-> In x accountIds).
Proof.
  unfold sortedIds.
  pose proof (sort_by_Permutation (fun x : string => x)
                (new_Set [] accountIds)) as P.
  assert (N : NoDup (sort_by (fun x : string => x) (new_Set [] accountIds))).
  { eapply Permutation_NoDup; [symmetry; exact P|]. apply new_Set_NoDup. }
  split; [exact N|]. split.
  - apply ascending_NoDup_strict; [apply sort_by_ascending|exact N].
  - intros x. split.
    + intros H. apply (Permutation_in _ P) in H.
      apply new_Set_In in H. tauto.
    + intros H. apply (Permutation_in _ (Permutation_sym P)).
      apply new_Set_In. cbn. tauto.
Qed.

Lemma accounts_join_balances_In (v : bool) (p : accounts_row -> bool)
  (s : session) (x : Account) :
  In x (accounts_join_balances v p s) <->
  exists a ab,
    In a (accounts s) /\ p a = true /\ In ab (account_balances s) /\
    ab_account_id ab = a_id a /\ x = join_row v a ab.
Proof.
  unfold accounts_join_balances. rewrite in_flat_map. split.
  - intros (a & Ha & Hx). apply filter_In in Ha as [Ha Hp].
    apply in_map_iff in Hx as (ab & <- & Hab).
    apply filter_In in Hab as [Hab E]. apply String.eqb_eq in E.
    exists a, ab. auto.
  - intros (a & ab & Ha & Hp & Hab & E & ->).
    exists a. split; [apply filter_In; auto|].
    apply in_map. apply filter_In. split; [exact Hab|].
    apply String.eqb_eq. exact E.
Qed.

Lemma uuid_array_in_In (texts : list string) (ids : list uuid) :
  uuid_array_in texts = Some ids ->
  forall u, In u ids <-> exists t, In t texts /\ uuid_in t = Some u.
Proof.
  revert ids. induction texts as [|x r IH]; intros ids H u.
  - injection H as <-. split; [intros []|intros (t & [] & _)].
  - cbn [uuid_array_in] in H.
    destruct (uuid_in x) as [v|] eqn:Ex; [|discriminate].
    destruct (uuid_array_in r) as [vs|]; [|discriminate].
    injection H as <-. cbn [In]. rewrite (IH vs eq_refl u). split.
    + intros [<- | (t & Ht & Et)]; [exists x; auto|exists t; auto].
    + intros (t & [<- | Ht] & Et); [left; congruence|right; eauto].
Qed.

Lemma uuid_array_in_Some (texts : list string) :
  (forall t, In t texts -> uuid_in t <> None) <->
  exists ids, uuid_array_in texts = Some ids.
Proof.
  induction texts as [|x r IH].
  - split; [intros _; exists []; reflexivity|intros _ t []].
  - cbn [uuid_array_in In]. split.
    + intros H. destruct (uuid_in x) as [v|] eqn:Ex.
      * destruct (proj1 IH) as (vs & ->); [intros t Ht; apply H; auto|].
        eauto.
      * exfalso. apply (H x); auto.
    + intros (ids & H) t [<- | Ht].
      * intros E. rewrite E in H. discriminate.
      * destruct (uuid_in x); [|discriminate].
        destruct (uuid_array_in r) as [vs|] eqn:Er; [|discriminate].
        apply (proj2 IH); eauto.
Qed.

Lemma uuid_array_in_None (texts : list string) :
  (exists t, In t texts /\ uuid_in t = None) -> uuid_array_in texts = None.
Proof.
  intros (t & Ht & Et).
  destruct (uuid_array_in texts) as [ids|] eqn:E; [|reflexivity].
  exfalso. apply (proj2 (uuid_array_in_Some texts) (ex_intro _ ids E) t Ht Et).
Qed.

Lemma select_accounts_for_update_In (texts : list string) (s : session)
  (x : Account) :
  In x (select_accounts_for_update texts s) <->
  (forall t, In t texts -> uuid_in t <> None) /\
  exists a ab,
    In a (accounts s) /\
    (exists t, In t texts /\ uuid_in t = Some (a_id a)) /\
    a_is_active a = true /\
    In ab (account_balances s) /\ ab_account_id ab = a_id a /\
    x = join_row true a ab.
Proof.
  unfold select_accounts_for_update.
  destruct (uuid_array_in texts) as [ids|] eqn:Eids.
  2:{ split; [intros []|]. intros (V & _).
      apply uuid_array_in_Some in V as (ids & V). congruence. }
  assert (V : forall t, In t texts -> uuid_in t <> None)
    by (apply uuid_array_in_Some; eauto).
  assert (P := sort_by_Permutation id
                 (accounts_join_balances true
                    (fun a => existsb (String.eqb (a_id a)) ids
                              && a_is_active a) s)).
  split.
  - intros H. apply (Permutation_in _ P) in H.
    apply accounts_join_balances_In in H
      as (a & ab & Ha & Hp & Hab & E & ->).
    apply andb_prop in Hp as [Hi Hact].
    apply existsb_exists in Hi as (z & Hz & Ez). apply String.eqb_eq in Ez.
    subst z. apply (uuid_array_in_In _ _ Eids) in Hz.
    split; [exact V|]. exists a, ab. auto 10.
  - intros (_ & a & ab & Ha & Hi & Hact & Hab & E & ->).
    apply (Permutation_in _ (Permutation_sym P)).
    apply accounts_join_balances_In. exists a, ab.
    repeat split; try assumption.
    apply andb_true_intro. split; [|exact Hact].
    apply existsb_exists. exists (a_id a).
    split; [apply (uuid_array_in_In _ _ Eids); exact Hi|].
    apply String.eqb_refl.
Qed.

Lemma find_account_None (x : uuid) (rows : list Account) :
  (forall a, In a rows -> id a <> x) -> find_account x rows = None.
Proof.
  unfold find_account. induction rows as [|a rows IH]; intros H;
    cbn [find]; [reflexivity|].
  destruct (String.eqb_spec (id a) x) as [E|E].
  - exfalso. apply (H a); [left; reflexivity|exact E].
  - apply IH. intros b Hb. apply H. right. exact Hb.
Qed.

(** A flow whose user account is not among the locked rows. *)
Lemma flow_body_not_found (f : flow) (r : request) (i : inputs) (s : session)
  (cp : Account) (ids : list uuid) :
  first_row (select_idempotency_key (req_referenceId r) s) = None ->
  first_row (select_account_by_external_id (counterparty f) s) = Some cp ->
  uuid_array_in (sortedIds [req_accountId r; id cp]) = Some ids ->
  find_account (req_accountId r)
    (select_accounts_for_update (sortedIds [req_accountId r; id cp]) s)
  = None ->
  flow_body f r i s =
  (Throw ACCOUNT_NOT_FOUND,
   lock_rows
     (map id (select_accounts_for_update
                (sortedIds [req_accountId r; id cp]) s))
     (record SELECT_accounts_FOR_UPDATE
        (record SELECT_accounts_by_external_id
           (record SELECT_idempotency_keys s)))).
Proof.
  intros H1 H2 Hc H3.
  destruct f; cbn [flow_body counterparty] in *;
    [unfold topUpWallet_body | unfold issueBonus_body
     | unfold spendCredits_body];
    unfold bind at 1; run; rewrite H1;
    unfold bind at 1; run; rewrite H2;
    unfold bind at 1; run; rewrite Hc, H3; reflexivity.
Qed.

(** A flow whose account id, or whose system account's, is not the text of
    a uuid: the lock query fails. *)
Lemma flow_body_invalid_uuid (f : flow) (r : request) (i : inputs)
  (s : session) (cp : Account) :
  first_row (select_idempotency_key (req_referenceId r) s) = None ->
  first_row (select_account_by_external_id (counterparty f) s) = Some cp ->
  uuid_array_in (sortedIds [req_accountId r; id cp]) = None ->
  flow_body f r i s =
  (Throw invalid_text_representation,
   record SELECT_accounts_FOR_UPDATE
     (record SELECT_accounts_by_external_id
        (record SELECT_idempotency_keys s))).
Proof.
  intros H1 H2 Hc.
  destruct f; cbn [flow_body counterparty] in *;
    [unfold topUpWallet_body | unfold issueBonus_body
     | unfold spendCredits_body];
    unfold bind at 1; run; rewrite H1;
    unfold bind at 1; run; rewrite H2;
    unfold bind at 1; run; rewrite Hc; reflexivity.
Qed.

(** C5. getAccountsWithLock removes the repeated ids and sorts the rest,
    which for ids of ASCII text, as those of uuids are, is the strictly
    ascending order of the texts.  The store reads each of them as a uuid:
    when one is not the text of a uuid the statement fails (22P02) and no
    lock is taken.  Otherwise the rows it returns, and locks in the order
    it returns them, are in ascending order of id and are exactly the
    active accounts, joined with their balance rows, whose id is the uuid
    one of the ids given stands for; a uuid that no account of the store
    has, or only inactive ones, has no row among them.  A flow, which looks
    for the account id of the request among the ids of the rows, throws
    ACCOUNT_NOT_FOUND (404) with the tables untouched when the uuid of the
    account id is missing or inactive, and also when the account id is not
    written the way the store writes it. *)
Theorem getAccountsWithLock_ordered (accountIds : list string) (s : session) :
  NoDup (sortedIds accountIds) /\
  ((forall t, In t accountIds -> isASCII t = true) ->
   strictly_ascending (sortedIds accountIds)) /\
  (forall x, In x (sortedIds accountIds) <-> In x accountIds) /\
  ((exists t, In t accountIds /\ uuid_in t = None) ->
   getAccountsWithLock accountIds s
   = (Throw invalid_text_representation,
      record SELECT_accounts_FOR_UPDATE s)) /\
  ((forall t, In t accountIds -> uuid_in t <> None) ->
   exists rows,
     getAccountsWithLock accountIds s
     = (Ok rows,
        lock_rows (map id rows) (record SELECT_accounts_FOR_UPDATE s)) /\
     locked (snd (getAccountsWithLock accountIds s))
     = locked s ++ map id rows /\
     ascending (fun x => x) (map id rows) /\
     (forall x, In x rows <->
        exists a ab t,
          In a (accounts s) /\ In t accountIds /\
          uuid_in t = Some (a_id a) /\ a_is_active a = true /\
          In ab (account_balances s) /\ ab_account_id ab = a_id a /\
          x = join_row true a ab) /\
     (forall x, In x rows -> is_active x = true) /\
     (forall u,
        (forall a, In a (accounts s) -> a_id a = u ->
                   a_is_active a = false) ->
        forall x, In x rows -> id x <> u)) /\
  (forall (f : flow) (r : request) (i : inputs) (cp : Account) (u : uuid),
     first_row (select_idempotency_key (req_referenceId r) s) = None ->
     first_row (select_account_by_external_id (counterparty f) s) = Some cp ->
     uuid_in (req_accountId r) = Some u -> uuid_in (id cp) <> None ->
     (forall a, In a (accounts s) -> a_id a = u -> a_is_active a = false)
     \/ u <> req_accountId r ->
     exists s',
       flow_body f r i s = (Throw ACCOUNT_NOT_FOUND, s') /\
       same_tables s s' /\
       code ACCOUNT_NOT_FOUND = Some "ACCOUNT_NOT_FOUND"%string /\
       statusCode ACCOUNT_NOT_FOUND = Some 404).
Proof.
  destruct (sortedIds_spec accountIds) as (N & S & I).
  split; [exact N|]. split; [intros _; exact S|]. split; [exact I|].
  split; [|split].
  - intros (t & Ht & Et). rewrite run_getAccountsWithLock.
    rewrite uuid_array_in_None; [reflexivity|].
    exists t. split; [apply I; exact Ht|exact Et].
  - intros V.
    assert (V' : forall t, In t (sortedIds accountIds) -> uuid_in t <> None)
      by (intros t Ht; apply V, I, Ht).
    destruct (proj1 (uuid_array_in_Some _) V') as (ids & Eids).
    set (rows := select_accounts_for_update (sortedIds accountIds) s).
    assert (R : forall x, In x rows <->
                  exists a ab t,
                    In a (accounts s) /\ In t accountIds /\
                    uuid_in t = Some (a_id a) /\ a_is_active a = true /\
                    In ab (account_balances s) /\ ab_account_id ab = a_id a /\
                    x = join_row true a ab).
    { intros x. unfold rows. rewrite select_accounts_for_update_In. split.
      - intros (_ & a & ab & Ha & (t & Ht & Et) & Rest).
        exists a, ab, t. split; [exact Ha|].
        split; [apply I; exact Ht|]. split; [exact Et|exact Rest].
      - intros (a & ab & t & Ha & Ht & Et & Rest). split; [exact V'|].
        exists a, ab. split; [exact Ha|]. split; [|exact Rest].
        exists t. split; [apply I; exact Ht|exact Et]. }
    exists rows. rewrite run_getAccountsWithLock, Eids.
    split; [reflexivity|]. split; [reflexivity|]. split.
    { unfold rows, select_accounts_for_update. rewrite Eids.
      apply ascending_map. apply sort_by_ascending. }
    split; [exact R|]. split.
    + intros x Hx. apply R in Hx as (a & ab & t & _ & _ & _ & Hact & _ & _ & ->).
      exact Hact.
    + intros u Hu x Hx E.
      apply R in Hx as (a & ab & t & Ha & _ & _ & Hact & _ & _ & ->).
      cbn [join_row id] in E. rewrite (Hu a Ha E) in Hact. discriminate.
  - intros f r i cp u H1 H2 Eu Vcp Hu.
    assert (V : forall t, In t (sortedIds [req_accountId r; id cp]) ->
                          uuid_in t <> None).
    { intros t Ht.
      apply (proj2 (proj2 (sortedIds_spec [req_accountId r; id cp]))) in Ht.
      destruct Ht as [<- | [<- | []]]; [congruence|exact Vcp]. }
    destruct (proj1 (uuid_array_in_Some _) V) as (ids & Eids).
    assert (H3 : find_account (req_accountId r)
                   (select_accounts_for_update
                      (sortedIds [req_accountId r; id cp]) s) = None).
    { apply find_account_None. intros x Hx E.
      apply select_accounts_for_update_In in Hx
        as (_ & a & ab & Ha & (t & _ & Et) & Hact & _ & _ & ->).
      cbn [join_row id] in E. rewrite E in Et.
      apply uuid_in_canonical in Et.
      assert (u = req_accountId r) by congruence.
      destruct Hu as [Hu | Hu]; [|contradiction].
      rewrite (Hu a Ha) in Hact by congruence. discriminate. }
    eexists.
    split; [apply (flow_body_not_found f r i s cp ids); assumption|].
    split; [repeat split|]. split; reflexivity.
Qed.

Lemma getAccountsWithLock_ordered_witness :
  sortedIds [Seed.bob; ALICE; Seed.bob] = [ALICE; Seed.bob] /\
  getAccountsWithLock [Seed.bob; ALICE; Seed.bob] Seed.db
  = (Ok [alice_locked; bob_locked],
     lock_rows [Seed.alice; Seed.bob]
       (record SELECT_accounts_FOR_UPDATE Seed.db)) /\
  getAccountsWithLock [Seed.bob; alice_with_colons] Seed.db
  = (Throw invalid_text_representation,
     record SELECT_accounts_FOR_UPDATE Seed.db) /\
  (exists s',
     flow_body TopUp topup_nobody (Seed.ins 0) Seed.db
     = (Throw ACCOUNT_NOT_FOUND, s') /\ same_tables Seed.db s') /\
  (exists s',
     flow_body TopUp topup_ALICE (Seed.ins 0) Seed.db
     = (Throw ACCOUNT_NOT_FOUND, s') /\ same_tables Seed.db s' /\
     locked s' = [Seed.treasury_gold; Seed.alice]).
Proof.
  split; [vm_compute; reflexivity|].
  split; [vm_compute; reflexivity|].
  split.
  { destruct (getAccountsWithLock_ordered [Seed.bob; alice_with_colons]
                Seed.db) as (_ & _ & _ & H & _).
    apply H. exists alice_with_colons.
    split; [right; left; reflexivity|vm_compute; reflexivity]. }
  assert (H1 : forall r,
             first_row (select_idempotency_key (req_referenceId r) Seed.db)
             = None) by reflexivity.
  assert (H2 : first_row (select_account_by_external_id
                            (counterparty TopUp) Seed.db)
               = Some seed_treasury_read) by (vm_compute; reflexivity).
  assert (Vcp : uuid_in (id seed_treasury_read) <> None)
    by (vm_compute; discriminate).
  destruct (getAccountsWithLock_ordered [] Seed.db)
    as (_ & _ & _ & _ & _ & H).
  split.
  - destruct (H TopUp topup_nobody (Seed.ins 0) seed_treasury_read
                (req_accountId topup_nobody) (H1 _) H2)
      as (s' & E & T & _).
    + vm_compute. reflexivity.
    + exact Vcp.
    + left. intros a Ha E. exfalso. revert E. cbn in Ha.
      repeat (destruct Ha as [<-|Ha]; [vm_compute; discriminate|]).
      destruct Ha.
    + exists s'. split; [exact E|exact T].
  - destruct (H TopUp topup_ALICE (Seed.ins 0) seed_treasury_read
                Seed.alice (H1 _) H2)
      as (s' & E & T & _).
    + vm_compute. reflexivity.
    + exact Vcp.
    + right. vm_compute. discriminate.
    + exists s'. split; [exact E|]. split; [exact T|].
      assert (L : locked (snd (flow_body TopUp topup_ALICE (Seed.ins 0)
                                 Seed.db))
                  = [Seed.treasury_gold; Seed.alice])
        by (vm_compute; reflexivity).
      rewrite E in L. exact L.
Defined.

(** ** The transactional session *)

(** The loop from attempt [attempt] on, with [remaining] attempts left. *)
Lemma withTransaction_loop_spec {A} (fn : nat -> M A) (maxRetries : nat)
  (env : environment) (db : session) (remaining attempt : nat) :
  (remaining + attempt = maxRetries)%nat ->
  forall r db' evs,
    withTransaction_loop fn maxRetries env remaining attempt db
    = (r, db', evs) ->
    (executions evs <= remaining)%nat /\
    attempts evs = seq attempt (executions evs) /\
    (forall k, (attempt <= k)%nat -> In (S k) (attempts evs) ->
               exists e, outcome fn env db k = Throw e /\ isRetryable e = true) /\
    delays evs
    = map (fun k => backoff_delay k (Math_random env k))
        (seq (S attempt) (executions evs - 1)) /\
    (forall e, r = Throw e ->
               db' = db /\ In ROLLBACK evs /\
               exists k, executions evs = S k /\
                         outcome fn env db (attempt + k) = Throw e /\
                         (isRetryable e = false
                          \/ (attempt + S k = maxRetries)%nat)) /\
    (forall a, r = Ok (Some a) ->
               exists k, executions evs = S k /\
                         fn (attempt + k)%nat
                            (begin (clock env (attempt + k)) db)
                         = (Ok a, db')) /\
    (r = Ok None <-> remaining = 0%nat).
Proof.
  revert attempt.
  induction remaining as [|rem IH]; intros attempt Hn r db' evs;
    cbn [withTransaction_loop].
  - intros H. injection H as <- <- <-. cbn.
    repeat split; try discriminate; try lia; try reflexivity.
  - destruct (fn attempt (begin (clock env attempt) db)) as [[a|e] s'] eqn:E.
    + intros H. injection H as <- <- <-. cbn.
      repeat split; try discriminate; try lia.
      intros a0 H. injection H as <-. exists 0%nat.
      rewrite Nat.add_0_r. auto.
    + destruct (isRetryable e && (attempt <? maxRetries - 1)%nat) eqn:G.
      * apply andb_prop in G as [Gr Gk]. apply Nat.ltb_lt in Gk.
        destruct (withTransaction_loop fn maxRetries env rem (S attempt) db)
          as [[r1 db1] evs1] eqn:L.
        intros H. injection H as <- <- <-.
        destruct (IH (S attempt) ltac:(lia) _ _ _ L)
          as (X1 & X2 & X3 & X4 & X5 & X6 & X7).
        assert (Hpos : (1 <= executions evs1)%nat).
        { destruct rem as [|rem']; [lia|].
          cbn [withTransaction_loop] in L.
          destruct (fn (S attempt) _) as [[a1|e1] s1];
            [injection L as <- <- <-; cbn; lia|].
          destruct (isRetryable e1 && _);
            [destruct (withTransaction_loop _ _ _ _ _ _) as [[? ?] ?]|];
            injection L as <- <- <-; cbn; lia. }
        cbn [executions attempts delays app].
        split; [lia|]. split; [rewrite X2; reflexivity|]. split.
        { intros k Hk [F|F].
          - lia.
          - destruct (Nat.eq_dec k attempt) as [->|Ne].
            + exists e. unfold outcome. rewrite E. auto.
            + apply X3; [lia|exact F]. }
        split.
        { rewrite X4.
          replace (S (executions evs1) - 1)%nat
            with (S (executions evs1 - 1)) by lia.
          reflexivity. }
        split.
        { intros e0 He0. destruct (X5 e0 He0) as (D & R & k & Ek & Ok' & Last).
          split; [exact D|]. split; [cbn; auto 10|].
          exists (S k). split; [lia|].
          replace (attempt + S k)%nat with (S attempt + k)%nat by lia.
          split; [exact Ok'|]. destruct Last; [auto|right; lia]. }
        split.
        { intros a0 Ha0. destruct (X6 a0 Ha0) as (k & Ek & Ok').
          exists (S k). split; [lia|].
          replace (attempt + S k)%nat with (S attempt + k)%nat by lia.
          exact Ok'. }
        split; [|discriminate].
        intros Hr. apply X7 in Hr. lia.
      * intros H. injection H as <- <- <-. cbn.
        repeat split; try discriminate; try lia; auto 10.
        injection H as <-. exists 0%nat.
        rewrite Nat.add_0_r. unfold outcome. rewrite E.
        split; [reflexivity|]. split; [reflexivity|].
        apply andb_false_iff in G as [G|G]; [auto|].
        apply Nat.ltb_ge in G. right. lia.
Qed.

Lemma isRetryable_codes (e : error) :
  isRetryable e = true <->
  code e = Some "40001"%string \/ code e = Some "40P01"%string.
Proof.
  unfold isRetryable. destruct (code e) as [c|].
  - rewrite orb_true_iff, !String.eqb_eq. split.
    + intros [-> | ->]; auto.
    + intros [H|H]; injection H as ->; auto.
  - split; [discriminate|]. intros [H|H]; discriminate.
Qed.

(** The delay is capped at 2000 ms. *)
Lemma backoff_delay_capped (attempt : nat) (random : number) :
  (2000 <? backoff_delay attempt random)%float = false.
Proof.
  unfold backoff_delay, Math_min.
  destruct (is_nan _ || is_nan _); [vm_compute; reflexivity|].
  destruct (2000 <? 50 * Math_pow2 attempt + random * 50)%float eqn:E;
    [vm_compute; reflexivity|exact E].
Qed.

(** C6, as the code has it.  withTransaction runs the function at most
    maxRetries times, attempts 0, 1, ... in turn, so that it runs it again
    at most maxRetries - 1 times: two with the default of 3.  It runs it
    again only after an attempt that threw the code 40001 or 40P01, and
    before attempt k it sleeps min(50 * 2^k + Math.random() * 50, 2000)
    milliseconds, never more than 2000.  An error it throws is the error
    the last attempt threw, unchanged, after ROLLBACK and with the store as
    it was: either an error with another code, or the one of the last
    attempt allowed.  A value it returns is the value of the last attempt,
    committed. *)
Theorem withTransaction_retries {A} (fn : nat -> M A) (maxRetries : nat)
  (env : environment) (db db' : session) (r : result (option A))
  (evs : list event) :
  withTransaction fn maxRetries env db = (r, db', evs) ->
  (executions evs <= maxRetries)%nat /\
  (re_executions evs <= maxRetries - 1)%nat /\
  attempts evs = seq 0 (executions evs) /\
  (forall k, In (S k) (attempts evs) ->
             exists e, outcome fn env db k = Throw e /\
                       (code e = Some "40001"%string
                        \/ code e = Some "40P01"%string)) /\
  delays evs
  = map (fun k => Math_min (50 * Math_pow2 k + Math_random env k * 50)%float
                    2000%float)
      (seq 1 (re_executions evs)) /\
  (forall d, In d (delays evs) -> (2000 <? d)%float = false) /\
  (forall e, r = Throw e ->
             db' = db /\ In ROLLBACK evs /\
             exists k, executions evs = S k /\
                       outcome fn env db k = Throw e /\
                       (isRetryable e = false \/ S k = maxRetries)) /\
  (forall a, r = Ok (Some a) ->
             exists k, executions evs = S k /\
                       fn k (begin (clock env k) db) = (Ok a, db')) /\
  (r = Ok None <-> maxRetries = 0%nat).
Proof.
  unfold withTransaction, re_executions. intros H.
  destruct (withTransaction_loop_spec fn maxRetries env db maxRetries 0
              ltac:(lia) r db' evs H)
    as (X1 & X2 & X3 & X4 & X5 & X6 & X7).
  split; [exact X1|]. split; [lia|]. split; [exact X2|]. split.
  { intros k Hk. destruct (X3 k ltac:(lia) Hk) as (e & He & Hr).
    exists e. split; [exact He|]. apply isRetryable_codes. exact Hr. }
  split; [exact X4|]. split.
  { intros d Hd. rewrite X4 in Hd. apply in_map_iff in Hd as (k & <- & _).
    apply backoff_delay_capped. }
  split; [exact X5|]. split; [exact X6|exact X7].
Qed.

Lemma withTransaction_retries_witness :
  exists evs,
    withTransaction always_conflicts default_maxRetries Seed.env Seed.db
    = (Throw serialization_failure, Seed.db, evs) /\
    attempts evs = [0; 1; 2]%nat /\
    delays evs = [125%float; 225%float].
Proof.
  eexists. split; [vm_compute; reflexivity|].
  match goal with
  | |- attempts ?evs = _ /\ _ =>
      assert (E : withTransaction always_conflicts default_maxRetries
                    Seed.env Seed.db
                  = (Throw serialization_failure, Seed.db, evs))
        by (vm_compute; reflexivity);
      destruct (withTransaction_retries _ _ _ _ _ _ _ E)
        as (_ & _ & Ha & _ & Hd & _)
  end.
  split; [rewrite Ha|rewrite Hd]; vm_compute; reflexivity.
Defined.

(** C6 as stated fails: with the default of three, a function that meets
    a serialization failure at every attempt is run three times, that is
    run again twice and not three times, and the third failure is
    thrown. *)
Lemma withTransaction_retries_counterexample :
  exists evs,
    withTransaction always_conflicts default_maxRetries Seed.env Seed.db
    = (Throw serialization_failure, Seed.db, evs) /\
    executions evs = 3%nat /\
    re_executions evs = 2%nat /\
    re_executions evs <> default_maxRetries.
Proof.
  eexists. split; [vm_compute; reflexivity|].
  split; [vm_compute; reflexivity|].
  split; [vm_compute; reflexivity|].
  vm_compute. discriminate.
Qed.

(** ** The query surface *)






Lemma In_skipn {A} (n : nat) (l : list A) (x : A) :
  In x (skipn n l) -> In x l.
Proof.
  intros H. rewrite <- (firstn_skipn n l). apply in_or_app. right. exact H.
Qed.


Lemma history_rows_In (accountId : uuid) (ty : option transaction_type)
  (s : session) (x : ledger_entries_row * transactions_row) :
  In x (history_rows accountId ty s) <->
  In (fst x) (ledger_entries s) /\ In (snd x) (transactions s) /\
  le_account_id (fst x) = accountId /\
  t_id (snd x) = le_transaction_id (fst x) /\
  match ty with Some k => t_type (snd x) = k | None => True end.
Proof.
  unfold history_rows. rewrite in_flat_map. split.
  - intros (le & Hle & Hx). apply filter_In in Hle as [Hle Ea].
    apply String.eqb_eq in Ea. apply in_map_iff in Hx as (t & <- & Ht).
    apply filter_In in Ht as [Ht Et]. apply andb_prop in Et as [Ei Ek].
    apply String.eqb_eq in Ei. cbn [fst snd].
    repeat split; try assumption.
    destruct ty as [k|]; [|exact I].
    destruct (t_type t), k; cbn in Ek; congruence.
  - intros (Hle & Ht & Ea & Ei & Ek). destruct x as [le t].
    cbn [fst snd] in *. exists le. split.
    + apply filter_In. split; [exact Hle|]. apply String.eqb_eq. exact Ea.
    + apply in_map. apply filter_In. split; [exact Ht|].
      apply andb_true_intro. split; [apply String.eqb_eq; exact Ei|].
      destruct ty as [k|]; [|reflexivity]. subst k.
      destruct (t_type t); reflexivity.
Qed.

Lemma run_select_accounts_active (accountId : string) (u : uuid)
  (s : session) :
  uuid_in accountId = Some u ->
  select_accounts_active accountId s =
  (Ok (map a_id
         (filter (fun a => String.eqb (a_id a) u && a_is_active a)
            (accounts s))),
   record SELECT_accounts_active s).
Proof.
  intros E. unfold select_accounts_active, query, with_uuid. rewrite E.
  reflexivity.
Qed.

Lemma account_active_rows (accountId : uuid) (s : session) :
  account_active accountId s <->
  map a_id
    (filter (fun a => String.eqb (a_id a) accountId && a_is_active a)
       (accounts s)) <> [].
Proof.
  unfold account_active. split.
  - intros (a & Ha & Ei & Eact) E.
    assert (Hin : In a (filter (fun a => String.eqb (a_id a) accountId
                                         && a_is_active a) (accounts s))).
    { apply filter_In. split; [exact Ha|]. rewrite Eact, andb_true_r.
      apply String.eqb_eq. exact Ei. }
    apply (in_map a_id) in Hin. rewrite E in Hin. destruct Hin.
  - intros H.
    destruct (filter _ (accounts s)) as [|a l] eqn:E; [contradiction|].
    assert (Ha : In a (filter (fun a => String.eqb (a_id a) accountId
                                        && a_is_active a) (accounts s)))
      by (rewrite E; left; reflexivity).
    apply filter_In in Ha as [Ha Hp]. apply andb_prop in Hp as [Ei Eact].
    apply String.eqb_eq in Ei. exists a. auto.
Qed.

Lemma with_type_filter_category {A} (ty : option string)
  (t : option transaction_type) (k : option transaction_type -> M A) :
  category ty = Some t -> with_type_filter ty k = k t.
Proof.
  unfold category, with_type_filter.
  destruct (type_filter ty) as [x|].
  - destruct (transaction_type_of_text x) as [c|]; [|discriminate].
    intros H. injection H as <-. reflexivity.
  - intros H. injection H as <-. reflexivity.
Qed.



(** What getTransactionHistory does for an account that is there. *)
Lemma getTransactionHistory_run (accountId : string) (u : uuid)
  (limit_opt offset_opt : option Z) (ty : option string)
  (t : option transaction_type) (s : session) :
  let lim := match limit_opt with Some l => l | None => 20 end in
  let off := match offset_opt with Some o => o | None => 0 end in
  uuid_in accountId = Some u ->
  account_active u s ->
  category ty = Some t ->
  0 <= lim -> 0 <= off ->
  getTransactionHistory accountId limit_opt offset_opt ty s
  = (Ok {| p_accountId := accountId;
           total := Z.of_nat (List.length (history_rows u t s));
           limit := lim; offset := off;
           entries :=
             map history_entry_of
               (firstn (Z.to_nat lim)
                  (skipn (Z.to_nat off)
                     (order_by_desc created_at (history_rows u t s)))) |},
     record SELECT_ledger_entries_count
       (record SELECT_ledger_entries_page
          (record SELECT_accounts_active s))).
Proof.
  intros lim off Eu Hact Hcat Hlim Hoff.
  unfold getTransactionHistory. fold lim off.
  unfold bind at 1. rewrite (run_select_accounts_active _ u _ Eu).
  apply account_active_rows in Hact.
  destruct (map a_id _) as [|a0 l0]; [contradiction|].
  unfold select_ledger_entries_page, select_ledger_entries_count, query,
    with_uuid, bind, ret.
  rewrite Eu, !(with_type_filter_category _ _ _ Hcat).
  rewrite (proj2 (Z.ltb_ge lim 0)) by lia.
  rewrite (proj2 (Z.ltb_ge off 0)) by lia.
  reflexivity.
Qed.




(** C10. getTransactionHistory first reads the account, whose id the store
    reads as a uuid.  When the text is not that of a uuid the read fails
    (22P02).  When the store holds no account of that uuid, or only
    inactive ones, the function throws ACCOUNT_NOT_FOUND with status 404.
    In both cases the read of accounts is the one statement it has sent:
    no ledger entry is queried.  And when an active account has the uuid,
    the function does not throw ACCOUNT_NOT_FOUND: it goes on to the
    ledger. *)
Theorem getTransactionHistory_account_check (accountId : string)
  (limit_opt offset_opt : option Z) (ty : option string) (s : session) :
  (uuid_in accountId = None ->
   getTransactionHistory accountId limit_opt offset_opt ty s
   = (Throw invalid_text_representation, record SELECT_accounts_active s)) /\
  (forall u,
     uuid_in accountId = Some u ->
     ((forall a, In a (accounts s) -> a_id a = u -> a_is_active a = false) ->
      getTransactionHistory accountId limit_opt offset_opt ty s
      = (Throw ACCOUNT_NOT_FOUND, record SELECT_accounts_active s)) /\
     ((exists a, In a (accounts s) /\ a_id a = u /\ a_is_active a = true) ->
      exists r s',
        getTransactionHistory accountId limit_opt offset_opt ty s = (r, s') /\
        r <> Throw ACCOUNT_NOT_FOUND /\
        In SELECT_ledger_entries_page (sent s'))) /\
  code ACCOUNT_NOT_FOUND = Some "ACCOUNT_NOT_FOUND"%string /\
  statusCode ACCOUNT_NOT_FOUND = Some 404 /\
  sent (record SELECT_accounts_active s) = sent s ++ [SELECT_accounts_active].
Proof.
  split; [|split].
  - intros E. unfold getTransactionHistory, bind, select_accounts_active,
      query, with_uuid. rewrite E. reflexivity.
  - intros u Eu. split.
    + intros H.
      assert (E : map a_id
                    (filter (fun a => String.eqb (a_id a) u && a_is_active a)
                       (accounts s)) = []).
      { destruct (map a_id _) as [|x l] eqn:E; [reflexivity|].
        exfalso.
        assert (Hact : account_active u s).
        { apply account_active_rows. rewrite E. discriminate. }
        destruct Hact as (a & Ha & Ei & Eact).
        rewrite (H a Ha Ei) in Eact. discriminate. }
      unfold getTransactionHistory. unfold bind at 1.
      rewrite (run_select_accounts_active _ u _ Eu), E. reflexivity.
    + intros Hact. apply account_active_rows in Hact.
      unfold getTransactionHistory. unfold bind at 1.
      rewrite (run_select_accounts_active _ u _ Eu).
      destruct (map a_id _) as [|a0 l0]; [contradiction|].
      unfold select_ledger_entries_page, select_ledger_entries_count, query,
        with_uuid, with_type_filter, throw, bind, ret.
      rewrite Eu.
      destruct (type_filter ty) as [x|];
        [destruct (transaction_type_of_text x)|];
        repeat match goal with
               | |- context [if ?b then _ else _] => destruct b
               end;
        eexists; eexists;
        (split; [reflexivity|]);
        (split; [discriminate|]);
        cbn [sent record]; rewrite !in_app_iff; cbn [In]; tauto.
  - repeat split.
Qed.

Lemma getTransactionHistory_account_check_witness :
  getTransactionHistory nobody None None None Seed.db
  = (Throw ACCOUNT_NOT_FOUND, record SELECT_accounts_active Seed.db) /\
  getTransactionHistory Seed.bob None None None bob_inactive
  = (Throw ACCOUNT_NOT_FOUND, record SELECT_accounts_active bob_inactive) /\
  getTransactionHistory alice_with_colons None None None Seed.db
  = (Throw invalid_text_representation,
     record SELECT_accounts_active Seed.db) /\
  fst (getTransactionHistory ALICE (Some 1) None None Seed.db)
  = Ok {| p_accountId := ALICE; total := 1; limit := 1; offset := 0;
          entries :=
            [{| h_transactionId := Seed.tx_alice; h_type := BONUS;
                h_referenceId := "SEED_OPENING_ALICE_GOLD";
                h_description := "Opening balance for Alice";
                h_metadata := "{}";
                h_amount := 500%float; h_balanceAfter := 500%float;
                h_createdAt := 0 |}] |}.
Proof.
  split; [|split; [|split]].
  - destruct (getTransactionHistory_account_check nobody None None None
                Seed.db) as (_ & H & _).
    apply (H nobody); [vm_compute; reflexivity|].
    intros a Ha E. exfalso. revert E. cbn in Ha.
    repeat (destruct Ha as [<-|Ha]; [vm_compute; discriminate|]).
    destruct Ha.
  - destruct (getTransactionHistory_account_check Seed.bob None None None
                bob_inactive) as (_ & H & _).
    apply (H Seed.bob); [vm_compute; reflexivity|].
    intros a Ha E. cbn in Ha.
    repeat (destruct Ha as [<-|Ha];
            [first [reflexivity | exfalso; revert E; vm_compute; discriminate]
            |]).
    destruct Ha.
  - destruct (getTransactionHistory_account_check alice_with_colons None None
                None Seed.db) as (H & _).
    apply H. vm_compute. reflexivity.
  - vm_compute. reflexivity.
Defined.

(** ** The audit *)

Lemma ledger_balance_journal (accountId : uuid) (s : session) :
  COALESCE (option_map Z.opp (SUM_amount accountId s)) 0
  = - journal_sum accountId s.
Proof.
  unfold SUM_amount, journal_sum.
  destruct (filter _ (ledger_entries s)); reflexivity.
Qed.

Lemma verify_balance_integrity_rows (accountId : uuid) (s : session) :
  verify_balance_integrity accountId s
  = map (fun ab =>
           {| cached_balance := ab_balance ab;
              ledger_balance := - journal_sum accountId s;
              is_consistent :=
                Z.abs (ab_balance ab - - journal_sum accountId s) <? 1 |})
      (balance_rows accountId s).
Proof.
  unfold verify_balance_integrity, balance_rows.
  rewrite ledger_balance_journal. reflexivity.
Qed.

Lemma run_verifyLedgerIntegrity (accountId : string) (u : uuid)
  (s : session) :
  uuid_in accountId = Some u ->
  verifyLedgerIntegrity accountId s
  = match verify_balance_integrity u s with
    | [] => (Throw (status_only 404), record SELECT_verify_balance_integrity s)
    | row :: _ =>
        (Ok {| r_accountId := accountId;
               cachedBalance := parseFloat (cached_balance row);
               ledgerBalance := parseFloat (ledger_balance row);
               isConsistent := is_consistent row;
               discrepancy :=
                 abs (parseFloat (cached_balance row)
                      - parseFloat (ledger_balance row))%float |},
         record SELECT_verify_balance_integrity s)
    end.
Proof.
  intros E. unfold verifyLedgerIntegrity, bind, query, with_uuid. rewrite E.
  change (verify_balance_integrity u
            (record SELECT_verify_balance_integrity s))
    with (verify_balance_integrity u s).
  destruct (verify_balance_integrity u s); reflexivity.
Qed.

Lemma run_verifyLedgerIntegrity_invalid (accountId : string) (s : session) :
  uuid_in accountId = None ->
  verifyLedgerIntegrity accountId s
  = (Throw invalid_text_representation,
     record SELECT_verify_balance_integrity s).
Proof.
  intros E. unfold verifyLedgerIntegrity, bind, query, with_uuid. rewrite E.
  reflexivity.
Qed.

(** C8, on the code.  The function of the schema compares the cached
    balance with the negated sum of the ledger amounts exactly, but the
    service computes the discrepancy it reports from the two balances read
    as binary64 numbers.  After the top-up of 0.00000002 on a balance of
    100000000, which the service accepts, the function of the schema finds
    the cached balance 100000000.00000001 and the ledger balance
    100000000.00000002 apart: their difference is one unit, 10^-8, which
    read as a number is not 0.  The report of the service says
    [isConsistent: false] and, beside it, [discrepancy: 0]: the two
    balances read back as one and the same number. *)
Theorem verifyLedgerIntegrity_report :
  topUpWallet_body topup_small (Seed.ins 0) large_db
  = (Ok topup_small_response, large_db_topped) /\
  verify_balance_integrity Seed.alice large_db_topped
  = [{| cached_balance := 10000000000000001;
        ledger_balance := 10000000000000002;
        is_consistent := false |}] /\
  Z.abs (10000000000000001 - 10000000000000002) = 1 /\
  QArith_base.Qeq (decimal_value 1) (QArith_base.Qmake 1 100000000) /\
  PrimFloat.ltb 0%float (parseFloat 1) = true /\
  parseFloat 10000000000000001 = parseFloat 10000000000000002 /\
  fst (verifyLedgerIntegrity Seed.alice large_db_topped)
  = Ok {| r_accountId := Seed.alice;
          cachedBalance := parseFloat 10000000000000001;
          ledgerBalance := parseFloat 10000000000000002;
          isConsistent := false;
          discrepancy := 0%float |}.
Proof.
  repeat match goal with |- _ /\ _ => split end;
    try (vm_compute; reflexivity).
Qed.

(** ** Monetary precision *)

(** C9, on the code.  The balances are computed in binary64 numbers, not in
    decimals.  The balances 100000000.00000001 and 100000000.00000002 read
    back as the same number.  On a store where Alice holds 100000000, cache
    and ledger being consistent, a top-up of 0.00000002 is accepted: the
    journal records the amount 0.00000002, and the balance stored for her
    is 100000000.00000001, where the exact sum is 100000000.00000002.  The
    audit then finds the cache and the ledger apart, though the discrepancy
    it reports, computed in numbers again, is 0. *)
Theorem balance_arithmetic_rounds :
  parseFloat 10000000000000001 = parseFloat 10000000000000002 /\
  cached Seed.alice large_db = [(large_balance, 0)] /\
  fst (verifyLedgerIntegrity Seed.alice large_db)
  = Ok {| r_accountId := Seed.alice;
          cachedBalance := parseFloat large_balance;
          ledgerBalance := parseFloat large_balance;
          isConsistent := true;
          discrepancy := 0%float |} /\
  toNumeric small_amount = Some 2 /\
  topUpWallet_body topup_small (Seed.ins 0) large_db
  = (Ok topup_small_response, large_db_topped) /\
  toNumeric (balanceAfter topup_small_response) = Some 10000000000000001 /\
  cached Seed.alice large_db_topped = [(10000000000000001, 1)] /\
  large_balance + 2 = 10000000000000002 /\
  - journal_sum Seed.alice large_db_topped = 10000000000000002 /\
  fst (verifyLedgerIntegrity Seed.alice large_db_topped)
  = Ok {| r_accountId := Seed.alice;
          cachedBalance := parseFloat 10000000000000001;
          ledgerBalance := parseFloat 10000000000000002;
          isConsistent := false;
          discrepancy := 0%float |}.
Proof.
  repeat match goal with |- _ /\ _ => split end; vm_compute; reflexivity.
Qed.

(** ** The flows, from end to end *)

Lemma flow_body_run (f : flow) (r : request) (i : inputs) (s : session)
  (cp user : Account) (a uN sN : numeric) :
  first_row (select_idempotency_key (req_referenceId r) s) = None ->
  first_row (select_account_by_external_id (counterparty f) s) = Some cp ->
  find_account (req_accountId r) (flow_rows r cp s) = Some user ->
  flow_admits f r user cp = true ->
  posting_admits f r user (system_account r cp s) = true ->
  transactions_conflict (uuidv4 i) (req_referenceId r) s = false ->
  toNumeric (req_amount r) = Some a ->
  toNumeric (user_after f r user) = Some uN ->
  toNumeric (system_after f r (system_account r cp s)) = Some sN ->
  flow_body f r i s
  = (Ok (flow_response f r i (user_after f r user)),
     flow_written f r i cp user a uN sN s).
Proof.
  intros H1 H2 H3 H4 H5 H6 Ea Eu Es.
  assert (Hc : transactions_conflict (uuidv4 i) (req_referenceId r)
                 (flow_locked r cp s) = false) by exact H6.
  apply negb_true_iff in H5.
  unfold flow_written, flow_posted.
  destruct f; cbn [flow_body counterparty flow_admits debit_account
                   credit_account user_after system_after flow_type
                   default_description] in *;
    [unfold topUpWallet_body | unfold issueBonus_body
     | unfold spendCredits_body];
    unfold bind at 1; run; rewrite H1;
    unfold bind at 1; run; rewrite H2;
    unfold bind at 1; run;
    cast_by H3; fold (flow_rows r cp s); rewrite H3;
    fold (system_account r cp s); fold (flow_locked r cp s).
  - rewrite H4. cbn [negb].
    rewrite (run_bind _ _ _ _ _ (run_insert_transaction _ _ _ _ _ _ Hc)).
    rewrite (run_bind _ _ _ _ _
               (run_postDoubleEntry _ _ _ _ _ _ _ _ _ H5 Ea Es Eu)).
    unfold bind. run. reflexivity.
  - rewrite (run_bind _ _ _ _ _ (run_insert_transaction _ _ _ _ _ _ Hc)).
    rewrite (run_bind _ _ _ _ _
               (run_postDoubleEntry _ _ _ _ _ _ _ _ _ H5 Ea Es Eu)).
    unfold bind. run. reflexivity.
  - apply negb_true_iff in H4. rewrite H4.
    rewrite (run_bind _ _ _ _ _ (run_insert_transaction _ _ _ _ _ _ Hc)).
    rewrite (run_bind _ _ _ _ _
               (run_postDoubleEntry _ _ _ _ _ _ _ _ _ H5 Ea Eu Es)).
    unfold bind. run. reflexivity.
Qed.

Ltac finish_fresh_run :=
  unfold fresh_run;
  try match goal with x := system_account _ _ _ |- _ => subst x end;
  repeat match goal with
    | |- _ /\ _ => split
    end;
  try assumption;
  [ unfold posting_admits; cbn [debit_account];
    match goal with G : _ && _ = false |- _ => rewrite G end; reflexivity
  | unfold flow_response; cbn [user_after flow_type default_description];
    reflexivity
  | unfold flow_written, flow_posted, flow_response;
    cbn [user_after flow_type default_description debit_account
         credit_account];
    reflexivity ].

Lemma flow_body_no_user (f : flow) (r : request) (i : inputs) (s : session)
  (cp : Account) :
  first_row (select_idempotency_key (req_referenceId r) s) = None ->
  first_row (select_account_by_external_id (counterparty f) s) = Some cp ->
  find_account (req_accountId r) (flow_rows r cp s) = None ->
  exists s', flow_body f r i s = (Throw (lock_error r cp), s').
Proof.
  intros H1 H2 H3. unfold lock_error.
  destruct (uuid_array_in (sortedIds [req_accountId r; id cp])) as [ids|]
    eqn:Ec; eexists.
  - apply (flow_body_not_found f r i s cp ids); assumption.
  - apply (flow_body_invalid_uuid f r i s cp); assumption.
Qed.

(** A flow that returns has either replayed a stored response or run
    afresh. *)
Lemma flow_body_Ok (f : flow) (r : request) (i : inputs) (s s' : session)
  (resp : response) :
  flow_body f r i s = (Ok resp, s') ->
  (exists c,
     first_row (select_idempotency_key (req_referenceId r) s) = Some c /\
     resp = replay (ik_response_body c) /\
     s' = record SELECT_idempotency_keys s)
  \/ exists cp user a uN sN, fresh_run f r i s resp s' cp user a uN sN.
Proof.
  destruct (first_row (select_idempotency_key (req_referenceId r) s))
    as [c|] eqn:H1.
  { rewrite (flow_body_hit f r i s c H1). intros K. injection K as <- <-.
    left. exists c. auto. }
  intros K. right.
  destruct (first_row (select_account_by_external_id (counterparty f) s))
    as [cp|] eqn:H2.
  2:{ exfalso. revert K.
      destruct f; cbn [flow_body counterparty] in *;
        [unfold topUpWallet_body | unfold issueBonus_body
         | unfold spendCredits_body];
        unfold bind at 1; run; rewrite H1;
        unfold bind at 1; run; rewrite H2; discriminate. }
  destruct (find_account (req_accountId r) (flow_rows r cp s))
    as [user|] eqn:H3.
  2:{ exfalso. destruct (flow_body_no_user f r i s cp H1 H2 H3) as (s0 & K0).
      rewrite K0 in K. discriminate. }
  exists cp, user.
  destruct (flow_admits f r user cp) eqn:H4.
  2:{ exfalso. revert K.
      destruct f; cbn [flow_body counterparty flow_admits] in *;
        [unfold topUpWallet_body | unfold issueBonus_body
         | unfold spendCredits_body];
        unfold bind at 1; run; rewrite H1;
        unfold bind at 1; run; rewrite H2;
        unfold bind at 1; run;
        cast_by H3; fold (flow_rows r cp s); rewrite H3.
      - rewrite H4. discriminate.
      - discriminate.
      - apply negb_false_iff in H4. rewrite H4. discriminate. }
  destruct (transactions_conflict (uuidv4 i) (req_referenceId r) s) eqn:H6.
  { exfalso. revert K.
    assert (Hc : transactions_conflict (uuidv4 i) (req_referenceId r)
                   (flow_locked r cp s) = true) by exact H6.
    destruct f; cbn [flow_body counterparty flow_admits] in *;
      [unfold topUpWallet_body | unfold issueBonus_body
       | unfold spendCredits_body];
      unfold bind at 1; run; rewrite H1;
      unfold bind at 1; run; rewrite H2;
      unfold bind at 1; run;
      cast_by H3; fold (flow_rows r cp s); rewrite H3;
      fold (flow_locked r cp s);
      [rewrite H4; cbn [negb] | |
       apply negb_true_iff in H4; rewrite H4];
      rewrite (run_bind_throw _ _ _ _ _
                 (run_insert_transaction_conflict _ _ _ _ _ _ Hc));
      discriminate. }
  assert (Hc : transactions_conflict (uuidv4 i) (req_referenceId r)
                 (flow_locked r cp s) = false) by exact H6.
  pose (sys := system_account r cp s).
  revert K.
  destruct f; cbn [flow_body counterparty flow_admits] in *;
    [unfold topUpWallet_body | unfold issueBonus_body
     | unfold spendCredits_body];
    unfold bind at 1; run; rewrite H1;
    unfold bind at 1; run; rewrite H2;
    unfold bind at 1; run;
    cast_by H3; fold (flow_rows r cp s); rewrite H3;
    fold (system_account r cp s); fold sys; fold (flow_locked r cp s);
    [rewrite H4; cbn [negb] | |
     pose proof H4 as H4'; apply negb_true_iff in H4'; rewrite H4'];
    rewrite (run_bind _ _ _ _ _ (run_insert_transaction _ _ _ _ _ _ Hc));
    unfold bind at 1;
    (match goal with
     | |- context [postDoubleEntry ?t ?d ?c ?m ?a ?x] =>
         destruct (postDoubleEntry_cases t d c m a x)
           as [(_ & E) | [(_ & s2 & E) | (G & a' & dN & cN & Ea & Ed & Ec & E)]];
         rewrite E; try discriminate
     end);
    unfold bind; run; unfold ret;
    intros K; injection K as <- <-.
  - exists a', cN, dN. finish_fresh_run.
  - exists a', cN, dN. finish_fresh_run.
  - exists a', dN, cN. finish_fresh_run.
Qed.

(** The tables after the writes of a flow. *)
Lemma flow_written_tables (f : flow) (r : request) (i : inputs)
  (cp user : Account) (a uN sN : numeric) (s : session) :
  let sys := system_account r cp s in
  let D := debit_account f user sys in
  let C := credit_account f user sys in
  let dN := match f with Spend => uN | _ => sN end in
  let cN := match f with Spend => sN | _ => uN end in
  let s' := flow_written f r i cp user a uN sN s in
  accounts s' = accounts s /\
  account_balances s'
  = map (update_row (id C) cN (NOW s))
      (map (update_row (id D) dN (NOW s)) (account_balances s)) /\
  transactions s'
  = transactions s ++
      [{| t_id := uuidv4 i; t_type := flow_type f;
          t_reference_id := req_referenceId r;
          t_description :=
            or_default (req_description r) (default_description f);
          t_metadata := or_default (req_metadata r) "{}";
          t_created_at := NOW s |}] /\
  ledger_entries s'
  = ledger_entries s ++
      [ledger_entry (uuidv4 i) (id D) (asset_type_id user) a dN;
       ledger_entry (uuidv4 i) (id C) (asset_type_id user) (- a) cN] /\
  idempotency_keys s'
  = (if existsb (fun k => String.eqb (ik_key k) (req_referenceId r))
          (idempotency_keys s)
     then idempotency_keys s
     else idempotency_keys s ++
            [{| ik_key := req_referenceId r; ik_response_status := 201;
                ik_response_body := flow_response f r i (user_after f r user);
                ik_created_at := NOW s;
                ik_expires_at := NOW s + hours_24 |}]) /\
  locked s' = locked s ++ map id (flow_rows r cp s) /\
  sent s'
  = sent s ++ [SELECT_idempotency_keys; SELECT_accounts_by_external_id;
               SELECT_accounts_FOR_UPDATE; INSERT_transactions;
               INSERT_ledger_entries; INSERT_ledger_entries;
               UPDATE_account_balances; UPDATE_account_balances;
               INSERT_idempotency_keys] /\
  NOW s' = NOW s.
Proof.
  intros sys D C dN cN s'. subst s'. unfold flow_written.
  fold sys.
  set (p := flow_posted f r i cp user a uN sN s).
  assert (P : accounts p = accounts s /\
              account_balances p
              = map (update_row (id C) cN (NOW s))
                  (map (update_row (id D) dN (NOW s)) (account_balances s)) /\
              transactions p
              = transactions s ++
                  [{| t_id := uuidv4 i; t_type := flow_type f;
                      t_reference_id := req_referenceId r;
                      t_description :=
                        or_default (req_description r) (default_description f);
                      t_metadata := or_default (req_metadata r) "{}";
                      t_created_at := NOW s |}] /\
              ledger_entries p
              = ledger_entries s ++
                  [ledger_entry (uuidv4 i) (id D) (asset_type_id user) a dN;
                   ledger_entry (uuidv4 i) (id C) (asset_type_id user) (- a) cN] /\
              idempotency_keys p = idempotency_keys s /\
              locked p = locked s ++ map id (flow_rows r cp s) /\
              sent p
              = sent s ++ [SELECT_idempotency_keys;
                           SELECT_accounts_by_external_id;
                           SELECT_accounts_FOR_UPDATE; INSERT_transactions;
                           INSERT_ledger_entries; INSERT_ledger_entries;
                           UPDATE_account_balances; UPDATE_account_balances]
              /\ NOW p = NOW s).
  { subst p. unfold flow_posted. fold sys D C dN cN.
    match goal with
    | |- context [posted ?t ?d ?c ?h ?u ?v ?w ?x] =>
        destruct (posted_tables t d c h u v w x)
          as (-> & -> & -> & -> & -> & -> & -> & ->)
    end.
    unfold flow_locked.
    cbn [accounts account_balances transactions ledger_entries
         idempotency_keys locked sent NOW inserted set_transactions record
         lock_rows].
    rewrite <- !app_assoc. cbn [app].
    repeat match goal with |- _ /\ _ => split end; reflexivity. }
  destruct P as (Pa & Pb & Pt & Pl & Pi & Pk & Ps & Pn).
  destruct (stored_tables (req_referenceId r) 201
              (flow_response f r i (user_after f r user)) p)
    as (-> & -> & -> & -> & ->).
  rewrite Pa, Pb, Pt, Pl, Pk.
  repeat match goal with |- _ /\ _ => split end; try reflexivity.
  - unfold stored. rewrite Pi.
    destruct (existsb _ (idempotency_keys s)); cbn [idempotency_keys record
      set_idempotency_keys]; rewrite ?Pi, ?Pn; reflexivity.
  - unfold stored. destruct (existsb _ (idempotency_keys p));
      cbn [sent record set_idempotency_keys]; rewrite Ps, <- app_assoc;
      reflexivity.
  - unfold stored. destruct (existsb _ (idempotency_keys p));
      cbn [NOW record set_idempotency_keys]; exact Pn.
Qed.

(** The errors a flow throws, each with the place it is thrown at. *)
Lemma flow_body_Throw (f : flow) (r : request) (i : inputs) (s s' : session)
  (e : error) :
  flow_body f r i s = (Throw e, s') ->
  first_row (select_idempotency_key (req_referenceId r) s) = None /\
  ((first_row (select_account_by_external_id (counterparty f) s) = None /\
    e = status_only 500)
   \/ exists cp,
       first_row (select_account_by_external_id (counterparty f) s) = Some cp /\
       ((find_account (req_accountId r) (flow_rows r cp s) = None /\
         e = lock_error r cp)
        \/ exists user,
            find_account (req_accountId r) (flow_rows r cp s) = Some user /\
            ((flow_admits f r user cp = false /\
              e = match f with
                  | Spend => INSUFFICIENT_BALANCE
                  | _ => status_only 400
                  end)
             \/ (flow_admits f r user cp = true /\
                 transactions_conflict (uuidv4 i) (req_referenceId r) s = true /\
                 e = unique_violation)
             \/ (flow_admits f r user cp = true /\
                 transactions_conflict (uuidv4 i) (req_referenceId r) s = false /\
                 posting_admits f r user (system_account r cp s) = false /\
                 e = INSUFFICIENT_BALANCE)
             \/ (flow_admits f r user cp = true /\
                 transactions_conflict (uuidv4 i) (req_referenceId r) s = false /\
                 posting_admits f r user (system_account r cp s) = true /\
                 e = numeric_value_out_of_range)))).
Proof.
  destruct (first_row (select_idempotency_key (req_referenceId r) s))
    as [c|] eqn:H1.
  { rewrite (flow_body_hit f r i s c H1). discriminate. }
  intros K. split; [reflexivity|].
  destruct (first_row (select_account_by_external_id (counterparty f) s))
    as [cp|] eqn:H2.
  2:{ left. split; [reflexivity|]. revert K.
      destruct f; cbn [flow_body counterparty] in *;
        [unfold topUpWallet_body | unfold issueBonus_body
         | unfold spendCredits_body];
        unfold bind at 1; run; rewrite H1;
        unfold bind at 1; run; rewrite H2;
        intros K; injection K as <- _; reflexivity. }
  right. exists cp. split; [reflexivity|].
  destruct (find_account (req_accountId r) (flow_rows r cp s))
    as [user|] eqn:H3.
  2:{ left. split; [reflexivity|].
      destruct (flow_body_no_user f r i s cp H1 H2 H3) as (s0 & K0).
      rewrite K0 in K. injection K as <- _. reflexivity. }
  right. exists user. split; [reflexivity|].
  destruct (flow_admits f r user cp) eqn:H4.
  2:{ left. split; [reflexivity|]. revert K.
      destruct f; cbn [flow_body counterparty flow_admits] in *;
        [unfold topUpWallet_body | unfold issueBonus_body
         | unfold spendCredits_body];
        unfold bind at 1; run; rewrite H1;
        unfold bind at 1; run; rewrite H2;
        unfold bind at 1; run;
        cast_by H3; fold (flow_rows r cp s); rewrite H3.
      - rewrite H4. intros K; injection K as <- _; reflexivity.
      - discriminate.
      - apply negb_false_iff in H4. rewrite H4.
        intros K; injection K as <- _; reflexivity. }
  right.
  destruct (transactions_conflict (uuidv4 i) (req_referenceId r) s) eqn:H6.
  { left. split; [reflexivity|]. split; [reflexivity|]. revert K.
    assert (Hc : transactions_conflict (uuidv4 i) (req_referenceId r)
                   (flow_locked r cp s) = true) by exact H6.
    destruct f; cbn [flow_body counterparty flow_admits] in *;
      [unfold topUpWallet_body | unfold issueBonus_body
       | unfold spendCredits_body];
      unfold bind at 1; run; rewrite H1;
      unfold bind at 1; run; rewrite H2;
      unfold bind at 1; run;
      cast_by H3; fold (flow_rows r cp s); rewrite H3;
      fold (flow_locked r cp s);
      [rewrite H4; cbn [negb] | |
       apply negb_true_iff in H4; rewrite H4];
      rewrite (run_bind_throw _ _ _ _ _
                 (run_insert_transaction_conflict _ _ _ _ _ _ Hc));
      intros K; injection K as <- _; reflexivity. }
  right.
  assert (Hc : transactions_conflict (uuidv4 i) (req_referenceId r)
                 (flow_locked r cp s) = false) by exact H6.
  unfold posting_admits.
  revert K.
  destruct f; cbn [flow_body counterparty flow_admits debit_account] in *;
    [unfold topUpWallet_body | unfold issueBonus_body
     | unfold spendCredits_body];
    unfold bind at 1; run; rewrite H1;
    unfold bind at 1; run; rewrite H2;
    unfold bind at 1; run;
    cast_by H3; fold (flow_rows r cp s); rewrite H3;
    fold (system_account r cp s); fold (flow_locked r cp s);
    [rewrite H4; cbn [negb] | |
     pose proof H4 as H4'; apply negb_true_iff in H4'; rewrite H4'];
    rewrite (run_bind _ _ _ _ _ (run_insert_transaction _ _ _ _ _ _ Hc));
    unfold bind at 1;
    (match goal with
     | |- context [postDoubleEntry ?t ?d ?c ?m ?a ?x] =>
         destruct (postDoubleEntry_cases t d c m a x)
           as [(G & E) | [(G & s2 & E) | (G & a' & dN & cN & Ea & Ed & Ec & E)]];
         rewrite E, G
     end);
    try (unfold bind; run; unfold ret; discriminate);
    intros K; injection K as <- _; cbn [negb];
    solve [left; auto | right; auto].
Qed.

Lemma flow_body_not_retryable (f : flow) (r : request) (i : inputs)
  (s s' : session) (e : error) :
  flow_body f r i s = (Throw e, s') -> isRetryable e = false.
Proof.
  intros K. apply flow_body_Throw in K.
  destruct K as (_ & [(_ & ->) | (cp & _ & [(_ & ->) | (user & _ &
    [(_ & ->) | [(_ & _ & ->) | [(_ & _ & _ & ->) | (_ & _ & _ & ->)]]])])]);
    try reflexivity.
  - unfold lock_error. destruct (uuid_array_in _); reflexivity.
  - destruct f; reflexivity.
Qed.

(** In a session no other session interferes with, a flow is executed
    once. *)
Lemma run_flow_once (f : flow) (r : request) (ins : nat -> inputs)
  (env : environment) (db : session) :
  run_flow f r ins env db
  = match flow_body f r (ins 0%nat) (begin (clock env 0) db) with
    | (Ok resp, s') =>
        (Ok (Some resp), s',
         [pool_connect; BEGIN; run_fn 0; COMMIT; client_release])
    | (Throw e, _) =>
        (Throw e, db,
         [pool_connect; BEGIN; run_fn 0; ROLLBACK; client_release])
    end.
Proof.
  rewrite run_flow_withTransaction.
  unfold withTransaction, default_maxRetries.
  cbn [withTransaction_loop].
  destruct (flow_body f r (ins 0%nat) (begin (clock env 0) db))
    as [[resp|e] s'] eqn:E; [reflexivity|].
  rewrite (flow_body_not_retryable _ _ _ _ _ _ E). reflexivity.
Qed.

(** X1. What a flow that runs afresh and returns has sent and written.  It
    has sent nine statements: the three reads, the last of which takes the
    locks, then the transaction, the two journal entries, the two balance
    updates and the idempotency record.  The transaction it has appended
    carries the id, category, reference and description of the response
    and the start time of the database transaction, while [createdAt] of
    the response is the clock of the service.  The idempotency record holds
    the response with status 201 and expires 24 hours after the start of
    the transaction; it is not written when a record, then an expired one,
    already has the key. *)
Theorem flow_fresh_effects (f : flow) (r : request) (i : inputs)
  (s s' : session) (resp : response) :
  first_row (select_idempotency_key (req_referenceId r) s) = None ->
  flow_body f r i s = (Ok resp, s') ->
  sent s'
  = sent s ++ [SELECT_idempotency_keys; SELECT_accounts_by_external_id;
               SELECT_accounts_FOR_UPDATE; INSERT_transactions;
               INSERT_ledger_entries; INSERT_ledger_entries;
               UPDATE_account_balances; UPDATE_account_balances;
               INSERT_idempotency_keys] /\
  (exists cp,
     first_row (select_account_by_external_id (counterparty f) s) = Some cp /\
     locked s' = locked s ++ map id (flow_rows r cp s)) /\
  transactions s'
  = transactions s ++
      [{| t_id := transactionId resp; t_type := type resp;
          t_reference_id := referenceId resp;
          t_description := description resp;
          t_metadata := or_default (req_metadata r) "{}";
          t_created_at := NOW s |}] /\
  resp = flow_response f r i (balanceAfter resp) /\
  (key_unused (req_referenceId r) s ->
   idempotency_keys s'
   = idempotency_keys s ++
       [{| ik_key := req_referenceId r; ik_response_status := 201;
           ik_response_body := resp; ik_created_at := NOW s;
           ik_expires_at := NOW s + hours_24 |}]) /\
  (~ key_unused (req_referenceId r) s ->
   idempotency_keys s' = idempotency_keys s).
Proof.
  intros H1 E.
  apply flow_body_Ok in E as [(c & Hc & _) | (cp & user & a & uN & sN & F)];
    [congruence|].
  destruct F as (_ & H2 & _ & _ & _ & _ & _ & _ & _ & -> & ->).
  destruct (flow_written_tables f r i cp user a uN sN s)
    as (_ & _ & -> & _ & -> & -> & -> & _).
  split; [reflexivity|]. split; [exists cp; auto|].
  split; [reflexivity|]. split; [reflexivity|].
  unfold key_unused. split; intros K.
  - rewrite K. reflexivity.
  - destruct (existsb _ _); [reflexivity|congruence].
Qed.

Lemma flow_fresh_effects_witness :
  flow_body TopUp topup_alice (Seed.ins 0) Seed.db
  = (Ok topup_alice_response, topup_alice_done) /\
  transactions topup_alice_done
  = transactions Seed.db ++ [topup_alice_transaction] /\
  List.length (sent topup_alice_done) = 9%nat.
Proof.
  assert (E : flow_body TopUp topup_alice (Seed.ins 0) Seed.db
              = (Ok topup_alice_response, topup_alice_done))
    by (vm_compute; reflexivity).
  assert (H : first_row (select_idempotency_key (req_referenceId topup_alice)
                           Seed.db) = None) by reflexivity.
  destruct (flow_fresh_effects _ _ _ _ _ _ H E) as (S1 & _ & T & _).
  split; [exact E|]. split; [exact T|]. rewrite S1. reflexivity.
Defined.

(** ** Invariants of the store *)









Lemma transaction_sum_absent (tx : uuid) (l : list ledger_entries_row) :
  (forall le, In le l -> le_transaction_id le <> tx) ->
  transaction_sum tx l = 0.
Proof.
  intros H. unfold transaction_sum.
  induction l as [|x l IH]; [reflexivity|]. cbn [filter].
  rewrite (proj2 (String.eqb_neq _ _) (H x (or_introl eq_refl))).
  apply IH. intros le Hin. apply H. right. exact Hin.
Qed.

Lemma balanced_check (s : session) :
  forallb (fun le => transaction_sum (le_transaction_id le) (ledger_entries s)
                     =? 0) (ledger_entries s) = true ->
  balanced s.
Proof.
  intros H tx. rewrite forallb_forall in H.
  destruct (existsb (fun le => String.eqb (le_transaction_id le) tx)
              (ledger_entries s)) eqn:E.
  - apply existsb_exists in E as (le & Hin & Etx).
    apply String.eqb_eq in Etx. subst tx. apply Z.eqb_eq. exact (H le Hin).
  - apply transaction_sum_absent. intros le Hin Etx.
    assert (K : existsb (fun le => String.eqb (le_transaction_id le) tx)
                  (ledger_entries s) = true).
    { apply existsb_exists. exists le. split; [exact Hin|].
      apply String.eqb_eq. exact Etx. }
    rewrite K in E. discriminate.
Qed.

Lemma referential_check (s : session) :
  forallb (fun le => existsb (fun t => String.eqb (t_id t) (le_transaction_id le))
                       (transactions s)) (ledger_entries s) = true ->
  referential s.
Proof.
  intros H le Hin. rewrite forallb_forall in H.
  pose proof (H le Hin) as K.
  apply existsb_exists in K as (t & Ht & Et).
  exists t. split; [exact Ht|]. apply String.eqb_eq. exact Et.
Qed.


(** ** The audit after a flow *)

Lemma find_account_id (x : uuid) (rows : list Account) (u : Account) :
  find_account x rows = Some u -> id u = x.
Proof.
  unfold find_account. intros H. apply find_some in H as (_ & H).
  apply String.eqb_eq. exact H.
Qed.

(** The id under which a flow finds its user account among the rows locked
    is the store's own spelling of a uuid. *)
Lemma find_account_canonical (x : string) (texts : list string)
  (s : session) (u : Account) :
  find_account x (select_accounts_for_update texts s) = Some u ->
  uuid_in x = Some x.
Proof.
  intros H. pose proof (find_account_id _ _ _ H) as Hu.
  unfold find_account in H. apply find_some in H as (Hin & _).
  apply select_accounts_for_update_In in Hin
    as (_ & a & ab & _ & (t & _ & Et) & _ & _ & _ & ->).
  cbn [id join_row] in Hu. subst x.
  exact (uuid_in_canonical _ _ Et).
Qed.

Lemma system_account_id (r : request) (cp : Account) (s : session) :
  id (system_account r cp s) = id cp.
Proof.
  unfold system_account.
  destruct (find_account (id cp) (flow_rows r cp s)) as [u|] eqn:E;
    cbn [or_else]; [exact (find_account_id _ _ _ E)|reflexivity].
Qed.

Lemma verify_balance_integrity_cached (x : uuid) (s : session) :
  verify_balance_integrity x s
  = map (fun bv =>
           {| cached_balance := fst bv;
              ledger_balance := - journal_sum x s;
              is_consistent := Z.abs (fst bv - - journal_sum x s) <? 1 |})
      (cached x s).
Proof.
  rewrite verify_balance_integrity_rows. unfold cached, cached_rows, balance_rows.
  rewrite map_map. reflexivity.
Qed.

Lemma journal_sum_written (f : flow) (r : request) (i : inputs)
  (cp user : Account) (a uN sN : numeric) (s : session) (x : uuid) :
  let sys := system_account r cp s in
  journal_sum x (flow_written f r i cp user a uN sN s)
  = journal_sum x s
    + (if String.eqb (id (debit_account f user sys)) x then a else 0)
    + (if String.eqb (id (credit_account f user sys)) x then - a else 0).
Proof.
  intros sys. unfold journal_sum.
  destruct (flow_written_tables f r i cp user a uN sN s)
    as (_ & _ & _ & -> & _).
  fold sys. rewrite filter_app, map_app.
  cbn [filter ledger_entry le_account_id].
  induction (map le_amount (filter _ (ledger_entries s))) as [|y l IH].
  - cbn [app fold_right].
    destruct (String.eqb (id (debit_account f user sys)) x),
             (String.eqb (id (credit_account f user sys)) x);
      cbn [map fold_right]; unfold ledger_entry; cbn [le_amount]; lia.
  - cbn [app fold_right]. rewrite IH. lia.
Qed.

Lemma cached_written (f : flow) (r : request) (i : inputs)
  (cp user : Account) (a uN sN : numeric) (s : session) (x : uuid) :
  let sys := system_account r cp s in
  let D := debit_account f user sys in
  let C := credit_account f user sys in
  let dN := match f with Spend => uN | _ => sN end in
  let cN := match f with Spend => sN | _ => uN end in
  cached x (flow_written f r i cp user a uN sN s)
  = (if String.eqb x (id C)
     then map (fun bv => (cN, snd bv + 1))
     else fun l => l)
      ((if String.eqb x (id D)
        then map (fun bv => (dN, snd bv + 1))
        else fun l => l) (cached x s)).
Proof.
  intros sys D C dN cN. unfold cached.
  destruct (flow_written_tables f r i cp user a uN sN s)
    as (_ & -> & _).
  fold sys D C dN cN. rewrite !cached_rows_update.
  destruct (String.eqb x (id C)), (String.eqb x (id D)); reflexivity.
Qed.

Lemma flow_audit_fresh (f : flow) (r : request) (i : inputs) (s s' : session)
  (resp : response) (cp user : Account) (a uN sN : numeric) :
  fresh_run f r i s resp s' cp user a uN sN ->
  id cp <> req_accountId r ->
  let x := req_accountId r in
  verify_balance_integrity x s'
  = map (audit_moved uN (signed f a)) (verify_balance_integrity x s) /\
  forall row, In row (verify_balance_integrity x s) ->
    is_consistent row = true ->
    forall row', In row' (verify_balance_integrity x s') ->
      (is_consistent row' = true <-> uN = cached_balance row + signed f a).
Proof.
  intros F Hne. cbv zeta.
  destruct F as (_ & _ & H3 & _ & _ & _ & _ & _ & _ & _ & ->).
  pose proof (find_account_id _ _ _ H3) as Hu.
  set (x := req_accountId r) in *.
  pose proof (system_account_id r cp s) as Hs.
  set (sys := system_account r cp s) in *.
  assert (Hsx : String.eqb x (id sys) = false)
    by (apply String.eqb_neq; rewrite Hs; congruence).
  assert (Hsx' : String.eqb (id sys) x = false)
    by (apply String.eqb_neq; rewrite Hs; congruence).
  assert (E : verify_balance_integrity x
                (flow_written f r i cp user a uN sN s)
              = map (audit_moved uN (signed f a))
                  (verify_balance_integrity x s)).
  { rewrite !verify_balance_integrity_cached, map_map.
    rewrite journal_sum_written, cached_written. fold sys.
    destruct f; cbn [debit_account credit_account signed];
      rewrite Hu, ?Hsx, ?Hsx', ?String.eqb_refl; rewrite map_map;
      apply map_ext; intros bv; unfold audit_moved;
      cbn [fst snd ledger_balance];
      [replace (- (journal_sum x s + 0 + - a)) with (- journal_sum x s + a)
         by lia
      |replace (- (journal_sum x s + 0 + - a)) with (- journal_sum x s + a)
         by lia
      |replace (- (journal_sum x s + a + 0)) with (- journal_sum x s + - a)
         by lia];
      reflexivity. }
  split; [exact E|].
  intros row Hrow Hcons row' Hrow'. rewrite E in Hrow'.
  apply in_map_iff in Hrow' as (row0 & <- & Hrow0).
  rewrite verify_balance_integrity_cached in Hrow, Hrow0.
  apply in_map_iff in Hrow as (bv & <- & _).
  apply in_map_iff in Hrow0 as (bv0 & <- & _).
  unfold audit_moved. cbn [is_consistent cached_balance ledger_balance] in *.
  rewrite Z.ltb_lt in *. lia.
Qed.

Lemma flow_body_fresh_run (f : flow) (r : request) (i : inputs)
  (s s' : session) (resp : response) :
  first_row (select_idempotency_key (req_referenceId r) s) = None ->
  flow_body f r i s = (Ok resp, s') ->
  exists cp user a uN sN,
    fresh_run f r i s resp s' cp user a uN sN /\
    toNumeric (balanceAfter resp) = Some uN.
Proof.
  intros H1 E.
  apply flow_body_Ok in E as [(c & Hc & _) | (cp & user & a & uN & sN & F)];
    [congruence|].
  exists cp, user, a, uN, sN. split; [exact F|].
  destruct F as (_ & _ & _ & _ & _ & _ & _ & Eu & _ & -> & _). exact Eu.
Qed.

(** X4. The audit of the user account after a flow that has run afresh
    against another account.  The cached balance is the new balance as the
    store keeps it, the ledger balance has moved by the amount as the
    store keeps it, up for a top-up or a bonus and down for a spend.  So,
    for an account the audit found consistent before, it finds it
    consistent after exactly when the new balance stored is the old one
    plus or minus the amount stored: when the binary64 sum or difference
    the service computed reads as the exact decimal one. *)
Theorem flow_audit (f : flow) (r : request) (i : inputs) (s s' : session)
  (resp : response) (cp : Account) (a uN : numeric) :
  first_row (select_idempotency_key (req_referenceId r) s) = None ->
  flow_body f r i s = (Ok resp, s') ->
  first_row (select_account_by_external_id (counterparty f) s) = Some cp ->
  id cp <> req_accountId r ->
  toNumeric (req_amount r) = Some a ->
  toNumeric (balanceAfter resp) = Some uN ->
  let x := req_accountId r in
  verify_balance_integrity x s'
  = map (audit_moved uN (signed f a)) (verify_balance_integrity x s) /\
  forall row, In row (verify_balance_integrity x s) ->
    is_consistent row = true ->
    forall row', In row' (verify_balance_integrity x s') ->
      (is_consistent row' = true <-> uN = cached_balance row + signed f a).
Proof.
  intros H1 E H2 Hne Ea Eu.
  destruct (flow_body_fresh_run f r i s s' resp H1 E)
    as (cp' & user & a' & uN' & sN & F & Eu').
  assert (cp' = cp) by (destruct F as (_ & K & _); congruence).
  assert (a' = a) by (destruct F as (_ & _ & _ & _ & _ & _ & K & _); congruence).
  assert (uN' = uN) by congruence.
  subst cp' a' uN'.
  exact (flow_audit_fresh f r i s s' resp cp user a uN sN F Hne).
Qed.

(** A flow whose account is the system account it posts against. *)
Lemma flow_on_system_account_fresh (f : flow) (r : request) (i : inputs)
  (s s' : session) (resp : response) (cp user : Account) (a uN sN : numeric) :
  fresh_run f r i s resp s' cp user a uN sN ->
  req_accountId r = id cp ->
  let x := req_accountId r in
  exists cN,
    toNumeric (parseFloat (balance user) + req_amount r)%float = Some cN /\
    cached x s' = map (fun bv => (cN, snd bv + 2)) (cached x s) /\
    journal_sum x s' = journal_sum x s /\
    verify_balance_integrity x s'
    = map (audit_moved cN 0) (verify_balance_integrity x s).
Proof.
  intros F Hx. cbv zeta.
  destruct F as (_ & _ & H3 & _ & _ & _ & _ & Eu & Es & _ & ->).
  pose proof (find_account_id _ _ _ H3) as Hu.
  assert (Hsys : system_account r cp s = user).
  { unfold system_account. rewrite <- Hx, H3. reflexivity. }
  rewrite Hsys in Es.
  set (x := req_accountId r) in *.
  exists (match f with Spend => sN | _ => uN end).
  assert (C : cached x (flow_written f r i cp user a uN sN s)
              = map (fun bv => (match f with Spend => sN | _ => uN end,
                                snd bv + 2)) (cached x s)).
  { rewrite cached_written, Hsys.
    destruct f; cbn [debit_account credit_account];
      rewrite Hu, String.eqb_refl, map_map; apply map_ext; intros bv;
      cbn [snd]; f_equal; lia. }
  assert (J : journal_sum x (flow_written f r i cp user a uN sN s)
              = journal_sum x s).
  { rewrite journal_sum_written, Hsys.
    destruct f; cbn [debit_account credit_account];
      rewrite Hu, String.eqb_refl; lia. }
  split; [destruct f; assumption|]. split; [exact C|]. split; [exact J|].
  rewrite !verify_balance_integrity_cached, C, J, !map_map.
  apply map_ext. intros bv. unfold audit_moved.
  cbn [fst snd ledger_balance]. rewrite !Z.add_0_r. reflexivity.
Qed.

(** X5. A flow whose account is the system account it posts against debits
    and credits one and the same row.  The second UPDATE overwrites the
    first: the cached balance becomes the old one plus the amount, as the
    store keeps the binary64 sum, with the version raised by two, while the
    two journal entries cancel and leave the ledger balance of the account
    as it was. *)
Theorem flow_on_system_account (f : flow) (r : request) (i : inputs)
  (s s' : session) (resp : response) (cp : Account) :
  first_row (select_idempotency_key (req_referenceId r) s) = None ->
  flow_body f r i s = (Ok resp, s') ->
  first_row (select_account_by_external_id (counterparty f) s) = Some cp ->
  req_accountId r = id cp ->
  let x := req_accountId r in
  exists user cN,
    find_account x (flow_rows r cp s) = Some user /\
    toNumeric (parseFloat (balance user) + req_amount r)%float = Some cN /\
    cached x s' = map (fun bv => (cN, snd bv + 2)) (cached x s) /\
    journal_sum x s' = journal_sum x s /\
    verify_balance_integrity x s'
    = map (audit_moved cN 0) (verify_balance_integrity x s).
Proof.
  intros H1 E H2 Hx.
  destruct (flow_body_fresh_run f r i s s' resp H1 E)
    as (cp' & user & a & uN & sN & F & _).
  assert (cp' = cp) by (destruct F as (_ & K & _); congruence).
  subst cp'.
  destruct (flow_on_system_account_fresh f r i s s' resp cp user a uN sN F Hx)
    as (cN & K).
  exists user, cN. split; [|exact K].
  destruct F as (_ & _ & K3 & _). exact K3.
Qed.

Lemma flow_audit_witness :
  flow_body TopUp topup_alice (Seed.ins 0) Seed.db
  = (Ok topup_alice_response, topup_alice_done) /\
  verify_balance_integrity Seed.alice Seed.db
  = [{| cached_balance := 500 * Zpos scale;
        ledger_balance := 500 * Zpos scale;
        is_consistent := true |}] /\
  verify_balance_integrity Seed.alice topup_alice_done
  = [{| cached_balance := 600 * Zpos scale;
        ledger_balance := 600 * Zpos scale;
        is_consistent := true |}].
Proof.
  assert (E : flow_body TopUp topup_alice (Seed.ins 0) Seed.db
              = (Ok topup_alice_response, topup_alice_done))
    by (vm_compute; reflexivity).
  assert (H2 : first_row (select_account_by_external_id
                            (counterparty TopUp) Seed.db)
               = Some seed_treasury_read) by (vm_compute; reflexivity).
  assert (N : id seed_treasury_read <> req_accountId topup_alice)
    by (vm_compute; discriminate).
  assert (Ea : toNumeric (req_amount topup_alice) = Some (100 * Zpos scale))
    by (vm_compute; reflexivity).
  assert (Eu : toNumeric (balanceAfter topup_alice_response)
               = Some (600 * Zpos scale)) by (vm_compute; reflexivity).
  assert (H1 : first_row (select_idempotency_key (req_referenceId topup_alice)
                            Seed.db) = None) by reflexivity.
  pose proof (flow_audit _ _ _ _ _ _ _ _ _ H1 E H2 N Ea Eu) as K.
  cbv zeta in K. destruct K as (K & _).
  split; [exact E|]. split; [vm_compute; reflexivity|].
  etransitivity; [exact K|]. vm_compute. reflexivity.
Defined.

Lemma flow_on_system_account_witness :
  cached Seed.treasury_gold Seed.db = [(0, 0)] /\
  cached Seed.treasury_gold seed_treasury_twice = [(100 * Zpos scale, 2)] /\
  journal_sum Seed.treasury_gold seed_treasury_twice
  = journal_sum Seed.treasury_gold Seed.db.
Proof.
  assert (E : flow_body TopUp topup_treasury (Seed.ins 0) Seed.db
              = (Ok (flow_response TopUp topup_treasury (Seed.ins 0) 100%float),
                 seed_treasury_twice))
    by (vm_compute; reflexivity).
  assert (H2 : first_row (select_account_by_external_id
                            (counterparty TopUp) Seed.db)
               = Some seed_treasury_read) by (vm_compute; reflexivity).
  assert (H1 : first_row (select_idempotency_key
                            (req_referenceId topup_treasury) Seed.db) = None)
    by reflexivity.
  destruct (flow_on_system_account _ _ _ _ _ _ _ H1 E H2 eq_refl)
    as (user & cN & Hu & EcN & C & J & _).
  split; [vm_compute; reflexivity|]. split; [|exact J].
  assert (user = seed_treasury)
    by (vm_compute in Hu; injection Hu as <-; reflexivity).
  subst user.
  assert (cN = 100 * Zpos scale)
    by (vm_compute in EcN; injection EcN as <-; reflexivity).
  subst cN. etransitivity; [exact C|]. vm_compute. reflexivity.
Defined.

(** ** The idempotency records *)

(** X6. The window of an idempotency record.  A result stored under a key
    the store has no record of is what [checkIdempotency] returns, in any
    later transaction, as long as that transaction starts less than 24
    hours after the one that stored it; from 24 hours on the check misses. *)
Theorem idempotency_window (referenceId : string) (st : Z) (body : response)
  (s : session) (t : Z) :
  key_unused referenceId s ->
  let s1 := snd (storeIdempotencyResult referenceId st body s) in
  fst (checkIdempotency referenceId (begin t s1))
  = Ok (if t <? NOW s + hours_24
        then Some {| ik_key := referenceId; ik_response_status := st;
                     ik_response_body := body; ik_created_at := NOW s;
                     ik_expires_at := NOW s + hours_24 |}
        else None).
Proof.
  intros Hk s1. subst s1. rewrite run_storeIdempotencyResult.
  rewrite run_checkIdempotency. cbn [fst snd]. f_equal.
  unfold select_idempotency_key, stored.
  pose proof Hk as Hk'. unfold key_unused in Hk'. rewrite Hk'.
  cbn [idempotency_keys begin set_idempotency_keys NOW record].
  rewrite filter_app.
  assert (E : filter
                (fun k => String.eqb (ik_key k) referenceId
                          && (t <? ik_expires_at k))
                (idempotency_keys s) = []).
  { clear - Hk'. induction (idempotency_keys s) as [|x l IH]; [reflexivity|].
    cbn [existsb filter] in *. apply orb_false_elim in Hk' as [Hx Hl].
    rewrite Hx. cbn [andb]. auto. }
  rewrite E. cbn [filter ik_key ik_expires_at app].
  rewrite String.eqb_refl. cbn [andb].
  destruct (t <? NOW s + hours_24); reflexivity.
Qed.

Lemma idempotency_window_witness :
  fst (checkIdempotency "r1"
         (begin (hours_24 - 1)
            (snd (storeIdempotencyResult "r1" 201 topup_alice_response
                    Seed.db))))
  = Ok (Some {| ik_key := "r1"; ik_response_status := 201;
                ik_response_body := topup_alice_response; ik_created_at := 0;
                ik_expires_at := hours_24 |}) /\
  fst (checkIdempotency "r1"
         (begin hours_24
            (snd (storeIdempotencyResult "r1" 201 topup_alice_response
                    Seed.db))))
  = Ok None.
Proof.
  assert (K : key_unused "r1" Seed.db) by reflexivity.
  split.
  - exact (idempotency_window "r1" 201 topup_alice_response Seed.db
             (hours_24 - 1) K).
  - exact (idempotency_window "r1" 201 topup_alice_response Seed.db
             hours_24 K).
Defined.

(** ** The handlers of the flows *)

Lemma controller_created (f : flow) (r : request) (ins : nat -> inputs)
  (env : environment) (db : session) :
  controller f r ins env db
  = match flow_body f r (ins 0%nat) (begin (clock env 0) db) with
    | (Ok resp, s') =>
        (success (match idempotent resp with Some true => 200 | _ => 201 end)
           resp, s', committed)
    | (Throw e, _) => (failure (errorHandler e), db, rolled_back)
    end.
Proof.
  transitivity (Controller.created (run_flow f r ins env db));
    [destruct f; reflexivity|].
  rewrite run_flow_once.
  destruct (flow_body f r (ins 0%nat) (begin (clock env 0) db))
    as [[resp|e] s']; reflexivity.
Qed.

(** X8. A handler of a flow answers 200 exactly when the service has
    replayed a stored response, which then carries [idempotent: true] and
    has left every table as it was; it answers 201 when the flow has run
    afresh, and then the response has no [idempotent] key and its
    transaction is in the store. *)
Theorem controller_status (f : flow) (r : request) (ins : nat -> inputs)
  (env : environment) (db db' : session) (st : Z) (resp : response)
  (evs : list event) :
  controller f r ins env db = (success st resp, db', evs) ->
  let s := begin (clock env 0) db in
  evs = committed /\
  ((st = 200 /\ idempotent resp = Some true /\ same_tables db db' /\
    exists c,
      first_row (select_idempotency_key (req_referenceId r) s) = Some c /\
      resp = replay (ik_response_body c))
   \/ (st = 201 /\ idempotent resp = None /\
       first_row (select_idempotency_key (req_referenceId r) s) = None /\
       transactionId resp = uuidv4 (ins 0%nat) /\
       exists t, transactions db' = transactions db ++ [t] /\
                 t_id t = transactionId resp /\
                 t_reference_id t = req_referenceId r /\
                 t_type t = type resp)).
Proof.
  intros K s. rewrite controller_created in K. fold s in K.
  destruct (flow_body f r (ins 0%nat) s) as [[resp0|e] s'] eqn:E;
    [|discriminate].
  injection K as <- <- <- <-. split; [reflexivity|].
  apply flow_body_Ok in E as [(c & Hc & -> & ->)
                              | (cp & user & a & uN & sN & F)].
  - left. cbn [idempotent replay]. split; [reflexivity|].
    split; [reflexivity|]. split; [repeat split|]. exists c. auto.
  - right. destruct F as (H1 & _ & _ & _ & _ & _ & _ & _ & _ & -> & ->).
    cbn [idempotent flow_response transactionId type].
    repeat match goal with |- _ /\ _ => split end; try reflexivity;
      try assumption.
    destruct (flow_written_tables f r (ins 0%nat) cp user a uN sN s)
      as (_ & _ & -> & _).
    eexists. split; [reflexivity|]. cbn [t_id t_reference_id t_type].
    repeat split.
Qed.

Ltac flow_cases E :=
  match type of E with
  | flow_body _ _ _ _ = (Ok _, _) =>
      apply flow_body_Ok in E
        as [(?c & ?Hc & _)
           | (?cp & ?user & ?a & ?uN & ?sN & ?F1 & ?F2 & ?F3 & ?F4 & ?F5 & ?F6
              & _)]
  | flow_body _ _ _ _ = (Throw _, _) =>
      apply flow_body_Throw in E
        as (_ & [(?T2 & ?Te)
                | (?cp & ?T2 &
                   [(?T3 & ?Te)
                   | (?user & ?T3 &
                      [(?T4 & ?Te)
                      | [(?T4 & ?T6 & ?Te)
                        | [(?T4 & ?T6 & ?T5 & ?Te)
                          | (?T4 & ?T6 & ?T5 & ?Te)]]])])])
  end.

Lemma flow_body_unconfigured (f : flow) (r : request) (i : inputs)
  (s : session) :
  first_row (select_idempotency_key (req_referenceId r) s) = None ->
  first_row (select_account_by_external_id (counterparty f) s) = None ->
  exists s', flow_body f r i s = (Throw (status_only 500), s').
Proof.
  intros H1 H2.
  destruct (flow_body f r i s) as [[resp|e] s'] eqn:E; flow_cases E;
    try congruence.
  subst e. eauto.
Qed.

Lemma flow_body_refused (f : flow) (r : request) (i : inputs) (s : session)
  (cp user : Account) :
  first_row (select_idempotency_key (req_referenceId r) s) = None ->
  first_row (select_account_by_external_id (counterparty f) s) = Some cp ->
  find_account (req_accountId r) (flow_rows r cp s) = Some user ->
  flow_admits f r user cp = false ->
  exists s',
    flow_body f r i s
    = (Throw match f with
             | Spend => INSUFFICIENT_BALANCE
             | _ => status_only 400
             end, s').
Proof.
  intros H1 H2 H3 H4.
  destruct (flow_body f r i s) as [[resp|e] s'] eqn:E; flow_cases E;
    try congruence;
    try (rewrite H2 in *;
         match goal with
         | K : Some _ = Some _ |- _ => injection K as <-
         end;
         rewrite H3 in *;
         match goal with
         | K : Some _ = Some _ |- _ => injection K as <-
         end; try congruence).
  subst e. eauto.
Qed.

Lemma flow_body_duplicate (f : flow) (r : request) (i : inputs) (s : session)
  (cp user : Account) :
  first_row (select_idempotency_key (req_referenceId r) s) = None ->
  first_row (select_account_by_external_id (counterparty f) s) = Some cp ->
  find_account (req_accountId r) (flow_rows r cp s) = Some user ->
  flow_admits f r user cp = true ->
  transactions_conflict (uuidv4 i) (req_referenceId r) s = true ->
  exists s', flow_body f r i s = (Throw unique_violation, s').
Proof.
  intros H1 H2 H3 H4 H6.
  destruct (flow_body f r i s) as [[resp|e] s'] eqn:E; flow_cases E;
    try congruence;
    try (rewrite H2 in *;
         match goal with
         | K : Some _ = Some _ |- _ => injection K as <-
         end;
         rewrite H3 in *;
         match goal with
         | K : Some _ = Some _ |- _ => injection K as <-
         end; try congruence).
  subst e. eauto.
Qed.

(** X9. The replies to a flow that fails before it writes: 500 with the
    code INTERNAL_ERROR and the fixed message when the system account of
    the flow is not in the store, and also when the store cannot read the
    account id as a uuid; 404 ACCOUNT_NOT_FOUND when the user account is
    not among the rows locked, being missing or inactive; 422
    INSUFFICIENT_BALANCE for a spend above the balance; 400 with the code
    INTERNAL_ERROR for a top-up on an account of another asset type than
    the treasury's.  The body has run once, the transaction is rolled back
    and the store is the one of before. *)
Theorem controller_failures (f : flow) (r : request) (ins : nat -> inputs)
  (env : environment) (db : session) :
  let s := begin (clock env 0) db in
  first_row (select_idempotency_key (req_referenceId r) s) = None ->
  (first_row (select_account_by_external_id (counterparty f) s) = None ->
   controller f r ins env db
   = (failure {| ej_status := 500; ej_code := "INTERNAL_ERROR";
                 ej_message := internal_error_message |}, db, rolled_back)) /\
  (forall cp,
     first_row (select_account_by_external_id (counterparty f) s) = Some cp ->
     (uuid_in (req_accountId r) = None \/ uuid_in (id cp) = None ->
      controller f r ins env db
      = (failure {| ej_status := 500; ej_code := "INTERNAL_ERROR";
                    ej_message := internal_error_message |},
         db, rolled_back)) /\
     (uuid_in (req_accountId r) <> None -> uuid_in (id cp) <> None ->
      find_account (req_accountId r) (flow_rows r cp s) = None ->
      controller f r ins env db
      = (failure {| ej_status := 404; ej_code := "ACCOUNT_NOT_FOUND";
                    ej_message := err_message |}, db, rolled_back)) /\
     (forall user,
        find_account (req_accountId r) (flow_rows r cp s) = Some user ->
        flow_admits f r user cp = false ->
        controller f r ins env db
        = (failure (refusal_reply f), db, rolled_back))).
Proof.
  intros s H1.
  split; [|intros cp H2; split; [|split; [|intros user H3 H4]]].
  - intros H2. rewrite controller_created. fold s.
    destruct (flow_body_unconfigured f r (ins 0%nat) s H1 H2) as (s' & ->).
    reflexivity.
  - intros V. rewrite controller_created. fold s.
    rewrite (flow_body_invalid_uuid f r (ins 0%nat) s cp H1 H2);
      [reflexivity|].
    apply uuid_array_in_None.
    destruct V as [V|V];
      [exists (req_accountId r)|exists (id cp)];
      (split; [apply sortedIds_spec; cbn [In]; tauto|exact V]).
  - intros V1 V2 H3. rewrite controller_created. fold s.
    assert (V : forall t, In t (sortedIds [req_accountId r; id cp]) ->
                          uuid_in t <> None).
    { intros t Ht.
      apply (proj2 (proj2 (sortedIds_spec [req_accountId r; id cp]))) in Ht.
      destruct Ht as [<- | [<- | []]]; assumption. }
    destruct (proj1 (uuid_array_in_Some _) V) as (ids & Eids).
    rewrite (flow_body_not_found f r (ins 0%nat) s cp ids H1 H2 Eids H3).
    reflexivity.
  - rewrite controller_created. fold s.
    destruct (flow_body_refused f r (ins 0%nat) s cp user H1 H2 H3 H4)
      as (s' & ->).
    destruct f; reflexivity.
Qed.

(** X10. A reference that a transaction of the store already carries, and
    that no live idempotency record answers for (none was stored, or the
    one stored has expired), is refused by the unique constraint of
    transactions: the handler replies 409 DUPLICATE_REFERENCE with the
    fixed message, and the store is the one of before. *)
Theorem controller_duplicate_reference (f : flow) (r : request)
  (ins : nat -> inputs) (env : environment) (db : session) (cp user : Account)
  (t : transactions_row) :
  let s := begin (clock env 0) db in
  first_row (select_idempotency_key (req_referenceId r) s) = None ->
  first_row (select_account_by_external_id (counterparty f) s) = Some cp ->
  find_account (req_accountId r) (flow_rows r cp s) = Some user ->
  flow_admits f r user cp = true ->
  In t (transactions db) -> t_reference_id t = req_referenceId r ->
  controller f r ins env db
  = (failure {| ej_status := 409; ej_code := "DUPLICATE_REFERENCE";
                ej_message := duplicate_reference_message |}, db, rolled_back).
Proof.
  intros s H1 H2 H3 H4 Hin Href.
  assert (H6 : transactions_conflict (uuidv4 (ins 0%nat)) (req_referenceId r) s
               = true).
  { unfold transactions_conflict. apply existsb_exists. exists t.
    split; [exact Hin|]. rewrite Href, String.eqb_refl. apply orb_true_r. }
  rewrite controller_created. fold s.
  destruct (flow_body_duplicate f r (ins 0%nat) s cp user H1 H2 H3 H4 H6)
    as (s' & ->).
  reflexivity.
Qed.

Lemma controller_status_witness :
  let x := controller TopUp topup_alice Seed.ins Seed.env Seed.db in
  x = (success 201 topup_alice_response, snd (fst x), committed) /\
  idempotent topup_alice_response = None /\
  transactionId topup_alice_response = uuidv4 (Seed.ins 0).
Proof.
  intros x.
  assert (E : x = (success 201 topup_alice_response, snd (fst x), committed))
    by (vm_compute; reflexivity).
  split; [exact E|].
  destruct (controller_status _ _ _ _ _ _ _ _ _ E)
    as (_ & [(D & _) | (_ & H & _ & H' & _)]); [discriminate|].
  split; assumption.
Defined.

Lemma controller_failures_witness :
  controller TopUp topup_nobody Seed.ins Seed.env Seed.db
  = (failure {| ej_status := 404; ej_code := "ACCOUNT_NOT_FOUND";
                ej_message := err_message |}, Seed.db, rolled_back) /\
  controller TopUp topup_colons Seed.ins Seed.env Seed.db
  = (failure {| ej_status := 500; ej_code := "INTERNAL_ERROR";
                ej_message := internal_error_message |},
     Seed.db, rolled_back) /\
  controller Spend spend_too_much Seed.ins Seed.env Seed.db
  = (failure {| ej_status := 422; ej_code := "INSUFFICIENT_BALANCE";
                ej_message := err_message |}, Seed.db, rolled_back).
Proof.
  split; [|split].
  - refine (proj1 (proj2 (proj2 (controller_failures TopUp topup_nobody
                                   Seed.ins Seed.env Seed.db _)
                            seed_treasury_read _)) _ _ _);
      first [vm_compute; reflexivity | vm_compute; discriminate].
  - refine (proj1 (proj2 (controller_failures TopUp topup_colons Seed.ins
                            Seed.env Seed.db _) seed_treasury_read _) _);
      first [vm_compute; reflexivity | left; vm_compute; reflexivity].
  - refine (proj2 (proj2 (proj2 (controller_failures Spend
                                   spend_too_much Seed.ins
                                   Seed.env Seed.db _) seed_revenue _))
              seed_bob _ _);
      vm_compute; reflexivity.
Defined.

Lemma controller_duplicate_reference_witness :
  first_row (select_idempotency_key "r1" (begin hours_24 topup_alice_done))
  = None /\
  controller TopUp topup_alice Seed.ins late_env topup_alice_done
  = (failure {| ej_status := 409; ej_code := "DUPLICATE_REFERENCE";
                ej_message := duplicate_reference_message |},
     topup_alice_done, rolled_back).
Proof.
  split; [vm_compute; reflexivity|].
  refine (controller_duplicate_reference TopUp topup_alice Seed.ins late_env
            topup_alice_done
            done_treasury done_alice topup_alice_transaction _ _ _ _ _ _);
    try (vm_compute; reflexivity).
  vm_compute. right; right; right; left; reflexivity.
Defined.

(** ** The single-account resolver *)

Lemma sort_by_same_key {A} (key : A -> string) (k : string) (l : list A) :
  (forall a, In a l -> key a = k) -> sort_by key l = l.
Proof.
  unfold sort_by. induction l as [|a l IH]; intros H; [reflexivity|].
  cbn [fold_right]. rewrite IH by (intros b Hb; apply H; right; exact Hb).
  destruct l as [|y r]; [reflexivity|]. cbn [insert_by].
  rewrite (H a (or_introl eq_refl)), (H y (or_intror (or_introl eq_refl))).
  destruct (String.leb_total k k) as [-> | ->]; reflexivity.
Qed.

Lemma select_accounts_for_update_single (x : string) (u : uuid)
  (s : session) :
  uuid_in x = Some u ->
  select_accounts_for_update (sortedIds [x]) s = select_account_for_update u s.
Proof.
  intros Hx.
  unfold select_accounts_for_update, select_account_for_update.
  cbn [sortedIds new_Set existsb sort_by fold_right insert_by uuid_array_in].
  rewrite Hx.
  assert (E : accounts_join_balances true
                (fun a => existsb (String.eqb (a_id a)) [u]
                          && a_is_active a) s
              = accounts_join_balances true
                  (fun a => String.eqb (a_id a) u && a_is_active a) s).
  { unfold accounts_join_balances. f_equal. apply filter_ext. intros a.
    cbn [existsb]. rewrite orb_false_r. reflexivity. }
  rewrite E. apply (sort_by_same_key id u).
  intros r Hr. apply accounts_join_balances_In in Hr
    as (a & ab & _ & Hp & _ & _ & ->).
  apply andb_true_iff in Hp as (Hp & _). apply String.eqb_eq in Hp.
  exact Hp.
Qed.

(** X11. [getAccountWithLock] on an id does what [getAccountsWithLock] does
    on the list of that id alone.  When the store cannot read the id as a
    uuid both fail with 22P02 and lock nothing.  Otherwise they send the
    same statement and lock the same rows, and [getAccountWithLock] returns
    the first of them, or null.  The row returned carries the uuid read
    from the id, in the store's own spelling, and is active; null is
    returned exactly when the store has no active account of that uuid
    with a balance row.  So an id in upper case finds the account stored
    in lower case. *)
Theorem getAccountWithLock_single (x : string) (s : session) :
  (uuid_in x = None ->
   getAccountWithLock x s
   = (Throw invalid_text_representation,
      record SELECT_accounts_FOR_UPDATE s) /\
   getAccountsWithLock [x] s
   = (Throw invalid_text_representation,
      record SELECT_accounts_FOR_UPDATE s)) /\
  (forall u, uuid_in x = Some u ->
   exists rows,
     getAccountsWithLock [x] s = (Ok rows, snd (getAccountWithLock x s)) /\
     fst (getAccountWithLock x s) = Ok (first_row rows) /\
     locked (snd (getAccountWithLock x s)) = locked s ++ map id rows /\
     (forall r, In r rows <->
        exists a ab,
          In a (accounts s) /\ a_id a = u /\ a_is_active a = true /\
          In ab (account_balances s) /\ ab_account_id ab = u /\
          r = join_row true a ab) /\
     (forall r, first_row rows = Some r -> id r = u /\ is_active r = true) /\
     (first_row rows = None <->
      forall a ab, In a (accounts s) -> In ab (account_balances s) ->
                   a_id a = u -> ab_account_id ab = u ->
                   a_is_active a = false)).
Proof.
  split.
  - intros Hx. rewrite run_getAccountsWithLock.
    unfold getAccountWithLock, query, with_uuid, throw.
    cbn [sortedIds new_Set existsb sort_by fold_right insert_by uuid_array_in].
    rewrite Hx. split; reflexivity.
  - intros u Hx. exists (select_account_for_update u s).
    rewrite run_getAccountsWithLock.
    rewrite (select_accounts_for_update_single x u s Hx).
    unfold getAccountWithLock, query, with_uuid.
    cbn [sortedIds new_Set existsb sort_by fold_right insert_by uuid_array_in].
    rewrite Hx. cbn [fst snd].
    change (select_account_for_update u (record SELECT_accounts_FOR_UPDATE s))
      with (select_account_for_update u s).
    split; [reflexivity|]. split; [reflexivity|]. split; [reflexivity|].
    unfold select_account_for_update.
    assert (Hin : forall r,
              In r (accounts_join_balances true
                      (fun a => String.eqb (a_id a) u && a_is_active a) s) <->
              exists a ab,
                In a (accounts s) /\ a_id a = u /\ a_is_active a = true /\
                In ab (account_balances s) /\ ab_account_id ab = u /\
                r = join_row true a ab).
    { intros r. rewrite accounts_join_balances_In. split.
      - intros (a & ab & Ha & Hp & Hab & Eab & ->).
        apply andb_true_iff in Hp as (Hp & Act). apply String.eqb_eq in Hp.
        exists a, ab. repeat split; auto. congruence.
      - intros (a & ab & Ha & Eid & Act & Hab & Eab & ->).
        exists a, ab. rewrite Act, Eid, String.eqb_refl.
        repeat split; auto. }
    split; [exact Hin|]. split.
    + intros r Hr.
      assert (Hr' : In r (accounts_join_balances true
                            (fun a => String.eqb (a_id a) u && a_is_active a)
                            s)).
      { destruct (accounts_join_balances _ _ s) as [|y l]; [discriminate|].
        injection Hr as ->. left. reflexivity. }
      apply Hin in Hr' as (a & ab & _ & Eid & Act & _ & _ & ->).
      split; assumption.
    + split.
      * intros Hn a ab Ha Hab Eid Eab.
        destruct (a_is_active a) eqn:Act; [|reflexivity]. exfalso.
        assert (Hr : In (join_row true a ab)
                       (accounts_join_balances true
                          (fun a => String.eqb (a_id a) u && a_is_active a)
                          s)).
        { apply Hin. exists a, ab. repeat split; auto. }
        destruct (accounts_join_balances _ _ s); [destruct Hr|discriminate].
      * intros H.
        destruct (accounts_join_balances true
                    (fun a => String.eqb (a_id a) u && a_is_active a) s)
          as [|r l] eqn:E; [reflexivity|]. exfalso.
        destruct (proj1 (Hin r) (or_introl eq_refl))
          as (a & ab & Ha & Eid & Act & Hab & Eab & _).
        rewrite (H a ab Ha Hab Eid Eab) in Act. discriminate.
Qed.

Lemma getAccountWithLock_single_witness :
  uuid_in ALICE = Some Seed.alice /\
  getAccountWithLock ALICE Seed.db
  = (Ok (Some alice_locked),
     lock_rows [Seed.alice] (record SELECT_accounts_FOR_UPDATE Seed.db)) /\
  getAccountsWithLock [ALICE] Seed.db
  = (Ok [alice_locked],
     lock_rows [Seed.alice] (record SELECT_accounts_FOR_UPDATE Seed.db)) /\
  getAccountWithLock alice_with_colons Seed.db
  = (Throw invalid_text_representation,
     record SELECT_accounts_FOR_UPDATE Seed.db) /\
  fst (getAccountWithLock nobody Seed.db) = Ok None.
Proof.
  assert (HA : uuid_in ALICE = Some Seed.alice) by (vm_compute; reflexivity).
  split; [exact HA|].
  repeat match goal with |- _ /\ _ => split end.
  - vm_compute; reflexivity.
  - vm_compute; reflexivity.
  - apply (proj1 (getAccountWithLock_single alice_with_colons Seed.db)).
    vm_compute; reflexivity.
  - vm_compute; reflexivity.
Defined.

(** ** The balance of an account *)

Lemma accounts_join_assets_balances_In (asset_types : list asset_types_row)
  (p : accounts_row -> asset_types_row -> bool) (s : session)
  (x : accounts_row * asset_types_row * account_balances_row) :
  In x (accounts_join_assets_balances asset_types p s) <->
  In (fst (fst x)) (accounts s) /\ In (snd (fst x)) asset_types /\
  In (snd x) (account_balances s) /\
  at_id (snd (fst x)) = a_asset_type_id (fst (fst x)) /\
  p (fst (fst x)) (snd (fst x)) = true /\
  ab_account_id (snd x) = a_id (fst (fst x)).
Proof.
  unfold accounts_join_assets_balances. rewrite in_flat_map. split.
  - intros (a & Ha & H). apply in_flat_map in H as (k & Hk & H).
    apply filter_In in Hk as (Hk & Hp). apply andb_true_iff in Hp as (Hi & Hp).
    apply in_map_iff in H as (ab & <- & Hab).
    apply filter_In in Hab as (Hab & E). cbn [fst snd].
    apply String.eqb_eq in Hi, E. auto 10.
  - destruct x as [[a k] ab]. cbn [fst snd].
    intros (Ha & Hk & Hab & Hi & Hp & E). exists a. split; [exact Ha|].
    apply in_flat_map. exists k. split.
    + apply filter_In. split; [exact Hk|].
      rewrite Hp, Hi, String.eqb_refl. reflexivity.
    + apply in_map. apply filter_In. split; [exact Hab|].
      rewrite E. apply String.eqb_refl.
Qed.

(** X12. [getBalance] fails with 22P02 when the store cannot read the id
    as a uuid, and the handler answers that with 500 INTERNAL_ERROR.
    Otherwise it returns the account of the uuid read from the id, its
    asset type and its cached balance read as a number when the store
    holds an active account of that uuid with a row of asset_types for its
    asset type and a balance row; it throws ACCOUNT_NOT_FOUND, with status
    404, exactly when one of these is missing, so also for an account that
    is inactive or has no balance row.  The accountId of the view is the
    store's spelling of the uuid, whatever the case of the id asked. *)
Theorem getBalance_found (asset_types : list asset_types_row) (x : string)
  (s : session) :
  (uuid_in x = None ->
   getBalance asset_types x s = Throw invalid_text_representation /\
   Controller.getBalance asset_types x s
   = failure {| ej_status := 500; ej_code := "INTERNAL_ERROR";
                ej_message := internal_error_message |}) /\
  (forall u, uuid_in x = Some u ->
   (forall v, getBalance asset_types x s = Ok v ->
      bv_accountId v = u /\
      exists a k ab,
        In a (accounts s) /\ a_id a = u /\ a_is_active a = true /\
        In k asset_types /\ at_id k = a_asset_type_id a /\
        In ab (account_balances s) /\ ab_account_id ab = u /\
        bv_accountId v = a_id a /\
        bv_externalId v = a_external_id a /\
        bv_name v = a_name a /\
        bv_accountType v = a_account_type a /\
        bv_asset_code v = at_code k /\
        bv_asset_name v = at_name k /\
        bv_balance v = parseFloat (ab_balance ab) /\
        bv_version v = ab_version ab /\
        bv_updatedAt v = ab_updated_at ab) /\
   (forall e, getBalance asset_types x s = Throw e ->
      e = ACCOUNT_NOT_FOUND /\ statusCode e = Some 404) /\
   (getBalance asset_types x s = Throw ACCOUNT_NOT_FOUND <->
    forall a k ab,
      In a (accounts s) -> In k asset_types -> In ab (account_balances s) ->
      a_id a = u -> at_id k = a_asset_type_id a -> ab_account_id ab = u ->
      a_is_active a = false)).
Proof.
  split.
  - intros Hx. unfold Controller.getBalance, getBalance. rewrite Hx.
    split; reflexivity.
  - intros u Hx. unfold getBalance, select_balance. rewrite Hx.
    set (p := fun (a : accounts_row) (_ : asset_types_row) =>
                String.eqb (a_id a) u && a_is_active a).
    split; [|split].
    + intros v Hv.
      destruct (accounts_join_assets_balances asset_types p s)
        as [|[[a k] ab] l] eqn:E; [discriminate|].
      injection Hv as <-.
      assert (Hin : In (a, k, ab)
                      (accounts_join_assets_balances asset_types p s))
        by (rewrite E; left; reflexivity).
      apply accounts_join_assets_balances_In in Hin
        as (Ha & Hk & Hab & Hi & Hp & Eab).
      cbn [fst snd] in *. apply andb_true_iff in Hp as (Hu & Act).
      apply String.eqb_eq in Hu. split; [exact Hu|].
      exists a, k, ab.
      repeat match goal with |- _ /\ _ => split end;
        auto; try reflexivity; congruence.
    + intros e He.
      destruct (accounts_join_assets_balances asset_types p s) as [|y l];
        [|discriminate].
      injection He as <-. split; reflexivity.
    + split.
      * intros Ht a k ab Ha Hk Hab Ex Ek Eab.
        destruct (a_is_active a) eqn:Act; [|reflexivity]. exfalso.
        assert (Hin : In (a, k, ab)
                        (accounts_join_assets_balances asset_types p s)).
        { apply accounts_join_assets_balances_In. cbn [fst snd]. unfold p.
          rewrite Ex, String.eqb_refl, Act. repeat split; auto. }
        destruct (accounts_join_assets_balances asset_types p s);
          [destruct Hin|destruct p0 as [[? ?] ?]; discriminate].
      * intros H.
        destruct (accounts_join_assets_balances asset_types p s)
          as [|[[a k] ab] l] eqn:E; [reflexivity|]. exfalso.
        assert (Hin : In (a, k, ab)
                        (accounts_join_assets_balances asset_types p s))
          by (rewrite E; left; reflexivity).
        apply accounts_join_assets_balances_In in Hin
          as (Ha & Hk & Hab & Hi & Hp & Eab).
        cbn [fst snd] in *. apply andb_true_iff in Hp as (Hu & Act).
        apply String.eqb_eq in Hu.
        rewrite (H a k ab Ha Hk Hab Hu Hi (eq_trans Eab Hu)) in Act.
        discriminate.
Qed.

Lemma getBalance_found_witness :
  getBalance seed_asset_types ALICE Seed.db = Ok seed_alice_view /\
  bv_accountId seed_alice_view = Seed.alice /\
  bv_balance seed_alice_view = 500%float /\
  getBalance seed_asset_types alice_with_colons Seed.db
  = Throw invalid_text_representation /\
  getBalance seed_asset_types Seed.bob bob_inactive = Throw ACCOUNT_NOT_FOUND.
Proof.
  split; [vm_compute; reflexivity|].
  split; [reflexivity|]. split; [reflexivity|]. split.
  - apply (proj1 (getBalance_found seed_asset_types alice_with_colons
                    Seed.db)).
    vm_compute. reflexivity.
  - apply (proj2 (proj2 (proj2 (getBalance_found seed_asset_types Seed.bob
                                  bob_inactive) Seed.bob eq_refl))).
    intros a k ab Ha _ _ Ea _ _. cbn in Ha.
    repeat (destruct Ha as [<- | Ha]; [first [reflexivity | discriminate]|]).
    destruct Ha.
Defined.

Lemma getBalance_Ok (asset_types : list asset_types_row) (x : string)
  (u : uuid) (s : session) (v : balance_view) :
  uuid_in x = Some u ->
  getBalance asset_types x s = Ok v ->
  exists a k ab l,
    select_balance asset_types u s = (a, k, ab) :: l /\
    v = balance_view_of (a, k, ab) /\
    In ab (account_balances s) /\ ab_account_id ab = u.
Proof.
  unfold getBalance. intros Hx Hv. rewrite Hx in Hv.
  destruct (select_balance asset_types u s) as [|[[a k] ab] l] eqn:E;
    [discriminate|].
  injection Hv as <-. exists a, k, ab, l.
  split; [reflexivity|]. split; [reflexivity|].
  assert (Hin : In (a, k, ab) (select_balance asset_types u s))
    by (rewrite E; left; reflexivity).
  apply accounts_join_assets_balances_In in Hin
    as (_ & _ & Hab & _ & Hp & Eab).
  cbn [fst snd] in *. apply andb_true_iff in Hp as (Hu & _).
  apply String.eqb_eq in Hu. split; [exact Hab|congruence].
Qed.

Lemma filter_map_kept {A} (q : A -> bool) (g : A -> A) (l : list A) :
  (forall x, q (g x) = q x) -> filter q (map g l) = map g (filter q l).
Proof.
  intros H. induction l as [|x l IH]; [reflexivity|].
  cbn [map filter]. rewrite H. destruct (q x); cbn [map]; rewrite IH;
    reflexivity.
Qed.

Lemma flat_map_map_out {A B C} (h : B -> C) (F : A -> list B) (l : list A) :
  flat_map (fun x => map h (F x)) l = map h (flat_map F l).
Proof.
  induction l as [|x l IH]; [reflexivity|].
  cbn [flat_map]. rewrite map_app, IH. reflexivity.
Qed.

(** The three-way join after the balance rows have been rewritten by a
    function that keeps their account. *)
Lemma accounts_join_assets_balances_map (asset_types : list asset_types_row)
  (p : accounts_row -> asset_types_row -> bool) (s s' : session)
  (g : account_balances_row -> account_balances_row) :
  accounts s' = accounts s ->
  account_balances s' = map g (account_balances s) ->
  (forall ab, ab_account_id (g ab) = ab_account_id ab) ->
  accounts_join_assets_balances asset_types p s'
  = map (fun x => (fst x, g (snd x)))
      (accounts_join_assets_balances asset_types p s).
Proof.
  intros Ea Eb Hg. unfold accounts_join_assets_balances.
  rewrite Ea, Eb, <- flat_map_map_out. apply flat_map_ext. intros a.
  rewrite <- flat_map_map_out. apply flat_map_ext. intros k.
  rewrite filter_map_kept by (intros ab; rewrite Hg; reflexivity).
  rewrite !map_map. reflexivity.
Qed.

(** The balance read after a flow that has run afresh. *)
Lemma getBalance_after_flow_fresh (asset_types : list asset_types_row) (f : flow)
  (r : request) (i : inputs) (s s' : session) (resp : response)
  (cp user : Account) (a uN sN : numeric) :
  fresh_run f r i s resp s' cp user a uN sN ->
  id cp <> req_accountId r ->
  toNumeric (balanceAfter resp) = Some uN /\
  getBalance asset_types (req_accountId r) s'
  = match getBalance asset_types (req_accountId r) s with
    | Ok v => Ok (balance_view_moved uN (NOW s) v)
    | Throw e => Throw e
    end.
Proof.
  intros F Hne.
  destruct F as (_ & _ & H3 & _ & _ & _ & _ & Eu & _ & -> & ->).
  split; [exact Eu|].
  pose proof (find_account_id _ _ _ H3) as Hu.
  pose proof (system_account_id r cp s) as Hs.
  set (x := req_accountId r) in *.
  set (sys := system_account r cp s) in *.
  destruct (flow_written_tables f r i cp user a uN sN s)
    as (Ea & Eb & _).
  fold sys in Eb.
  set (g := fun ab =>
              update_row (id (credit_account f user sys))
                (match f with Spend => sN | _ => uN end) (NOW s)
                (update_row (id (debit_account f user sys))
                   (match f with Spend => uN | _ => sN end) (NOW s) ab)).
  assert (Eb' : account_balances (flow_written f r i cp user a uN sN s)
                = map g (account_balances s))
    by (rewrite Eb, map_map; reflexivity).
  assert (Hg : forall ab, ab_account_id (g ab) = ab_account_id ab)
    by (intros ab; unfold g; rewrite !update_row_account_id; reflexivity).
  unfold getBalance, select_balance.
  rewrite (find_account_canonical _ _ _ _ H3).
  rewrite (accounts_join_assets_balances_map asset_types _ s _ g Ea Eb' Hg).
  fold (select_balance asset_types x s).
  destruct (select_balance asset_types x s) as [|[[a0 k0] ab0] l] eqn:E;
    [reflexivity|].
  cbn [map fst snd]. f_equal.
  assert (Hin : In (a0, k0, ab0) (select_balance asset_types x s))
    by (rewrite E; left; reflexivity).
  apply accounts_join_assets_balances_In in Hin
    as (_ & _ & _ & _ & Hp & Eab).
  cbn [fst snd] in *. apply andb_true_iff in Hp as (Hx & _).
  apply String.eqb_eq in Hx.
  assert (Eab0 : ab_account_id ab0 = x) by congruence.
  assert (Nsys : String.eqb x (id sys) = false)
    by (apply String.eqb_neq; rewrite Hs; congruence).
  unfold balance_view_moved, balance_view_of, g, update_row.
  destruct f; cbn [debit_account credit_account];
    rewrite ?Hu, ?Eab0, ?String.eqb_refl, ?Nsys;
    cbn [ab_account_id ab_balance ab_version ab_updated_at bv_accountId
         bv_externalId bv_name bv_accountType bv_asset_code bv_asset_name
         bv_version];
    rewrite ?Hu, ?Eab0, ?String.eqb_refl, ?Nsys;
    reflexivity.
Qed.

(** The balance of the response against the balance read before. *)
Lemma flow_balance_before_fresh (asset_types : list asset_types_row) (f : flow)
  (r : request) (i : inputs) (s s' : session) (resp : response)
  (cp user : Account) (a uN sN : numeric) (v : balance_view) :
  fresh_run f r i s resp s' cp user a uN sN ->
  one_balance_row_per_account s ->
  getBalance asset_types (req_accountId r) s = Ok v ->
  balanceAfter resp
  = match f with
    | Spend => (bv_balance v - req_amount r)%float
    | _ => (bv_balance v + req_amount r)%float
    end.
Proof.
  intros F Hpk Hv.
  destruct F as (_ & _ & H3 & _ & _ & _ & _ & _ & _ & -> & _).
  apply (getBalance_Ok _ _ _ _ _ (find_account_canonical _ _ _ _ H3)) in Hv
    as (a0 & k0 & ab0 & l & _ & -> & Hab0 & Eab0).
  pose proof (find_account_id _ _ _ H3) as Hu.
  unfold find_account in H3. apply find_some in H3 as (Hin & _).
  apply select_accounts_for_update_In in Hin
    as (_ & a1 & ab1 & _ & _ & _ & Hab1 & Eab1 & ->).
  cbn [id join_row] in Hu.
  assert (E : ab1 = ab0).
  { apply (NoDup_map_eq ab_account_id (account_balances s)); auto.
    congruence. }
  subst ab1. cbn [flow_response balanceAfter balance_view_of bv_balance].
  destruct f; reflexivity.
Qed.

(** X13. Reading the balance after a flow.  After a flow that has run afresh
    against another account, [getBalance] on the user account returns what
    it returned before with the balance of the response as the store has
    rounded it to eight digits, the next version, and the start time of the
    transaction as the time of the update. *)
Theorem getBalance_after_flow (asset_types : list asset_types_row) (f : flow)
  (r : request) (i : inputs) (s s' : session) (resp : response)
  (cp : Account) (uN : numeric) :
  first_row (select_idempotency_key (req_referenceId r) s) = None ->
  flow_body f r i s = (Ok resp, s') ->
  first_row (select_account_by_external_id (counterparty f) s) = Some cp ->
  id cp <> req_accountId r ->
  toNumeric (balanceAfter resp) = Some uN ->
  getBalance asset_types (req_accountId r) s'
  = match getBalance asset_types (req_accountId r) s with
    | Ok v => Ok (balance_view_moved uN (NOW s) v)
    | Throw e => Throw e
    end.
Proof.
  intros H1 E H2 Hne Eu.
  destruct (flow_body_fresh_run f r i s s' resp H1 E)
    as (cp' & user & a & uN' & sN & F & Eu').
  assert (cp' = cp) by (destruct F as (_ & K & _); congruence).
  assert (uN' = uN) by congruence.
  subst cp' uN'.
  exact (proj2 (getBalance_after_flow_fresh asset_types f r i s s' resp cp
                  user a uN sN F Hne)).
Qed.

(** X14. The balance of the response against the balance read before.  On a
    store that has one balance row per account, the response of a flow
    that has run afresh carries as [balanceAfter] the balance [getBalance]
    returned before plus the amount, for a top-up or a bonus, or minus the
    amount, for a spend: the sum or difference of the two numbers in
    binary64. *)
Theorem flow_balance_before (asset_types : list asset_types_row) (f : flow)
  (r : request) (i : inputs) (s s' : session) (resp : response)
  (v : balance_view) :
  first_row (select_idempotency_key (req_referenceId r) s) = None ->
  flow_body f r i s = (Ok resp, s') ->
  one_balance_row_per_account s ->
  getBalance asset_types (req_accountId r) s = Ok v ->
  balanceAfter resp
  = match f with
    | Spend => (bv_balance v - req_amount r)%float
    | _ => (bv_balance v + req_amount r)%float
    end.
Proof.
  intros H1 E Hpk Hv.
  destruct (flow_body_fresh_run f r i s s' resp H1 E)
    as (cp & user & a & uN & sN & F & _).
  exact (flow_balance_before_fresh asset_types f r i s s' resp cp user a uN sN
           v F Hpk Hv).
Qed.

Lemma seed_one_balance_row_per_account : one_balance_row_per_account Seed.db.
Proof.
  unfold one_balance_row_per_account.
  cbn [Seed.db account_balances map Seed.balance_row ab_account_id].
  repeat constructor; cbn [In]; intuition discriminate.
Qed.

Lemma topup_alice_runs :
  first_row (select_idempotency_key (req_referenceId topup_alice) Seed.db)
  = None /\
  flow_body TopUp topup_alice (Seed.ins 0) Seed.db
  = (Ok topup_alice_response, topup_alice_done) /\
  first_row (select_account_by_external_id (counterparty TopUp) Seed.db)
  = Some seed_treasury_read /\
  id seed_treasury_read <> req_accountId topup_alice /\
  toNumeric (req_amount topup_alice) = Some (100 * Zpos scale) /\
  toNumeric (balanceAfter topup_alice_response) = Some (600 * Zpos scale).
Proof.
  split; [reflexivity|]. split; [vm_compute; reflexivity|].
  split; [vm_compute; reflexivity|]. split; [vm_compute; discriminate|].
  split; vm_compute; reflexivity.
Qed.

Lemma getBalance_after_flow_witness :
  getBalance seed_asset_types Seed.alice Seed.db = Ok seed_alice_view /\
  getBalance seed_asset_types Seed.alice topup_alice_done
  = Ok (balance_view_moved (600 * Zpos scale) 0 seed_alice_view).
Proof.
  destruct topup_alice_runs as (H1 & E & H2 & N & _ & Eu).
  pose proof (getBalance_after_flow seed_asset_types _ _ _ _ _ _ _ _
                H1 E H2 N Eu) as H.
  split; [vm_compute; reflexivity|].
  etransitivity; [exact H|]. vm_compute. reflexivity.
Defined.

Lemma flow_balance_before_witness :
  getBalance seed_asset_types Seed.alice Seed.db = Ok seed_alice_view /\
  balanceAfter topup_alice_response
  = (bv_balance seed_alice_view + req_amount topup_alice)%float.
Proof.
  destruct topup_alice_runs as (H1 & E & _).
  assert (V : getBalance seed_asset_types (req_accountId topup_alice) Seed.db
              = Ok seed_alice_view) by (vm_compute; reflexivity).
  split; [exact V|].
  exact (flow_balance_before seed_asset_types _ _ _ _ _ _ _
           H1 E seed_one_balance_row_per_account V).
Defined.

(** ** The history after a flow *)

Lemma order_by_desc_latest {A} (key : A -> Z) (l : list A) (e : A) :
  (forall y, In y l -> key y < key e) ->
  order_by_desc key (l ++ [e]) = e :: order_by_desc key l.
Proof.
  unfold order_by_desc. rewrite fold_right_app. cbn [fold_right insert_desc].
  induction l as [|x l IH]; intros H; [reflexivity|].
  cbn [fold_right]. rewrite IH by (intros y Hy; apply H; right; exact Hy).
  cbn [insert_desc].
  rewrite (proj2 (Z.leb_gt _ _) (H x (or_introl eq_refl))). reflexivity.
Qed.

Lemma flat_map_ext_In {A B} (F G : A -> list B) (l : list A) :
  (forall x, In x l -> F x = G x) -> flat_map F l = flat_map G l.
Proof.
  induction l as [|x l IH]; intros H; [reflexivity|].
  cbn [flat_map]. rewrite (H x (or_introl eq_refl)).
  rewrite IH by (intros y Hy; apply H; right; exact Hy). reflexivity.
Qed.

Lemma filter_none {A} (q : A -> bool) (l : list A) :
  (forall x, In x l -> q x = false) -> filter q l = [].
Proof.
  induction l as [|x l IH]; intros H; [reflexivity|].
  cbn [filter]. rewrite (H x (or_introl eq_refl)).
  apply IH. intros y Hy. apply H. right. exact Hy.
Qed.

Lemma transactions_conflict_id (txId : uuid) (reference : string)
  (s : session) (t : transactions_row) :
  transactions_conflict txId reference s = false ->
  In t (transactions s) -> t_id t <> txId.
Proof.
  unfold transactions_conflict. intros H Hin E.
  assert (K : existsb (fun t => String.eqb (t_id t) txId
                                || String.eqb (t_reference_id t) reference)
                (transactions s) = true).
  { apply existsb_exists. exists t. split; [exact Hin|].
    rewrite E, String.eqb_refl. reflexivity. }
  rewrite K in H. discriminate.
Qed.

Lemma history_rows_written (f : flow) (r : request) (i : inputs)
  (cp user : Account) (a uN sN : numeric) (s : session) :
  find_account (req_accountId r) (flow_rows r cp s) = Some user ->
  transactions_conflict (uuidv4 i) (req_referenceId r) s = false ->
  id cp <> req_accountId r ->
  referential s ->
  history_rows (req_accountId r) None (flow_written f r i cp user a uN sN s)
  = history_rows (req_accountId r) None s
    ++ [(user_entry f r i user a uN, flow_transaction f r i (NOW s))].
Proof.
  intros H3 H6 Hne Href.
  pose proof (find_account_id _ _ _ H3) as Hu.
  pose proof (system_account_id r cp s) as Hs.
  set (x := req_accountId r) in *.
  unfold history_rows.
  destruct (flow_written_tables f r i cp user a uN sN s)
    as (_ & _ & -> & -> & _).
  set (sys := system_account r cp s) in *.
  fold (flow_transaction f r i (NOW s)).
  assert (Nsys : String.eqb (id sys) x = false)
    by (apply String.eqb_neq; rewrite Hs; exact Hne).
  rewrite filter_app, flat_map_app. f_equal.
  - apply flat_map_ext_In. intros le Hle.
    apply filter_In in Hle as (Hle & _).
    rewrite filter_app. cbn [filter flow_transaction t_id].
    destruct (Href le Hle) as (t & Ht & Et).
    pose proof (transactions_conflict_id _ _ _ t H6 Ht) as Nt.
    rewrite Et in Nt.
    rewrite (proj2 (String.eqb_neq _ _) (not_eq_sym Nt)). cbn [andb].
    rewrite app_nil_r. reflexivity.
  - assert (E : filter (fun le => String.eqb (le_account_id le) x)
                  [ledger_entry (uuidv4 i) (id (debit_account f user sys))
                     (asset_type_id user) a
                     (match f with Spend => uN | _ => sN end);
                   ledger_entry (uuidv4 i) (id (credit_account f user sys))
                     (asset_type_id user) (- a)
                     (match f with Spend => sN | _ => uN end)]
                = [user_entry f r i user a uN]).
    { cbn [filter ledger_entry le_account_id]. unfold user_entry. fold x.
      destruct f; cbn [debit_account credit_account signed];
        rewrite Hu, Nsys, String.eqb_refl; rewrite ?Z.opp_involutive;
        reflexivity. }
    rewrite E. cbn [flat_map]. rewrite app_nil_r, filter_app.
    assert (N : filter
                  (fun t => String.eqb (t_id t)
                              (le_transaction_id (user_entry f r i user a uN))
                            && true) (transactions s) = []).
    { apply filter_none. intros t Ht.
      unfold user_entry, ledger_entry. cbn [le_transaction_id].
      rewrite (proj2 (String.eqb_neq _ _)
                 (transactions_conflict_id _ _ _ t H6 Ht)).
      reflexivity. }
    rewrite N. cbn [app filter flow_transaction t_id].
    unfold user_entry at 1, ledger_entry at 1. cbn [le_transaction_id].
    rewrite String.eqb_refl. reflexivity.
Qed.

(** The history after a flow that has run afresh. *)
Lemma flow_history_fresh (f : flow) (r : request) (i : inputs) (s s' : session)
  (resp : response) (cp user : Account) (a uN sN : numeric) (lim : Z) :
  fresh_run f r i s resp s' cp user a uN sN ->
  id cp <> req_accountId r ->
  referential s -> all_before (NOW s) s -> 1 <= lim ->
  let x := req_accountId r in
  let e := (user_entry f r i user a uN, flow_transaction f r i (NOW s)) in
  history_rows x None s' = history_rows x None s ++ [e] /\
  history_entry_of e
  = {| h_transactionId := transactionId resp;
       h_type := type resp;
       h_referenceId := referenceId resp;
       h_description := description resp;
       h_metadata := or_default (req_metadata r) "{}";
       h_amount := (- parseFloat (- signed f a)%Z)%float;
       h_balanceAfter := parseFloat uN;
       h_createdAt := NOW s |} /\
  exists rest,
    fst (getTransactionHistory x (Some lim) (Some 0) None s')
    = Ok {| p_accountId := x;
            total := Z.of_nat (List.length (history_rows x None s)) + 1;
            limit := lim; offset := 0;
            entries := history_entry_of e :: rest |}.
Proof.
  intros F Hne Href Hbefore Hlim. cbv zeta.
  destruct F as (_ & _ & H3 & _ & _ & H6 & _ & _ & _ & -> & ->).
  pose proof (history_rows_written f r i cp user a uN sN s H3 H6 Hne Href)
    as E.
  split; [exact E|]. split; [reflexivity|].
  pose proof (find_account_canonical _ _ _ _ H3) as Ecan.
  assert (Hact : account_active (req_accountId r)
                   (flow_written f r i cp user a uN sN s)).
  { pose proof (find_account_id _ _ _ H3) as Hu.
    destruct (flow_written_tables f r i cp user a uN sN s) as (Eacc & _).
    unfold find_account in H3. apply find_some in H3 as (Hin & _).
    apply select_accounts_for_update_In in Hin
      as (_ & a1 & ab1 & Ha & _ & Act & _ & _ & Euser).
    rewrite Euser in Hu. cbn [id join_row] in Hu. exists a1.
    rewrite Eacc. auto. }
  rewrite (getTransactionHistory_run _ _ (Some lim) (Some 0) None None _
             Ecan Hact eq_refl) by lia.
  cbn [fst]. rewrite E, length_app. cbn [List.length].
  rewrite order_by_desc_latest.
  - cbn [Z.to_nat skipn].
    destruct (Z.to_nat lim) as [|n] eqn:En; [lia|].
    cbn [firstn map]. eexists. f_equal. f_equal. lia.
  - intros y Hy. apply history_rows_In in Hy as (_ & Ht & _).
    cbn [snd flow_transaction t_created_at]. apply Hbefore. exact Ht.
Qed.

(** X15. The history after a flow.  Let a flow run afresh against another
    account on a store whose journal entries all belong to a transaction.
    The entries of the user account joined with their transactions are
    then the ones of before and one more: the entry of the new
    transaction, which shows the amount with the sign of the user's gain,
    the new balance as the store keeps it, and the identity, category,
    reference and description of the response.  When the transactions of
    before all started earlier, a history query with a limit of at least 1
    returns it first, with a total that has grown by one. *)
Theorem flow_history (f : flow) (r : request) (i : inputs) (s s' : session)
  (resp : response) (cp : Account) (a uN : numeric) (lim : Z) :
  first_row (select_idempotency_key (req_referenceId r) s) = None ->
  flow_body f r i s = (Ok resp, s') ->
  first_row (select_account_by_external_id (counterparty f) s) = Some cp ->
  id cp <> req_accountId r ->
  toNumeric (req_amount r) = Some a ->
  toNumeric (balanceAfter resp) = Some uN ->
  referential s -> all_before (NOW s) s -> 1 <= lim ->
  let x := req_accountId r in
  exists e,
    history_rows x None s' = history_rows x None s ++ [e] /\
    history_entry_of e
    = {| h_transactionId := transactionId resp;
         h_type := type resp;
         h_referenceId := referenceId resp;
         h_description := description resp;
         h_metadata := or_default (req_metadata r) "{}";
         h_amount := (- parseFloat (- signed f a)%Z)%float;
         h_balanceAfter := parseFloat uN;
         h_createdAt := NOW s |} /\
    exists rest,
      fst (getTransactionHistory x (Some lim) (Some 0) None s')
      = Ok {| p_accountId := x;
              total := Z.of_nat (List.length (history_rows x None s)) + 1;
              limit := lim; offset := 0;
              entries := history_entry_of e :: rest |}.
Proof.
  intros H1 E H2 Hne Ea Eu Href Hbefore Hlim.
  destruct (flow_body_fresh_run f r i s s' resp H1 E)
    as (cp' & user & a' & uN' & sN & F & Eu').
  assert (cp' = cp) by (destruct F as (_ & K & _); congruence).
  assert (a' = a) by (destruct F as (_ & _ & _ & _ & _ & _ & K & _); congruence).
  assert (uN' = uN) by congruence.
  subst cp' a' uN'. cbv zeta.
  exists (user_entry f r i user a uN, flow_transaction f r i (NOW s)).
  exact (flow_history_fresh f r i s s' resp cp user a uN sN lim F Hne Href
           Hbefore Hlim).
Qed.

Lemma flow_history_witness :
  exists rest,
    fst (getTransactionHistory Seed.alice (Some 1) (Some 0) None
           (snd (topUpWallet_body topup_alice (Seed.ins 0) seed_later)))
    = Ok {| p_accountId := Seed.alice; total := 2; limit := 1; offset := 0;
            entries :=
              {| h_transactionId := uuidv4 (Seed.ins 0);
                 h_type := TOP_UP;
                 h_referenceId := "r1";
                 h_description := "Wallet top-up";
                 h_metadata := "{}";
                 h_amount := 100%float;
                 h_balanceAfter := 600%float;
                 h_createdAt := 1000 |} :: rest |}.
Proof.
  assert (H1 : first_row (select_idempotency_key (req_referenceId topup_alice)
                            seed_later) = None) by reflexivity.
  assert (E : flow_body TopUp topup_alice (Seed.ins 0) seed_later
              = (Ok topup_alice_response,
                 snd (topUpWallet_body topup_alice (Seed.ins 0) seed_later)))
    by (vm_compute; reflexivity).
  assert (H2 : first_row (select_account_by_external_id
                            (counterparty TopUp) seed_later)
               = Some seed_treasury_read) by (vm_compute; reflexivity).
  assert (N : id seed_treasury_read <> req_accountId topup_alice)
    by (vm_compute; discriminate).
  assert (Ea : toNumeric (req_amount topup_alice) = Some (100 * Zpos scale))
    by (vm_compute; reflexivity).
  assert (Eu : toNumeric (balanceAfter topup_alice_response)
               = Some (600 * Zpos scale)) by (vm_compute; reflexivity).
  assert (R : referential seed_later)
    by (apply referential_check; vm_compute; reflexivity).
  assert (B : all_before (NOW seed_later) seed_later).
  { intros t Ht. cbn in Ht.
    destruct Ht as [<- | [<- | [<- | []]]]; reflexivity. }
  destruct (flow_history _ _ _ _ _ _ _ _ _ 1 H1 E H2 N Ea Eu R B)
    as (e & _ & He & rest & H); [lia|].
  exists rest. etransitivity; [exact H|]. rewrite He.
  vm_compute. reflexivity.
Defined.

(** ** The list of accounts *)











(** ** The handlers of the queries *)

(** X18. The balance handler and the audit handler on an id that does not
    lead to an account.  An id the store cannot read as a uuid makes both
    queries fail (22P02), and both handlers answer 500 INTERNAL_ERROR.
    Otherwise the store compares the uuid read from the id, whatever its
    spelling.  [getBalance] looks the account up in accounts: for a uuid
    that has no active account it replies 404 with the code
    ACCOUNT_NOT_FOUND.  The audit reads account_balances and the journal
    only: it reports on any uuid that has a balance row, whatever accounts
    holds, so also on an inactive account, repeating the id as it was
    asked; for a uuid without a balance row it replies 404, and since its
    error carries no code, with the code INTERNAL_ERROR. *)
Theorem query_handlers_not_found (asset_types : list asset_types_row)
  (x : string) (s : session) :
  (uuid_in x = None ->
   Controller.getBalance asset_types x s
   = failure {| ej_status := 500; ej_code := "INTERNAL_ERROR";
                ej_message := internal_error_message |} /\
   Controller.auditBalance x s
   = failure {| ej_status := 500; ej_code := "INTERNAL_ERROR";
                ej_message := internal_error_message |}) /\
  (forall u, uuid_in x = Some u ->
     ((forall a, In a (accounts s) -> a_id a = u -> a_is_active a = false) ->
      Controller.getBalance asset_types x s
      = failure {| ej_status := 404; ej_code := "ACCOUNT_NOT_FOUND";
                   ej_message := err_message |}) /\
     ((forall ab, In ab (account_balances s) -> ab_account_id ab <> u) ->
      Controller.auditBalance x s
      = failure {| ej_status := 404; ej_code := "INTERNAL_ERROR";
                   ej_message := err_message |}) /\
     (forall ab, In ab (account_balances s) -> ab_account_id ab = u ->
        one_balance_row_per_account s ->
        exists report,
          Controller.auditBalance x s = success 200 report /\
          r_accountId report = x /\
          cachedBalance report = parseFloat (ab_balance ab) /\
          ledgerBalance report = parseFloat (- journal_sum u s) /\
          (isConsistent report = true <->
           ab_balance ab + journal_sum u s = 0))) /\
  (forall s2, account_balances s2 = account_balances s ->
              ledger_entries s2 = ledger_entries s ->
              Controller.auditBalance x s2 = Controller.auditBalance x s).
Proof.
  split; [|split].
  - intros Hx. unfold Controller.getBalance, Controller.auditBalance, getBalance.
    rewrite (run_verifyLedgerIntegrity_invalid _ _ Hx), Hx.
    split; reflexivity.
  - intros u Hx. split; [|split].
    + intros H. unfold Controller.getBalance, getBalance, select_balance.
      rewrite Hx.
      destruct (accounts_join_assets_balances asset_types _ s)
        as [|[[a k] ab] l] eqn:E; [reflexivity|]. exfalso.
      assert (Hin : In (a, k, ab)
                      (accounts_join_assets_balances asset_types
                         (fun a _ => String.eqb (a_id a) u && a_is_active a)
                         s))
        by (rewrite E; left; reflexivity).
      apply accounts_join_assets_balances_In in Hin
        as (Ha & _ & _ & _ & Hp & _).
      cbn [fst snd] in *. apply andb_true_iff in Hp as (Hu & Act).
      apply String.eqb_eq in Hu. rewrite (H a Ha Hu) in Act. discriminate.
    + intros H. unfold Controller.auditBalance.
      rewrite (run_verifyLedgerIntegrity _ _ _ Hx),
        verify_balance_integrity_rows.
      assert (E : balance_rows u s = []).
      { unfold balance_rows. apply filter_none. intros ab Hab.
        apply String.eqb_neq. exact (H ab Hab). }
      rewrite E. reflexivity.
    + intros ab Hab Eab Hpk. unfold Controller.auditBalance.
      rewrite (run_verifyLedgerIntegrity _ _ _ Hx),
        verify_balance_integrity_rows.
      destruct (balance_rows u s) as [|ab' l] eqn:E.
      * exfalso.
        assert (Hin : In ab (balance_rows u s)).
        { apply filter_In. split; [exact Hab|].
          apply String.eqb_eq. exact Eab. }
        rewrite E in Hin. destruct Hin.
      * assert (Hin : In ab' (balance_rows u s))
          by (rewrite E; left; reflexivity).
        apply filter_In in Hin as (Hab' & Eab').
        apply String.eqb_eq in Eab'.
        assert (ab' = ab).
        { apply (NoDup_map_eq ab_account_id (account_balances s)); auto.
          congruence. }
        subst ab'. cbn [map fst Controller.ok].
        eexists. split; [reflexivity|].
        cbn [r_accountId cachedBalance ledgerBalance isConsistent
             cached_balance ledger_balance is_consistent].
        split; [reflexivity|]. split; [reflexivity|]. split; [reflexivity|].
        rewrite Z.ltb_lt. lia.
  - intros s2 Eb El. unfold Controller.auditBalance.
    destruct (uuid_in x) as [u|] eqn:Hx.
    + rewrite !(run_verifyLedgerIntegrity _ _ _ Hx),
        !verify_balance_integrity_rows.
      unfold balance_rows, journal_sum. rewrite Eb, El.
      destruct (map _ (filter _ (account_balances s))); reflexivity.
    + rewrite !(run_verifyLedgerIntegrity_invalid _ _ Hx). reflexivity.
Qed.

Lemma query_handlers_not_found_witness :
  Controller.getBalance seed_asset_types Seed.bob bob_inactive
  = failure {| ej_status := 404; ej_code := "ACCOUNT_NOT_FOUND";
               ej_message := err_message |} /\
  Controller.auditBalance Seed.bob bob_inactive
  = Controller.auditBalance Seed.bob Seed.db /\
  Controller.auditBalance nobody Seed.db
  = failure {| ej_status := 404; ej_code := "INTERNAL_ERROR";
               ej_message := err_message |} /\
  Controller.auditBalance "alice"%string Seed.db
  = failure {| ej_status := 500; ej_code := "INTERNAL_ERROR";
               ej_message := internal_error_message |} /\
  Controller.auditBalance ALICE Seed.db
  = success 200
      {| r_accountId := ALICE; cachedBalance := 500%float;
         ledgerBalance := 500%float; isConsistent := true;
         discrepancy := 0%float |}.
Proof.
  destruct (query_handlers_not_found seed_asset_types Seed.bob Seed.db)
    as (_ & _ & H4).
  destruct (query_handlers_not_found seed_asset_types Seed.bob bob_inactive)
    as (_ & H1 & _).
  destruct (query_handlers_not_found seed_asset_types nobody Seed.db)
    as (_ & H2 & _).
  destruct (query_handlers_not_found seed_asset_types "alice"%string Seed.db)
    as (H3 & _).
  repeat match goal with |- _ /\ _ => split end.
  - apply (proj1 (H1 Seed.bob eq_refl)). intros a Ha Ea. cbn in Ha.
    repeat (destruct Ha as [<- | Ha]; [first [reflexivity | discriminate]|]).
    destruct Ha.
  - apply H4; reflexivity.
  - apply (proj1 (proj2 (H2 nobody eq_refl))). intros ab Hab. cbn in Hab.
    repeat (destruct Hab as [<- | Hab]; [discriminate|]).
    destruct Hab.
  - apply (proj2 (H3 eq_refl)).
  - vm_compute. reflexivity.
Defined.

(** ** The seed script *)

Lemma seed_script_first (t0 : Z) :
  seed_script t0 empty_database
  = Ok (seed_asset_types, seeded_tables t0 t0 (ledger_entries Seed.db)).
Proof. vm_compute. reflexivity. Qed.

Lemma seed_script_again (t0 t t' : Z) (l : list ledger_entries_row) :
  seed_script t' (seed_asset_types, seeded_tables t0 t l)
  = Ok (seed_asset_types, seeded_tables t0 t' (l ++ ledger_entries Seed.db)).
Proof.
  cbv beta iota zeta delta -[app]. rewrite <- !app_assoc. reflexivity.
Qed.

Lemma last_cons {A} (x d : A) (l : list A) : last (x :: l) d = last l x.
Proof.
  revert x d. induction l as [|y l IH]; intros x d; [reflexivity|].
  change (last (x :: y :: l) d) with (last (y :: l) d).
  rewrite !IH. reflexivity.
Qed.

Lemma seed_runs_again (t0 : Z) (later : list Z) :
  forall (t : Z) (n : nat),
    seed_runs later
      (seed_asset_types,
       seeded_tables t0 t (copies n (ledger_entries Seed.db)))
    = Some (seed_asset_types,
            seeded_tables t0 (last later t)
              (copies (n + List.length later) (ledger_entries Seed.db))).
Proof.
  induction later as [|t' later IH]; intros t n.
  - cbn [seed_runs last List.length]. rewrite Nat.add_0_r. reflexivity.
  - cbn [seed_runs]. rewrite seed_script_again.
    change (copies n (ledger_entries Seed.db) ++ ledger_entries Seed.db)
      with (copies (S n) (ledger_entries Seed.db)).
    rewrite IH, last_cons. cbn [List.length].
    rewrite Nat.add_succ_r. reflexivity.
Qed.

Lemma sum_copies (q : ledger_entries_row -> bool) (n : nat)
  (l : list ledger_entries_row) :
  fold_right Z.add 0 (map le_amount (filter q (copies n l)))
  = Z.of_nat n * fold_right Z.add 0 (map le_amount (filter q l)).
Proof.
  induction n as [|n IH]; [reflexivity|].
  cbn [copies]. rewrite filter_app, map_app, fold_right_app.
  assert (A : forall (a b : list Z),
                fold_right Z.add (fold_right Z.add 0 b) a
                = fold_right Z.add 0 a + fold_right Z.add 0 b).
  { intros a b. induction a as [|x a IHa]; cbn [fold_right]; lia. }
  rewrite A, IH. lia.
Qed.

Lemma In_copies {A} (n : nat) (l : list A) (x : A) :
  In x (copies n l) -> In x l.
Proof.
  induction n as [|n IH]; [intros []|].
  cbn [copies]. intros H. apply in_app_or in H as [H | H]; auto.
Qed.

(** X19. The seed script on an empty database gives the seeded store, and
    it can be run again, at any later times, without error, but not
    without effect.  After any number of runs the asset types, the
    accounts and the transactions are the ones of the first run, and so
    are the amounts and versions of the balance rows; the balance rows of
    the three users, which the script writes again, carry the time of the
    last run; and the journal holds the six opening entries once per run,
    since their INSERT never conflicts.  The entries of every transaction
    still cancel.  The audit finds the balance of a user consistent after
    the first run only, and the balance of the Gold Coins treasury, which
    the script leaves at 0 while it debits the treasury in the journal,
    never. *)
Theorem seed_script_runs (t0 : Z) (later : list Z) :
  let n := S (List.length later) in
  let t := last later t0 in
  seed_script 0 empty_database = Ok (seed_asset_types, Seed.db) /\
  exists db,
    seeded (t0 :: later) = Some (seed_asset_types, db) /\
    accounts db = accounts Seed.db /\
    map (fun ab => (ab_account_id ab, ab_asset_type_id ab, ab_balance ab,
                    ab_version ab)) (account_balances db)
    = map (fun ab => (ab_account_id ab, ab_asset_type_id ab, ab_balance ab,
                      ab_version ab)) (account_balances Seed.db) /\
    map (fun ab => (ab_account_id ab, ab_updated_at ab)) (account_balances db)
    = [(Seed.treasury_gold, t0); (Seed.treasury_diamonds, t0);
       (Seed.treasury_loyalty, t0); (Seed.revenue_gold, t0);
       (Seed.bonus_gold, t0);
       (Seed.alice, t); (Seed.bob, t); (Seed.charlie, t)] /\
    map (fun x => (t_id x, t_type x, t_reference_id x, t_description x,
                   t_metadata x)) (transactions db)
    = map (fun x => (t_id x, t_type x, t_reference_id x, t_description x,
                     t_metadata x)) (transactions Seed.db) /\
    map t_created_at (transactions db) = [t0; t0; t0] /\
    ledger_entries db = copies n (ledger_entries Seed.db) /\
    List.length (ledger_entries db) = (6 * n)%nat /\
    balanced db /\ referential db /\
    verify_balance_integrity Seed.alice db
    = [{| cached_balance := 500 * Zpos scale;
          ledger_balance := Z.of_nat n * (500 * Zpos scale);
          is_consistent := (n =? 1)%nat |}] /\
    verify_balance_integrity Seed.treasury_gold db
    = [{| cached_balance := 0;
          ledger_balance := - (Z.of_nat n * (700 * Zpos scale));
          is_consistent := false |}].
Proof.
  intros n t.
  assert (B0 : balanced Seed.db)
    by (apply balanced_check; vm_compute; reflexivity).
  assert (R0 : referential Seed.db)
    by (apply referential_check; vm_compute; reflexivity).
  split; [vm_compute; reflexivity|].
  set (db := seeded_tables t0 t (copies n (ledger_entries Seed.db))).
  exists db.
  assert (Len : forall k, List.length (copies k (ledger_entries Seed.db))
                          = (6 * k)%nat).
  { induction k as [|k IH]; [reflexivity|].
    cbn [copies]. rewrite length_app, IH. cbn [ledger_entries Seed.db List.length].
    lia. }
  repeat match goal with |- _ /\ _ => split end; try reflexivity.
  - unfold seeded. cbn [seed_runs]. rewrite seed_script_first.
    change (ledger_entries Seed.db) with (copies 1 (ledger_entries Seed.db)) at 1.
    rewrite seed_runs_again. reflexivity.
  - apply Len.
  - intros tx. subst db. cbn [ledger_entries seeded_tables].
    unfold transaction_sum. rewrite sum_copies.
    pose proof (B0 tx) as K. unfold transaction_sum in K. rewrite K. lia.
  - intros le Hin. subst db. cbn [ledger_entries seeded_tables] in Hin.
    apply In_copies in Hin. destruct (R0 le Hin) as (x & Hx & Ex).
    exists {| t_id := t_id x; t_type := t_type x;
              t_reference_id := t_reference_id x;
              t_description := t_description x;
              t_metadata := t_metadata x; t_created_at := t0 |}.
    split; [|exact Ex].
    cbn [transactions seeded_tables].
    apply (in_map (fun x => {| t_id := t_id x; t_type := t_type x;
                               t_reference_id := t_reference_id x;
                               t_description := t_description x;
                               t_metadata := t_metadata x;
                               t_created_at := t0 |})). exact Hx.
  - rewrite verify_balance_integrity_cached.
    assert (J : journal_sum Seed.alice db
                = Z.of_nat n * (- (500 * Zpos scale))).
    { subst db. unfold journal_sum. cbn [ledger_entries seeded_tables].
      rewrite sum_copies. f_equal. }
    rewrite J.
    change (cached Seed.alice db) with [(500 * Zpos scale, 0)].
    cbn [map fst]. f_equal. f_equal; try lia.
    subst n. destruct (List.length later) as [|k]; [reflexivity|].
    cbn [Nat.eqb]. apply Z.ltb_ge. unfold scale. lia.
  - rewrite verify_balance_integrity_cached.
    assert (J : journal_sum Seed.treasury_gold db
                = Z.of_nat n * (700 * Zpos scale)).
    { subst db. unfold journal_sum. cbn [ledger_entries seeded_tables].
      rewrite sum_copies. f_equal. }
    rewrite J.
    change (cached Seed.treasury_gold db) with [(0, 0)].
    cbn [map fst]. f_equal. f_equal.
    apply Z.ltb_ge. unfold scale. lia.
Qed.

Lemma seed_script_runs_witness :
  seeded [0] = Some (seed_asset_types, Seed.db) /\
  exists db,
    seeded [0; 7; 5] = Some (seed_asset_types, db) /\
    map (fun ab => (ab_account_id ab, ab_updated_at ab)) (account_balances db)
    = [(Seed.treasury_gold, 0); (Seed.treasury_diamonds, 0);
       (Seed.treasury_loyalty, 0); (Seed.revenue_gold, 0);
       (Seed.bonus_gold, 0);
       (Seed.alice, 5); (Seed.bob, 5); (Seed.charlie, 5)] /\
    List.length (ledger_entries db) = 18%nat /\
    verify_balance_integrity Seed.alice db
    = [{| cached_balance := 50000000000;
          ledger_balance := 150000000000;
          is_consistent := false |}].
Proof.
  split; [vm_compute; reflexivity|].
  destruct (seed_script_runs 0 [7; 5])
    as (_ & db & E & _ & _ & U & _ & _ & _ & L & _ & _ & A & _).
  exists db. split; [exact E|]. split; [exact U|]. split; [exact L|exact A].
Defined.

(** ** Whole numbers in binary64 *)

Lemma digits2_pos_unique (p : positive) (d : Z) :
  2 ^ (d - 1) <= Zpos p < 2 ^ d -> Zpos (digits2_pos p) = d.
Proof.
  intros [L U]. pose proof (digits2_pos_bounds p) as [L' U'].
  set (d' := Zpos (digits2_pos p)) in *.
  assert (Hd : 0 < d).
  { destruct (Z.le_gt_cases d 0) as [H|H]; [|exact H].
    exfalso. assert (2 ^ d <= 2 ^ 0) by (apply Z.pow_le_mono_r; lia).
    change (2 ^ 0) with 1 in *. lia. }
  destruct (Z.lt_trichotomy d' d) as [H | [H | H]]; [|exact H|].
  - exfalso. assert (2 ^ d' <= 2 ^ (d - 1)) by (apply Z.pow_le_mono_r; lia).
    lia.
  - exfalso. assert (2 ^ d <= 2 ^ (d' - 1)) by (apply Z.pow_le_mono_r; lia).
    lia.
Qed.

Lemma digits2_pos_shift (z q : positive) (t : Z) :
  0 <= t -> Zpos q = Zpos z * 2 ^ t ->
  Zpos (digits2_pos q) = Zpos (digits2_pos z) + t.
Proof.
  intros Ht E. apply digits2_pos_unique. rewrite E.
  pose proof (digits2_pos_bounds z) as [L U].
  replace (Zpos (digits2_pos z) + t - 1) with (Zpos (digits2_pos z) - 1 + t)
    by lia.
  rewrite !Z.pow_add_r by lia.
  assert (0 < 2 ^ t) by (apply Z.pow_pos_nonneg; lia).
  split; nia.
Qed.

Lemma shr_1_even (q : positive) :
  shr_1 {| shr_m := Zpos (xO q); shr_r := false; shr_s := false |}
  = {| shr_m := Zpos q; shr_r := false; shr_s := false |}.
Proof. reflexivity. Qed.

(** Shifting right a multiple of a power of two loses nothing. *)
Lemma iter_pos_shr_1 (n : positive) :
  forall (q : positive) (t : Z),
    Zpos n <= t ->
    (exists z : positive, Zpos q = Zpos z * 2 ^ t) ->
    exists q' : positive,
      iter_pos shr_1 n {| shr_m := Zpos q; shr_r := false; shr_s := false |}
      = {| shr_m := Zpos q'; shr_r := false; shr_s := false |} /\
      Zpos q = Zpos q' * 2 ^ Zpos n.
Proof.
  assert (one : forall (q : positive) (t : Z),
            1 <= t -> (exists z : positive, Zpos q = Zpos z * 2 ^ t) ->
            exists q' : positive,
              shr_1 {| shr_m := Zpos q; shr_r := false; shr_s := false |}
              = {| shr_m := Zpos q'; shr_r := false; shr_s := false |} /\
              Zpos q = Zpos q' * 2).
  { intros q t Ht (z & E).
    assert (E2 : 2 ^ t = 2 * 2 ^ (t - 1)).
    { rewrite <- Z.pow_succ_r by lia. f_equal. lia. }
    assert (0 < 2 ^ (t - 1)) by (apply Z.pow_pos_nonneg; lia).
    destruct q as [q|q|]; [exfalso; lia| |exfalso; lia].
    exists q. split; [reflexivity|]. lia. }
  induction n as [n IH | n IH |]; intros q t Ht Hq.
  - cbn [iter_pos].
    destruct (one q t ltac:(lia) Hq) as (q1 & E1 & V1). rewrite E1.
    destruct Hq as (z & Ez).
    assert (P : 2 ^ t = 2 * 2 ^ (t - 1)).
    { rewrite <- Z.pow_succ_r by lia. f_equal. lia. }
    destruct (IH q1 (t - 1) ltac:(lia)) as (q2 & E2 & V2).
    { exists z. nia. }
    rewrite E2.
    assert (P2 : 2 ^ (t - 1) = 2 ^ Zpos n * 2 ^ (t - 1 - Zpos n)).
    { rewrite <- Z.pow_add_r by lia. f_equal. lia. }
    assert (0 < 2 ^ Zpos n) by (apply Z.pow_pos_nonneg; lia).
    destruct (IH q2 (t - 1 - Zpos n) ltac:(lia)) as (q3 & E3 & V3).
    { exists z. nia. }
    rewrite E3. exists q3. split; [reflexivity|].
    assert (P3 : 2 ^ Zpos n~1 = 2 ^ Zpos n * 2 ^ Zpos n * 2).
    { replace (Zpos n~1) with (Zpos n + Zpos n + 1) at 1 by lia.
      rewrite !Z.pow_add_r by lia. reflexivity. }
    rewrite P3. nia.
  - cbn [iter_pos].
    destruct Hq as (z & Ez).
    destruct (IH q t ltac:(lia)) as (q2 & E2 & V2); [exists z; exact Ez|].
    rewrite E2.
    assert (P2 : 2 ^ t = 2 ^ Zpos n * 2 ^ (t - Zpos n)).
    { rewrite <- Z.pow_add_r by lia. f_equal. lia. }
    assert (0 < 2 ^ Zpos n) by (apply Z.pow_pos_nonneg; lia).
    destruct (IH q2 (t - Zpos n) ltac:(lia)) as (q3 & E3 & V3).
    { exists z. nia. }
    rewrite E3. exists q3. split; [reflexivity|].
    assert (P3 : 2 ^ Zpos n~0 = 2 ^ Zpos n * 2 ^ Zpos n).
    { rewrite <- Z.pow_add_r by lia. f_equal. lia. }
    rewrite P3. nia.
  - cbn [iter_pos].
    destruct (one q t Ht Hq) as (q1 & E1 & V1). exists q1.
    split; [exact E1|]. change (2 ^ 1) with 2. exact V1.
Qed.
Lemma digits2_pos_le (z : positive) (n : Z) :
  Zpos z < 2 ^ n -> Zpos (digits2_pos z) <= n.
Proof.
  intros H. pose proof (digits2_pos_bounds z) as [L _].
  destruct (Z.le_gt_cases (Zpos (digits2_pos z)) n) as [G|G]; [exact G|].
  exfalso.
  assert (2 ^ n <= 2 ^ (Zpos (digits2_pos z) - 1))
    by (apply Z.pow_le_mono_r; lia).
  lia.
Qed.

Lemma whole_mantissa (z : positive) :
  Zpos (digits2_pos z) <= 53 ->
  Zpos (Z.to_pos (Zpos z * 2 ^ (53 - Zpos (digits2_pos z))))
  = Zpos z * 2 ^ (53 - Zpos (digits2_pos z)).
Proof.
  intros H. apply Z2Pos.id.
  assert (0 < 2 ^ (53 - Zpos (digits2_pos z)))
    by (apply Z.pow_pos_nonneg; lia).
  nia.
Qed.

(** The first step of rounding, on a mantissa that is a whole number times
    a power of two with at least 53 bits. *)
Lemma shr_fexp_whole (z q : positive) (t : Z) :
  0 <= t -> Zpos q = Zpos z * 2 ^ t ->
  Zpos (digits2_pos z) <= 53 -> 53 <= Zpos (digits2_pos z) + t ->
  shr_fexp prec emax (Zpos q) (- t) loc_Exact
  = ({| shr_m := Zpos (Z.to_pos (Zpos z * 2 ^ (53 - Zpos (digits2_pos z))));
        shr_r := false; shr_s := false |},
     Zpos (digits2_pos z) - 53).
Proof.
  intros Ht Eq Hd Hn.
  unfold shr_fexp, shr_record_of_loc, Zdigits2, fexp, emin, prec, emax.
  rewrite (digits2_pos_shift z q t Ht Eq).
  set (d := Zpos (digits2_pos z)) in *.
  replace (Z.max (d + t + - t - 53) (3 - 1024 - 53) - - t) with (d + t - 53)
    by lia.
  rewrite whole_mantissa by exact Hd. fold d.
  destruct (d + t - 53) as [|n|n] eqn:En; [|  |lia].
  - unfold shr. replace (53 - d) with t by lia. rewrite <- Eq.
    f_equal. lia.
  - unfold shr.
    destruct (iter_pos_shr_1 n q t ltac:(lia)) as (q' & E' & V');
      [exists z; exact Eq|].
    rewrite E'. f_equal; [|lia]. f_equal.
    assert (P : 2 ^ t = 2 ^ (53 - d) * 2 ^ Zpos n).
    { rewrite <- Z.pow_add_r by lia. f_equal. lia. }
    assert (0 < 2 ^ Zpos n) by (apply Z.pow_pos_nonneg; lia).
    nia.
Qed.

Lemma binary_round_aux_whole (s : bool) (z q : positive) (t : Z) :
  0 <= t -> Zpos q = Zpos z * 2 ^ t ->
  Zpos (digits2_pos z) <= 53 -> 53 <= Zpos (digits2_pos z) + t ->
  binary_round_aux prec emax s (Zpos q) (- t) loc_Exact = whole_finite s z.
Proof.
  intros Ht Eq Hd Hn. unfold binary_round_aux.
  rewrite (shr_fexp_whole z q t Ht Eq Hd Hn).
  cbn [shr_m loc_of_shr_record round_nearest_even].
  set (d := Zpos (digits2_pos z)) in *.
  replace (d - 53) with (- (53 - d)) by lia.
  rewrite (shr_fexp_whole z _ (53 - d)); fold d;
    [|lia|apply whole_mantissa; exact Hd|exact Hd|lia].
  cbn [shr_m]. unfold whole_finite. fold d.
  replace (d - 53 <=? emax - prec) with true; [reflexivity|].
  symmetry. apply Z.leb_le. unfold emax, prec. lia.
Qed.

Lemma binary_round_whole (s : bool) (z q : positive) (t : Z) :
  0 <= t -> Zpos q = Zpos z * 2 ^ t ->
  Zpos (digits2_pos z) <= 53 ->
  binary_round prec emax s q (- t) = whole_finite s z.
Proof.
  intros Ht Eq Hd. unfold binary_round.
  rewrite (digits2_pos_shift z q t Ht Eq).
  set (d := Zpos (digits2_pos z)) in *.
  replace (fexp prec emax (d + t + - t)) with (- (53 - d))
    by (unfold fexp, emin, prec, emax; lia).
  unfold shl_align.
  replace (- (53 - d) - - t) with (d - 53 + t) by lia.
  destruct (d - 53 + t) as [|n|n] eqn:En.
  - apply binary_round_aux_whole; auto. fold d. lia.
  - apply binary_round_aux_whole; auto. fold d. lia.
  - apply binary_round_aux_whole; fold d; [lia| |exact Hd|lia].
    rewrite iter_xO_pow, Eq, <- Z.mul_assoc. f_equal.
    rewrite <- Z.pow_add_r by lia. f_equal. lia.
Qed.

Lemma binary_normalize_whole (k : Z) (t : Z) :
  0 <= t -> - 2 ^ 53 < k < 2 ^ 53 ->
  binary_normalize prec emax (k * 2 ^ t) (- t) false = whole k.
Proof.
  intros Ht Hk.
  assert (P : 0 < 2 ^ t) by (apply Z.pow_pos_nonneg; lia).
  destruct k as [|z|z].
  - reflexivity.
  - destruct (Zpos z * 2 ^ t) as [|q|q] eqn:E; [lia| |lia].
    apply binary_round_whole; auto. apply digits2_pos_le. lia.
  - destruct (Zneg z * 2 ^ t) as [|q|q] eqn:E; [lia|lia|].
    apply binary_round_whole; auto; [lia|]. apply digits2_pos_le. lia.
Qed.

Lemma whole_valid (k : Z) :
  - 2 ^ 53 < k < 2 ^ 53 -> valid_binary (whole k) = true.
Proof.
  intros Hk.
  assert (V : forall s z, Zpos z < 2 ^ 53 ->
                          valid_binary (whole_finite s z) = true).
  { intros s z Hz. pose proof (digits2_pos_le z 53 Hz) as Hd.
    unfold whole_finite, valid_binary, bounded, canonical_mantissa.
    rewrite (digits2_pos_shift z _ (53 - Zpos (digits2_pos z)));
      [|lia|apply whole_mantissa; exact Hd].
    unfold fexp, emin, prec, emax.
    apply andb_true_intro. split; [apply Z.eqb_eq|apply Z.leb_le]; lia. }
  destruct k; [reflexivity|apply V; lia|apply V; lia].
Qed.

Lemma S754_finite_inj (s s' : bool) (m m' : positive) (e e' : Z) :
  S754_finite s m e = S754_finite s' m' e' -> s = s' /\ m = m' /\ e = e'.
Proof. intros H. inversion H. auto. Qed.

Lemma whole_finite_inj (s : bool) (z z' : positive) :
  Zpos (digits2_pos z) <= 53 -> Zpos (digits2_pos z') <= 53 ->
  whole_finite s z = whole_finite s z' -> z = z'.
Proof.
  intros Hd Hd' E. unfold whole_finite in E.
  apply S754_finite_inj in E as (_ & Em & Ee).
  assert (D : Zpos (digits2_pos z) = Zpos (digits2_pos z')) by lia.
  pose proof (whole_mantissa z Hd) as M.
  pose proof (whole_mantissa z' Hd') as M'.
  rewrite Em, M' in M. rewrite D in M.
  assert (0 < 2 ^ (53 - Zpos (digits2_pos z')))
    by (apply Z.pow_pos_nonneg; lia).
  assert (Zpos z = Zpos z') by nia. congruence.
Qed.
Lemma digits2_pos_scaled (z p : positive) :
  Zpos p = Zpos z * Zpos scale ->
  Zpos (digits2_pos z) + 26 <= Zpos (digits2_pos p)
                            <= Zpos (digits2_pos z) + 27.
Proof.
  intros E.
  pose proof (digits2_pos_bounds z) as [L U].
  pose proof (digits2_pos_bounds p) as [L1 U1].
  set (d := Zpos (digits2_pos z)) in *. set (d1 := Zpos (digits2_pos p)) in *.
  assert (Hd : 1 <= d) by (unfold d; lia).
  rewrite E in L1, U1. unfold scale in L1, U1.
  assert (A : 2 ^ (d + 27) = 2 ^ d * 134217728).
  { rewrite Z.pow_add_r by lia. reflexivity. }
  assert (B : 2 ^ (d + 25) = 2 ^ (d - 1) * 67108864).
  { replace (d + 25) with (d - 1 + 26) by lia.
    rewrite Z.pow_add_r by lia. reflexivity. }
  assert (P : 0 < 2 ^ (d - 1)) by (apply Z.pow_pos_nonneg; lia).
  split.
  - destruct (Z.le_gt_cases (d + 26) d1) as [G|G]; [exact G|]. exfalso.
    assert (2 ^ d1 <= 2 ^ (d + 25)) by (apply Z.pow_le_mono_r; lia). nia.
  - destruct (Z.le_gt_cases d1 (d + 27)) as [G|G]; [exact G|]. exfalso.
    assert (2 ^ (d + 27) <= 2 ^ (d1 - 1)) by (apply Z.pow_le_mono_r; lia). nia.
Qed.

(** The division of a whole number of units by the scale leaves no
    remainder. *)
Lemma SFdiv_core_scale (z p : positive) :
  Zpos p = Zpos z * Zpos scale -> Zpos (digits2_pos z) <= 53 ->
  exists (t : Z) (q : positive),
    SFdiv_core_binary prec emax (Zpos p) 0 (Zpos scale) 0
    = (Zpos q, - t, loc_Exact) /\
    0 <= t /\ Zpos q = Zpos z * 2 ^ t /\ 53 <= Zpos (digits2_pos z) + t.
Proof.
  intros E Hd. pose proof (digits2_pos_scaled z p E) as [L U].
  unfold SFdiv_core_binary. cbn [Zdigits2].
  change (Zpos (digits2_pos scale)) with 27.
  set (d := Zpos (digits2_pos z)) in *. set (d1 := Zpos (digits2_pos p)) in *.
  replace (Z.min (fexp prec emax (d1 + 0 - (27 + 0))) (0 - 0)) with (- (80 - d1))
    by (unfold fexp, emin, prec, emax; lia).
  replace (0 - 0 - - (80 - d1)) with (80 - d1) by lia.
  assert (P : 0 < 2 ^ (80 - d1)) by (apply Z.pow_pos_nonneg; lia).
  set (m' := match 80 - d1 with
             | 0 => Zpos p
             | Zpos _ => Z.shiftl (Zpos p) (80 - d1)
             | Zneg _ => 0
             end).
  assert (M : m' = Zpos z * 2 ^ (80 - d1) * Zpos scale).
  { unfold m'. destruct (80 - d1) as [|n|n] eqn:En; [| |lia].
    - rewrite E. change (2 ^ 0) with 1. lia.
    - rewrite Z.shiftl_mul_pow2, E by lia. lia. }
  clearbody m'.
  destruct (Z.div_eucl m' (Zpos scale)) as [q r] eqn:D.
  assert (Q : q = m' / Zpos scale) by (unfold Z.div; rewrite D; reflexivity).
  assert (R : r = m' mod Zpos scale)
    by (unfold Z.modulo; rewrite D; reflexivity).
  rewrite M, Z.div_mul in Q by discriminate.
  rewrite M, Z.mod_mul in R by discriminate. subst r.
  destruct q as [|q|q]; [lia| |lia].
  exists (80 - d1), q. split; [reflexivity|]. split; [lia|]. split; [exact Q|lia].
Qed.

Lemma SFdiv_scale (s : bool) (z p : positive) :
  Zpos p = Zpos z * Zpos scale -> Zpos (digits2_pos z) <= 53 ->
  SF64div (S754_finite s p 0) (S754_finite false scale 0) = whole_finite s z.
Proof.
  intros E Hd. unfold SF64div, SFdiv.
  destruct (SFdiv_core_scale z p E Hd) as (t & q & -> & Ht & Eq & Hn).
  replace (xorb s false) with s by (destruct s; reflexivity).
  apply binary_round_aux_whole; assumption.
Qed.

Lemma SF2Prim_zero : SF2Prim (S754_zero false) = zero.
Proof. reflexivity. Qed.

(** [parseFloat] of a whole number of coins is that number. *)
Lemma parseFloat_whole (k : Z) :
  - 2 ^ 53 < k < 2 ^ 53 -> parseFloat (k * Zpos scale) = SF2Prim (whole k).
Proof.
  intros Hk. destruct k as [|z|z].
  - reflexivity.
  - change (Zpos z * Zpos scale) with (Zpos (z * scale)).
    unfold parseFloat, whole. f_equal.
    apply SFdiv_scale; [lia|]. apply digits2_pos_le. lia.
  - change (Zneg z * Zpos scale) with (Zneg (z * scale)).
    unfold parseFloat, whole. f_equal.
    apply SFdiv_scale; [lia|]. apply digits2_pos_le. lia.
Qed.

Lemma Prim2SF_parseFloat_whole (k : Z) :
  - 2 ^ 53 < k < 2 ^ 53 -> Prim2SF (parseFloat (k * Zpos scale)) = whole k.
Proof.
  intros Hk. rewrite parseFloat_whole by exact Hk.
  apply Prim2SF_SF2Prim, whole_valid, Hk.
Qed.

Lemma whole_finite_cond (s : bool) (z : positive) :
  whole (cond_Zopp s (Zpos z)) = whole_finite s z.
Proof. destruct s; reflexivity. Qed.

Lemma whole_aligned (s : bool) (z : positive) (ez : Z) :
  Zpos (digits2_pos z) <= 53 -> ez <= Zpos (digits2_pos z) - 53 ->
  cond_Zopp s
    (Zpos (fst (shl_align
                  (Z.to_pos (Zpos z * 2 ^ (53 - Zpos (digits2_pos z))))
                  (Zpos (digits2_pos z) - 53) ez)))
  = cond_Zopp s (Zpos z) * 2 ^ (- ez).
Proof.
  intros Hd He. rewrite shl_align_value, whole_mantissa by assumption.
  set (d := Zpos (digits2_pos z)) in *.
  assert (P : 2 ^ (- ez) = 2 ^ (53 - d) * 2 ^ (d - 53 - ez)).
  { rewrite <- Z.pow_add_r by lia. f_equal. lia. }
  rewrite P. destruct s; unfold cond_Zopp; lia.
Qed.

Lemma whole_cases (k : Z) :
  - 2 ^ 53 < k < 2 ^ 53 ->
  k = 0 \/ exists s z, k = cond_Zopp s (Zpos z) /\ Zpos (digits2_pos z) <= 53.
Proof.
  intros Hk. destruct k as [|z|z]; [left; reflexivity| |]; right.
  - exists false, z. split; [reflexivity|]. apply digits2_pos_le. lia.
  - exists true, z. split; [reflexivity|]. apply digits2_pos_le. lia.
Qed.

(** Sums and differences of whole numbers are exact. *)
Lemma SFadd_whole (j k : Z) :
  - 2 ^ 53 < j < 2 ^ 53 -> - 2 ^ 53 < k < 2 ^ 53 ->
  - 2 ^ 53 < j + k < 2 ^ 53 ->
  SF64add (whole j) (whole k) = whole (j + k).
Proof.
  intros Hj Hk Hjk.
  destruct (whole_cases j Hj) as [-> | (sj & zj & -> & Dj)].
  { destruct k; reflexivity. }
  destruct (whole_cases k Hk) as [-> | (sk & zk & -> & Dk)].
  { rewrite Z.add_0_r. destruct sj; reflexivity. }
  rewrite !whole_finite_cond. unfold SF64add, SFadd, whole_finite.
  set (ez := Z.min (Zpos (digits2_pos zj) - 53) (Zpos (digits2_pos zk) - 53)).
  cbv zeta. rewrite !whole_aligned by (assumption || lia).
  rewrite <- Z.mul_add_distr_r.
  pose proof (binary_normalize_whole _ (- ez) ltac:(lia) Hjk) as K.
  rewrite Z.opp_involutive in K. exact K.
Qed.

Lemma SFsub_whole (j k : Z) :
  - 2 ^ 53 < j < 2 ^ 53 -> - 2 ^ 53 < k < 2 ^ 53 ->
  - 2 ^ 53 < j - k < 2 ^ 53 ->
  SF64sub (whole j) (whole k) = whole (j - k).
Proof.
  intros Hj Hk Hjk.
  destruct (whole_cases j Hj) as [-> | (sj & zj & -> & Dj)].
  { destruct k; reflexivity. }
  destruct (whole_cases k Hk) as [-> | (sk & zk & -> & Dk)].
  { rewrite Z.sub_0_r. destruct sj; reflexivity. }
  rewrite !whole_finite_cond. unfold SF64sub, SFsub, whole_finite.
  set (ez := Z.min (Zpos (digits2_pos zj) - 53) (Zpos (digits2_pos zk) - 53)).
  cbv zeta. rewrite !whole_aligned by (assumption || lia).
  rewrite <- Z.mul_sub_distr_r.
  pose proof (binary_normalize_whole _ (- ez) ltac:(lia) Hjk) as K.
  rewrite Z.opp_involutive in K. exact K.
Qed.

Lemma ltb_whole_zero (k : Z) :
  SFltb (whole k) (S754_zero false) = (k <? 0).
Proof. destruct k; reflexivity. Qed.

Lemma parseFloat_add_whole (j k : Z) :
  - 2 ^ 53 < j < 2 ^ 53 -> - 2 ^ 53 < k < 2 ^ 53 ->
  - 2 ^ 53 < j + k < 2 ^ 53 ->
  PrimFloat.add (parseFloat (j * Zpos scale)) (parseFloat (k * Zpos scale))
  = parseFloat ((j + k) * Zpos scale).
Proof.
  intros Hj Hk Hjk.
  rewrite <- (SF2Prim_Prim2SF (PrimFloat.add _ _)), add_spec.
  rewrite !Prim2SF_parseFloat_whole, SFadd_whole by assumption.
  symmetry. apply parseFloat_whole, Hjk.
Qed.

Lemma parseFloat_sub_whole (j k : Z) :
  - 2 ^ 53 < j < 2 ^ 53 -> - 2 ^ 53 < k < 2 ^ 53 ->
  - 2 ^ 53 < j - k < 2 ^ 53 ->
  PrimFloat.sub (parseFloat (j * Zpos scale)) (parseFloat (k * Zpos scale))
  = parseFloat ((j - k) * Zpos scale).
Proof.
  intros Hj Hk Hjk.
  rewrite <- (SF2Prim_Prim2SF (PrimFloat.sub _ _)), sub_spec.
  rewrite !Prim2SF_parseFloat_whole, SFsub_whole by assumption.
  symmetry. apply parseFloat_whole, Hjk.
Qed.

Lemma parseFloat_ltb_zero (k : Z) :
  - 2 ^ 53 < k < 2 ^ 53 ->
  PrimFloat.ltb (parseFloat (k * Zpos scale)) 0%float = (k <? 0).
Proof.
  intros Hk.
  rewrite ltb_spec, Prim2SF_zero, Prim2SF_parseFloat_whole by exact Hk.
  apply ltb_whole_zero.
Qed.
Lemma decimal_digits_le (fuel : nat) :
  forall n D : Z, 0 <= D -> n < 10 ^ D -> 0 <= decimal_digits fuel n <= D.
Proof.
  induction fuel as [|fuel IH]; intros n D HD Hn; cbn [decimal_digits]; [lia|].
  destruct (n <=? 0) eqn:E; [lia|]. apply Z.leb_gt in E.
  assert (1 <= D).
  { destruct (Z.eq_dec D 0) as [->|]; [|lia]. change (10 ^ 0) with 1 in Hn. lia. }
  assert (P : 10 ^ D = 10 * 10 ^ (D - 1)).
  { rewrite <- Z.pow_succ_r by lia. f_equal. lia. }
  assert (n / 10 < 10 ^ (D - 1)).
  { apply Z.div_lt_upper_bound; lia. }
  pose proof (IH (n / 10) (D - 1) ltac:(lia) ltac:(assumption)). lia.
Qed.

Lemma decimal_to_binary_whole (c : positive) (q : Z) :
  0 <= q -> Zpos c * 10 ^ q < 2 ^ 53 ->
  decimal_to_binary c q = whole (Zpos c * 10 ^ q).
Proof.
  intros Hq H.
  assert (P : 0 < 10 ^ q) by (apply Z.pow_pos_nonneg; lia).
  pose proof (binary_normalize_whole (Zpos c * 10 ^ q) 0 ltac:(lia)
                ltac:(lia)) as K.
  change (2 ^ 0) with 1 in K. rewrite Z.mul_1_r in K. change (- 0) with 0 in K.
  unfold decimal_to_binary. destruct q as [|q|q]; [exact K|exact K|lia].
Qed.

Lemma shortest_from_step (fuel : nat) (m : positive) (e num den q : Z) :
  0 <= q ->
  shortest_from fuel m e num den q
  = let lo := num / (den * 10 ^ q) in
    let ok c := match c with
                | Zpos p => same_finite (decimal_to_binary p q) m e
                | _ => false
                end in
    match ok lo, ok (lo + 1) with
    | true, true =>
        if 2 * num <=? (2 * lo + 1) * den * 10 ^ q then (lo, q) else (lo + 1, q)
    | true, false => (lo, q)
    | false, true => (lo + 1, q)
    | false, false =>
        match fuel with
        | O => (lo, q)
        | S fuel' => shortest_from fuel' m e num den (q - 1)
        end
    end.
Proof. intros Hq. destruct fuel, q; try lia; reflexivity. Qed.

Section Shortest.

Variable z : positive.
Hypothesis small : Zpos z < 10 ^ 12.

Let d : Z := Zpos (digits2_pos z).
Let m : positive := Z.to_pos (Zpos z * 2 ^ (53 - d)).

Lemma whole_digits_small : d <= 40.
Proof. apply digits2_pos_le. change (2 ^ 40) with 1099511627776. lia. Qed.

(** A candidate that reads back as the number is the number. *)
Lemma candidate_reads_back (c q : Z) :
  0 <= q -> c * 10 ^ q < 2 ^ 53 ->
  match c with
  | Zpos p => same_finite (decimal_to_binary p q) m (d - 53)
  | _ => false
  end = true ->
  c * 10 ^ q = Zpos z.
Proof.
  intros Hq Hc H. destruct c as [|p|p]; try discriminate.
  rewrite decimal_to_binary_whole in H by assumption.
  assert (P : 0 < 10 ^ q) by (apply Z.pow_pos_nonneg; lia).
  destruct (Zpos p * 10 ^ q) as [|x|x] eqn:E; try lia.
  unfold whole, whole_finite, same_finite in H.
  apply andb_prop in H as [Hm He].
  apply Pos.eqb_eq in Hm. apply Z.eqb_eq in He.
  pose proof whole_digits_small as Hd.
  f_equal. apply (whole_finite_inj false).
  - apply digits2_pos_le. lia.
  - fold d. lia.
  - unfold whole_finite. fold d. fold m. rewrite Hm, He. reflexivity.
Qed.

Lemma number_reads_back :
  same_finite (decimal_to_binary z 0) m (d - 53) = true.
Proof.
  pose proof whole_digits_small as Hd.
  rewrite decimal_to_binary_whole;
    [|lia|change (10 ^ 0) with 1; change (2 ^ 53) with 9007199254740992; lia].
  change (10 ^ 0) with 1. rewrite Z.mul_1_r.
  unfold whole, whole_finite, same_finite. fold d. fold m.
  rewrite Pos.eqb_refl, Z.eqb_refl. reflexivity.
Qed.

Lemma shortest_from_whole (fuel : nat) :
  forall q : Z,
    0 <= q <= 12 -> q <= Z.of_nat fuel ->
    exists c q' : Z,
      shortest_from fuel m (d - 53) (Zpos m) (2 ^ (53 - d)) q = (c, q') /\
      0 <= q' /\ c * 10 ^ q' = Zpos z.
Proof.
  pose proof whole_digits_small as Hd.
  assert (Em : Zpos m = Zpos z * 2 ^ (53 - d))
    by (apply whole_mantissa; fold d; lia).
  assert (P2 : 0 < 2 ^ (53 - d)) by (apply Z.pow_pos_nonneg; lia).
  induction fuel as [|fuel IH]; intros q Hq Hf.
  all: rewrite shortest_from_step by lia; cbv zeta.
  all: assert (P : 0 < 10 ^ q) by (apply Z.pow_pos_nonneg; lia).
  all: assert (Q : 10 ^ q <= 10 ^ 12) by (apply Z.pow_le_mono_r; lia).
  all: assert (Elo : Zpos m / (2 ^ (53 - d) * 10 ^ q) = Zpos z / 10 ^ q)
    by (rewrite Em, (Z.mul_comm (Zpos z)); apply Z.div_mul_cancel_l; lia).
  all: rewrite !Elo.
  all: pose proof (Z.mul_div_le (Zpos z) (10 ^ q) P) as L1.
  all: pose proof (Z.mul_succ_div_gt (Zpos z) (10 ^ q) P) as L2.
  all: set (lo := Zpos z / 10 ^ q) in *.
  all: assert (B : (lo + 1) * 10 ^ q < 2 ^ 53)
    by (change (2 ^ 53) with 9007199254740992;
        change (10 ^ 12) with 1000000000000 in *; lia).
  all: destruct (match lo with
                 | Zpos p => same_finite (decimal_to_binary p q) m (d - 53)
                 | _ => false
                 end) eqn:O1;
    destruct (match lo + 1 with
              | Zpos p => same_finite (decimal_to_binary p q) m (d - 53)
              | _ => false
              end) eqn:O2.
  all: try (apply candidate_reads_back in O1; [|lia|lia]).
  all: try (apply candidate_reads_back in O2; [|lia|lia]).
  all: try match goal with
           | |- context [if ?b then _ else _] => destruct b
           end.
  all: try (exists lo, q; split; [reflexivity|]; split; [lia|exact O1]).
  all: try (exists (lo + 1), q; split; [reflexivity|]; split; [lia|exact O2]).
  - exfalso. assert (q = 0) by lia. subst q.
    change (10 ^ 0) with 1 in *. unfold lo in O1. rewrite Z.div_1_r in O1.
    rewrite number_reads_back in O1. discriminate.
  - destruct (Z.eq_dec q 0) as [->|N].
    + exfalso. change (10 ^ 0) with 1 in *. unfold lo in O1.
      rewrite Z.div_1_r in O1. rewrite number_reads_back in O1. discriminate.
    + apply IH; lia.
Qed.

Lemma shortest_decimal_whole :
  exists c q : Z,
    shortest_decimal m (d - 53) = (c, q) /\ 0 <= q /\ c * 10 ^ q = Zpos z.
Proof.
  pose proof whole_digits_small as Hd.
  assert (Em : Zpos m = Zpos z * 2 ^ (53 - d))
    by (apply whole_mantissa; fold d; lia).
  assert (P2 : 0 < 2 ^ (53 - d)) by (apply Z.pow_pos_nonneg; lia).
  unfold shortest_decimal.
  destruct (d - 53) as [|n|n] eqn:E; [lia|lia|].
  replace (Zpos n) with (53 - d) by lia. rewrite <- E.
  replace (Zpos m / 2 ^ (53 - d)) with (Zpos z)
    by (rewrite Em; symmetry; apply Z.div_mul; lia).
  pose proof (decimal_digits_le 400 (Zpos z) 12 ltac:(lia) small) as Hq.
  apply shortest_from_whole; [exact Hq|].
  change (Z.of_nat 1500) with 1500. lia.
Qed.

End Shortest.

Lemma round_to_scale_whole (c q : Z) :
  0 <= q -> 0 <= c ->
  Z.of_N (round_to_scale c q) = c * 10 ^ q * Zpos scale.
Proof.
  intros Hq Hc. unfold round_to_scale.
  assert (P : 0 < 10 ^ (q + 8)) by (apply Z.pow_pos_nonneg; lia).
  assert (E : c * 10 ^ (q + 8) = c * 10 ^ q * Zpos scale).
  { rewrite Z.pow_add_r by lia. change (10 ^ 8) with (Zpos scale). lia. }
  destruct (q + 8) as [|s|s] eqn:Es; [lia| |lia].
  rewrite Z2N.id by nia. exact E.
Qed.

(** A whole number of coins is bound to the store as it is. *)
Lemma toNumeric_whole (k : Z) :
  - 10 ^ 12 < k < 10 ^ 12 ->
  toNumeric (parseFloat (k * Zpos scale)) = Some (k * Zpos scale).
Proof.
  intros Hk.
  assert (H53 : - 2 ^ 53 < k < 2 ^ 53)
    by (change (2 ^ 53) with 9007199254740992;
        change (10 ^ 12) with 1000000000000 in Hk; lia).
  unfold toNumeric. rewrite Prim2SF_parseFloat_whole by exact H53.
  assert (F : forall s z,
             Zpos z < 10 ^ 12 ->
             match whole_finite s z with
             | S754_zero _ => Some 0
             | S754_finite s m e =>
                 let (c, q) := shortest_decimal m e in
                 let mag := Z.of_N (round_to_scale c q) in
                 if mag <? numeric_limit then Some (cond_Zopp s mag) else None
             | _ => None
             end = Some (cond_Zopp s (Zpos z) * Zpos scale)).
  { intros s z Hz. unfold whole_finite.
    destruct (shortest_decimal_whole z Hz) as (c & q & -> & Hq & E).
    rewrite round_to_scale_whole by (try assumption; destruct c; lia).
    rewrite E.
    replace (Zpos z * Zpos scale <? numeric_limit) with true.
    - destruct s; reflexivity.
    - symmetry. apply Z.ltb_lt. unfold numeric_limit, scale.
      change (10 ^ 20) with 100000000000000000000.
      change (10 ^ 12) with 1000000000000 in Hz. lia. }
  destruct k as [|z|z]; [reflexivity| |].
  - apply (F false z). lia.
  - apply (F true z). lia.
Qed.

(** ** Whole coins *)

Lemma whole_range (k : Z) :
  - 10 ^ 12 < k < 10 ^ 12 -> - 2 ^ 53 < k < 2 ^ 53.
Proof.
  change (2 ^ 53) with 9007199254740992.
  change (10 ^ 12) with 1000000000000. lia.
Qed.

Lemma whole_range_sum (j k : Z) :
  - 10 ^ 12 < j < 10 ^ 12 -> - 10 ^ 12 < k < 10 ^ 12 ->
  - 2 ^ 53 < j + k < 2 ^ 53 /\ - 2 ^ 53 < j - k < 2 ^ 53.
Proof.
  change (2 ^ 53) with 9007199254740992.
  change (10 ^ 12) with 1000000000000. lia.
Qed.

(** X20. Whole coins are posted exactly.  When the two balances and the
    amount are whole numbers of coins, all within the range of
    NUMERIC(20,8) before and after, the binary64 difference and sum the
    posting engine computes are the exact ones and the store keeps them as
    they are: a user account is refused exactly when its balance is below
    the amount, and otherwise the two journal entries and the two balance
    rows carry the old balance minus the amount and the old balance plus
    the amount. *)
Theorem postDoubleEntry_whole_coins (tx : uuid) (D C : Account) (asset : uuid)
  (s : session) (d c m : Z) :
  balance D = d * Zpos scale -> balance C = c * Zpos scale ->
  0 < m < 10 ^ 12 ->
  - 10 ^ 12 < d - m -> d < 10 ^ 12 ->
  - 10 ^ 12 < c -> c + m < 10 ^ 12 ->
  postDoubleEntry tx D C (parseFloat (m * Zpos scale)) asset s
  = if account_type_eqb (account_type_of D) USER && (d <? m)
    then (Throw INSUFFICIENT_BALANCE, s)
    else (Ok (parseFloat ((d - m) * Zpos scale),
              parseFloat ((c + m) * Zpos scale)),
          posted tx (id D) (id C) asset (m * Zpos scale)
            ((d - m) * Zpos scale) ((c + m) * Zpos scale) s).
Proof.
  intros HD HC Hm Hd1 Hd2 Hc1 Hc2.
  assert (Rm : - 10 ^ 12 < m < 10 ^ 12) by lia.
  assert (Rd : - 10 ^ 12 < d < 10 ^ 12) by lia.
  assert (Rc : - 10 ^ 12 < c < 10 ^ 12) by lia.
  assert (Sd : (parseFloat (balance D) - parseFloat (m * Zpos scale)%Z)%float
               = parseFloat ((d - m) * Zpos scale)).
  { rewrite HD. apply parseFloat_sub_whole; try (apply whole_range; assumption).
    apply whole_range_sum; assumption. }
  assert (Sc : (parseFloat (balance C) + parseFloat (m * Zpos scale)%Z)%float
               = parseFloat ((c + m) * Zpos scale)).
  { rewrite HC. apply parseFloat_add_whole; try (apply whole_range; assumption).
    apply whole_range_sum; assumption. }
  assert (G : (parseFloat ((d - m) * Zpos scale)%Z <? 0)%float = (d <? m)).
  { rewrite parseFloat_ltb_zero by (apply whole_range; lia).
    destruct (Z.ltb_spec (d - m) 0), (Z.ltb_spec d m); lia || reflexivity. }
  destruct (account_type_eqb (account_type_of D) USER && (d <? m)) eqn:G'.
  - unfold postDoubleEntry. rewrite Sd, G, G'. reflexivity.
  - rewrite (run_postDoubleEntry tx D C _ asset s (m * Zpos scale)
               ((d - m) * Zpos scale) ((c + m) * Zpos scale)).
    + rewrite Sd, Sc. reflexivity.
    + rewrite Sd, G. exact G'.
    + apply toNumeric_whole. exact Rm.
    + rewrite Sd. apply toNumeric_whole. lia.
    + rewrite Sc. apply toNumeric_whole. lia.
Qed.

Lemma postDoubleEntry_whole_coins_witness :
  postDoubleEntry "t1"%string seed_treasury seed_alice (parseFloat (100 * Zpos scale))
    Seed.GOLD Seed.db
  = (Ok (parseFloat ((0 - 100) * Zpos scale),
         parseFloat ((500 + 100) * Zpos scale)),
     posted "t1"%string Seed.treasury_gold Seed.alice Seed.GOLD (100 * Zpos scale)
       ((0 - 100) * Zpos scale) ((500 + 100) * Zpos scale) Seed.db) /\
  postDoubleEntry "t1"%string seed_alice seed_treasury (parseFloat (501 * Zpos scale))
    Seed.GOLD Seed.db
  = (Throw INSUFFICIENT_BALANCE, Seed.db).
Proof.
  split.
  - apply (postDoubleEntry_whole_coins "t1"%string seed_treasury seed_alice
             Seed.GOLD Seed.db 0 500 100);
      try reflexivity; split; reflexivity.
  - apply (postDoubleEntry_whole_coins "t1"%string seed_alice seed_treasury
             Seed.GOLD Seed.db 500 0 501);
      try reflexivity; split; reflexivity.
Defined.

Lemma locked_balance_cached (x : string) (rows_of : list string)
  (s : session)
  (user : Account) :
  find_account x (select_accounts_for_update rows_of s) = Some user ->
  exists v, In (balance user, v) (cached x s).
Proof.
  intros H. pose proof (find_account_id _ _ _ H) as Hid.
  unfold find_account in H. apply find_some in H as (H & _).
  apply select_accounts_for_update_In in H
    as (_ & a & ab & _ & _ & _ & Hab & E & ->).
  cbn [id join_row] in Hid. cbn [balance join_row].
  exists (ab_version ab). unfold cached, cached_rows.
  apply in_map_iff. exists ab. split; [reflexivity|].
  apply filter_In. split; [exact Hab|]. apply String.eqb_eq. congruence.
Qed.

Lemma signed_scale (f : flow) (m : Z) :
  signed f (m * Zpos scale) = signed f m * Zpos scale.
Proof. destruct f; cbn [signed]; lia. Qed.

(** X21. A flow on whole coins keeps the verdict of the audit.  When the
    stored balance of the user account and the amount are whole numbers
    of coins within the range of NUMERIC(20,8), a flow that has run
    afresh against another account answers with the exact new balance,
    the old one plus the amount for a top-up or a bonus and minus the
    amount for a spend, and the audit of the account reports afterwards
    both its balances moved by that amount, with the verdict it gave
    before. *)
Theorem flow_whole_coins (f : flow) (r : request) (i : inputs) (s s' : session)
  (resp : response) (cp : Account) (b m : Z) :
  first_row (select_idempotency_key (req_referenceId r) s) = None ->
  flow_body f r i s = (Ok resp, s') ->
  first_row (select_account_by_external_id (counterparty f) s) = Some cp ->
  id cp <> req_accountId r ->
  (forall bv, In bv (cached (req_accountId r) s) -> fst bv = b * Zpos scale) ->
  req_amount r = parseFloat (m * Zpos scale) ->
  - 10 ^ 12 < b < 10 ^ 12 -> 0 < m < 10 ^ 12 ->
  - 10 ^ 12 < b + signed f m < 10 ^ 12 ->
  balanceAfter resp = parseFloat ((b + signed f m) * Zpos scale) /\
  verify_balance_integrity (req_accountId r) s'
  = map (audit_shifted (signed f m * Zpos scale))
      (verify_balance_integrity (req_accountId r) s).
Proof.
  intros H1 E H2 Hne Hb Hm Rb Rm Rs.
  destruct (flow_body_fresh_run f r i s s' resp H1 E)
    as (cp' & user & a & uN & sN & F & Eu).
  assert (cp' = cp) by (destruct F as (_ & K & _); congruence).
  subst cp'.
  pose proof (proj1 (flow_audit_fresh f r i s s' resp cp user a uN sN F Hne))
    as V.
  cbv zeta in V.
  destruct F as (_ & _ & H3 & _ & _ & _ & Ea & _ & _ & -> & _).
  destruct (locked_balance_cached _ _ _ _ H3) as (v & Hv).
  pose proof (Hb _ Hv) as Bu. cbn [fst] in Bu.
  cbn [balanceAfter flow_response] in *.
  assert (A : user_after f r user = parseFloat ((b + signed f m) * Zpos scale)).
  { unfold user_after. rewrite Bu, Hm.
    assert (R2 : - 10 ^ 12 < m < 10 ^ 12) by lia.
    destruct f; cbn [signed] in *.
    - apply parseFloat_add_whole; apply whole_range; assumption.
    - apply parseFloat_add_whole; apply whole_range; assumption.
    - replace (b + - m) with (b - m) in * by lia.
      apply parseFloat_sub_whole; apply whole_range; assumption. }
  rewrite A in Eu. rewrite toNumeric_whole in Eu by exact Rs.
  rewrite Hm, toNumeric_whole in Ea by lia.
  injection Eu as <-. injection Ea as <-.
  split; [exact A|]. rewrite V.
  rewrite verify_balance_integrity_cached, !map_map.
  apply map_ext_in. intros bv Hbv. rewrite (Hb bv Hbv) in *.
  unfold audit_moved, audit_shifted.
  cbn [cached_balance ledger_balance is_consistent].
  rewrite signed_scale. f_equal; [lia|]. f_equal. lia.
Qed.

Lemma flow_whole_coins_witness :
  balanceAfter topup_alice_response = parseFloat (600 * Zpos scale) /\
  verify_balance_integrity Seed.alice topup_alice_done
  = [{| cached_balance := 600 * Zpos scale;
        ledger_balance := 600 * Zpos scale;
        is_consistent := true |}].
Proof.
  destruct topup_alice_runs as (H1 & E & H2 & N & _).
  assert (Hb : forall bv,
             In bv (cached (req_accountId topup_alice) Seed.db) ->
             fst bv = 500 * Zpos scale).
  { intros bv [<-|[]]. reflexivity. }
  assert (Hm : req_amount topup_alice = parseFloat (100 * Zpos scale))
    by (vm_compute; reflexivity).
  assert (Rb : - 10 ^ 12 < 500 < 10 ^ 12) by (split; reflexivity).
  assert (Rm : 0 < 100 < 10 ^ 12) by (split; reflexivity).
  assert (Rs : - 10 ^ 12 < 500 + signed TopUp 100 < 10 ^ 12)
    by (split; reflexivity).
  destruct (flow_whole_coins TopUp topup_alice (Seed.ins 0) Seed.db
              topup_alice_done topup_alice_response seed_treasury_read
              500 100 H1 E H2 N Hb Hm Rb Rm Rs) as (K1 & K2).
  split; [exact K1|].
  etransitivity; [exact K2|]. vm_compute. reflexivity.
Defined.
